(** * ai_crm_automation: the transport, the HubSpot record service and the
    orchestrator, embedded as state-passing functions.

    Every [async def] of the source becomes a function in the monad [M]:
    it takes the state of the run (the remote system, the requests put on
    the wire so far, the log records, the tools invoked) and gives back
    either the returned value or the raised exception, with the new state.
    [await] is sequencing.

    What the program calls and does not define is an interface: the remote
    endpoints ([Remote]), the address validation of pydantic ([Pydantic])
    and the scheduling of the tool runs of one step ([Asyncio]).  The
    theorems hold for every instance; the examples run on the instances
    that are defined next to them. *)

From stdpp Require Import gmap strings list fin_maps.
From Stdlib Require Import ZArith String Ascii DecimalString Lia.
From Stdlib Require Import Floats.SpecFloat.

(** ** Python values *)

(** What [Any] ranges over in this program: decoded JSON, request bodies,
    ids.  A [float] is an IEEE binary64 value, a [dict] a finite map from
    strings (Python compares dicts without regard to insertion order). *)
#[warnings="-register-all"]
Inductive value :=
| VNone
| VBool (b : bool)
| VInt (z : Z)
| VFloat (f : spec_float)
| VStr (s : string)
| VList (l : list value)
| VDict (m : gmap string value).

(** [bool(v)], the test made by [if v:] and [not v]. *)
Definition truthy (v : value) : bool :=
  match v with
  | VNone => false
  | VBool b => b
  | VInt z => negb (z =? 0)%Z
  | VFloat (S754_zero _) => false
  | VFloat _ => true
  | VStr s => negb (String.eqb s "")
  | VList l => match l with [] => false | _ :: _ => true end
  | VDict m => negb (bool_decide (size m = 0))
  end.

(** Truth value of an [Optional[str]] field: [None] and [""] are false. *)
Definition truthy_str (o : option string) : bool :=
  match o with
  | Some s => negb (String.eqb s "")
  | None => false
  end.

(** [v is not None] *)
Definition is_not_None (v : value) : bool :=
  match v with VNone => false | _ => true end.

(** [isinstance(v, dict)] *)
Definition isinstance_dict (v : value) : bool :=
  match v with VDict _ => true | _ => false end.

(** [d.get(key, dflt)] on a dict. *)
Definition dict_get (d : gmap string value) (key : string) (dflt : value) : value :=
  default dflt (d !! key).

(** ** [float] formatting: [f"{x:g}"]

    The [g] presentation type with its default precision 6: the value is
    rounded to six significant digits (correctly, ties to even, on the exact
    binary value); with decimal exponent [x], scientific notation is used
    when [x < -4] or [x >= 6], fixed notation otherwise; trailing zeros and
    a trailing point are removed. *)

Definition decimal_of_Z (n : Z) : string :=
  NilZero.string_of_uint (N.to_uint (Z.to_N n)).

Fixpoint zeros (n : nat) : string :=
  match n with
  | O => EmptyString
  | S k => String "0" (zeros k)
  end.

Fixpoint strip_trailing_zeros (s : string) : string :=
  match s with
  | EmptyString => EmptyString
  | String c rest =>
      match strip_trailing_zeros rest with
      | EmptyString => if Ascii.eqb c "0" then EmptyString else String c EmptyString
      | rest' => String c rest'
      end
  end.

(** The largest [k] with [den * 10^k <= num], counted upwards. *)
Fixpoint exp10_up (fuel : nat) (num den k : Z) : Z :=
  match fuel with
  | O => k
  | S f => if (den * 10 <=? num)%Z then exp10_up f num (den * 10)%Z (k + 1)%Z else k
  end.

(** The smallest [k] with [den <= num * 10^k], counted upwards. *)
Fixpoint exp10_down (fuel : nat) (num den k : Z) : Z :=
  match fuel with
  | O => k
  | S f => if (den <=? num)%Z then k else exp10_down f (num * 10)%Z den (k + 1)%Z
  end.

(** [floor (log10 (num / den))] for a positive fraction. *)
Definition decimal_exponent (num den : Z) : Z :=
  if (den <=? num)%Z
  then exp10_up (S (Z.to_nat (Z.log2 num))) num den 0
  else (- exp10_down (S (Z.to_nat (Z.log2 den))) num den 0)%Z.

Definition round_half_even (n d : Z) : Z :=
  let q := (n / d)%Z in
  let r := (n mod d)%Z in
  if (d <? 2 * r)%Z || ((d =? 2 * r)%Z && Z.odd q) then (q + 1)%Z else q.

(** The six significant digits of [num / den], as an integer in
    [[100000, 999999]], and the decimal exponent of the rounded value. *)
Definition significant6 (num den : Z) : Z * Z :=
  let x := decimal_exponent num den in
  let d := if (x <=? 5)%Z
           then round_half_even (num * 10 ^ (5 - x))%Z den
           else round_half_even num (den * 10 ^ (x - 5))%Z in
  if (d =? 1000000)%Z then (100000%Z, (x + 1)%Z) else (d, x).

Definition string_take (n : nat) (s : string) : string :=
  String.substring 0 n s.

Definition string_drop (n : nat) (s : string) : string :=
  String.substring n (String.length s - n) s.

Definition with_point (int_part frac : string) : string :=
  match strip_trailing_zeros frac with
  | EmptyString => int_part
  | f => int_part +:+ "." +:+ f
  end.

Definition format_g_finite (num den : Z) : string :=
  let '(d, x) := significant6 num den in
  let ds := decimal_of_Z d in
  if (x <? -4)%Z || (6 <=? x)%Z
  then
    with_point (string_take 1 ds) (string_drop 1 ds)
      +:+ "e" +:+ (if (x <? 0)%Z then "-" else "+")
      +:+ (if (Z.abs x <? 10)%Z then "0" else "") +:+ decimal_of_Z (Z.abs x)
  else if (0 <=? x)%Z
  then with_point (string_take (S (Z.to_nat x)) ds) (string_drop (S (Z.to_nat x)) ds)
  else with_point "0" (zeros (Z.to_nat (- x - 1)) +:+ ds).

Definition sign_prefix (s : bool) : string :=
  if s then "-" else "".

Definition format_g (f : spec_float) : string :=
  match f with
  | S754_zero s => sign_prefix s +:+ "0"
  | S754_infinity s => sign_prefix s +:+ "inf"
  | S754_nan => "nan"
  | S754_finite s m e =>
      sign_prefix s +:+
      (if (0 <=? e)%Z
       then format_g_finite (Z.pos m * 2 ^ e)%Z 1%Z
       else format_g_finite (Z.pos m) (2 ^ (- e))%Z)
  end.

(** The double [42.5]: [5981343255101440 * 2^-47], a 53-bit mantissa. *)
Definition float_42_5 : spec_float := S754_finite false 5981343255101440 (-47).

(** ** utils/error_handler.py and the exceptions of the libraries *)

Inductive exn :=
| ApiError (status : Z) (message : string) (details : value)
| ValidationError (message : string)
| HTTPError (message : string)          (* httpx.HTTPError and its subclasses *)
| TimeoutError                          (* asyncio.TimeoutError *)
| AttributeError (message : string)
| KeyError (message : string)
| TypeError (message : string)
| IndexError (message : string)
| PydanticValidationError (model : string)   (* pydantic.ValidationError *)
| OtherException (message : string).

Inductive outcome (A : Type) :=
| Returned (a : A)
| Raised (e : exn).
Arguments Returned {A} a.
Arguments Raised {A} e.

(** ** Formatted strings

    An f-string whose replacement fields are ids or error details is kept as
    its parts: the literal text and the values to be interpolated. *)
Inductive fpart :=
| Lit (s : string)
| Interp (v : value)        (* {v}: str(v) *)
| Dumps (v : value)         (* json.dumps(v) *)
| StrExn (e : exn).         (* str(e) *)

Definition fstring := list fpart.

(** [str(e)]: the message the exception was made with.  [ApiError] passes
    ["API error <status>: <message>"] to [Exception], [KeyError] shows the
    [repr] of its key and pydantic a report that opens with the number of
    errors: these three are never empty and never open with a slash. *)
Definition exn_text (e : exn) : option string :=
  match e with
  | ValidationError message | HTTPError message | AttributeError message
  | TypeError message | IndexError message | OtherException message => Some message
  | TimeoutError => Some ""
  | ApiError _ _ _ | KeyError _ | PydanticValidationError _ => None
  end.

(** The text of a part where it is a string of the program; [None] stands
    for a text that is not empty and does not open with a slash: [str] of a
    number opens with a digit, a sign or a letter ([inf], [nan]), of [None],
    [True] and [False] with a capital, of a list or a dict with its bracket,
    and [json.dumps] writes a quote, a bracket, a digit, a sign or a letter
    first. *)
Definition part_text (p : fpart) : option string :=
  match p with
  | Lit s => Some s
  | Interp (VStr s) => Some s
  | Interp _ => None
  | Dumps _ => None
  | StrExn e => exn_text e
  end.

(** [path.startswith("/")]: the first character of the first part that is
    not empty. *)
Fixpoint startswith_slash (path : fstring) : bool :=
  match path with
  | [] => false
  | p :: rest =>
      match part_text p with
      | Some EmptyString => startswith_slash rest
      | Some s => String.prefix "/" s
      | None => false
      end
  end.

(** ** Payloads (agents/hubspot_agent.py, agents/email_agent.py) *)

Module CreateContactInput.
Record t := make {
    email : string;
    first_name : option string;
    last_name : option string;
    phone : option string }.
End CreateContactInput.

Module UpdateContactInput.
Record t := make {
    email : string;
    first_name : option string;
    last_name : option string;
    phone : option string }.
End UpdateContactInput.

Module CreateDealInput.
Record t := make {
    name : option string;
    amount : option spec_float;
    stage : option string;
    pipeline : option string;
    associated_contact_email : option string }.
End CreateDealInput.

Module UpdateDealInput.
Record t := make {
    deal_id : string;
    name : option string;
    amount : option spec_float;
    stage : option string;
    pipeline : option string }.
End UpdateDealInput.

Module EmailPayload.
Record t := make {
    to : string;
    subject : string;
    html : string;
    text : option string }.
End EmailPayload.

(** ** pydantic: how a payload is made

    [Model(keyword=value, ...)] validates what it is given.  A field is read
    under its alias when it has one and under its name otherwise; a keyword
    that is neither is ignored, and a field that is not given keeps its
    default (the models of this program set neither [populate_by_name] nor
    [extra]).  An [EmailStr] is checked by the email-validator package,
    which is outside the program: the interface gives the address as the
    package normalises it, or [None] where it rejects the string.

    The keyword arguments of string type of one call are a map [kw] from
    keywords; the value [None] is Python's [None]. *)
Class Pydantic := mkPydantic { EmailStr : string -> option string }.


Definition and_then {A B} (o : outcome A) (k : A -> outcome B) : outcome B :=
  match o with
  | Returned a => k a
  | Raised e => Raised e
  end.

(** A field [Optional[str] = None]. *)
Definition optional_str (kw : gmap string (option string)) (key : string) : option string :=
  default None (kw !! key).

(** A field [str] without default. *)
Definition required_str (model : string) (kw : gmap string (option string))
    (key : string) : outcome string :=
  match kw !! key with
  | Some (Some s) => Returned s
  | _ => Raised (PydanticValidationError model)
  end.

Section Models.
Context `{!Pydantic}.

(** A field [EmailStr] without default. *)
Definition required_email (model : string) (kw : gmap string (option string))
    (key : string) : outcome string :=
  and_then (required_str model kw key) (fun s =>
  match EmailStr s with
  | Some address => Returned address
  | None => Raised (PydanticValidationError model)
  end).

(** A field [Optional[EmailStr] = None]. *)
Definition optional_email (model : string) (kw : gmap string (option string))
    (key : string) : outcome (option string) :=
  match optional_str kw key with
  | None => Returned None
  | Some s =>
      match EmailStr s with
      | Some address => Returned (Some address)
      | None => Raised (PydanticValidationError model)
      end
  end.

(** [first_name] and [last_name] have the aliases [firstName] and
    [lastName]. *)
Definition CreateContactInput_init (kw : gmap string (option string))
    : outcome CreateContactInput.t :=
  and_then (required_email "CreateContactInput" kw "email") (fun email =>
  Returned (CreateContactInput.make email (optional_str kw "firstName")
              (optional_str kw "lastName") (optional_str kw "phone"))).

Definition UpdateContactInput_init (kw : gmap string (option string))
    : outcome UpdateContactInput.t :=
  and_then (required_email "UpdateContactInput" kw "email") (fun email =>
  Returned (UpdateContactInput.make email (optional_str kw "firstName")
              (optional_str kw "lastName") (optional_str kw "phone"))).

(** [name] has the alias [dealName]; [amount] is the one keyword that is
    not a string, a float that the model keeps as it is. *)
Definition CreateDealInput_init (kw : gmap string (option string)) (amount : option spec_float)
    : outcome CreateDealInput.t :=
  and_then (optional_email "CreateDealInput" kw "associated_contact_email") (fun email =>
  Returned (CreateDealInput.make (optional_str kw "dealName") amount
              (optional_str kw "stage") (optional_str kw "pipeline") email)).

Definition UpdateDealInput_init (kw : gmap string (option string)) (amount : option spec_float)
    : outcome UpdateDealInput.t :=
  and_then (required_str "UpdateDealInput" kw "deal_id") (fun deal_id =>
  Returned (UpdateDealInput.make deal_id (optional_str kw "dealName") amount
              (optional_str kw "stage") (optional_str kw "pipeline"))).

Definition EmailPayload_init (kw : gmap string (option string)) : outcome EmailPayload.t :=
  and_then (required_email "EmailPayload" kw "to") (fun to =>
  and_then (required_str "EmailPayload" kw "subject") (fun subject =>
  and_then (required_str "EmailPayload" kw "html") (fun html =>
  Returned (EmailPayload.make to subject html (optional_str kw "text"))))).

End Models.

(** ** What travels: requests, responses, mail *)

Inductive http_method := GET | POST | PATCH | PUT | DELETE.

Module Request.
(** The arguments of [client.request] of httpx, with the base URL of the
    session that sends it. *)
Record t := make {
    base_url : string;
    method : http_method;
    url : fstring;
    headers : gmap string string;
    params : option value;
    json : option value }.
End Request.

Module Response.
(** [headers] are the header lines of the answer in their order, each a
    name and a value, as [httpx.Headers] keeps them.  [json] is what
    [response.json()] gives, [None] when it raises [ValueError]. *)
Record t := make {
    status_code : Z;
    headers : list (string * string);
    text : string;
    json : option value }.
End Response.

Module SmtpCall.
(** The arguments of [aiosmtplib.send]. *)
Record t := make {
    message : string;
    hostname : option string;
    port : Z;
    start_tls : bool;
    username : option string;
    password : option string;
    sender : string;
    recipients : list string }.
End SmtpCall.

(** What one [await client.request(...)] does: it raises or it answers. *)
Inductive exchange :=
| Raises (e : exn)
| Responds (r : Response.t).

(** The outside of the process: the HTTP endpoints and the SMTP server.
    They are the collaborators of the program, so they are an interface;
    the state [W] is theirs. *)
Class Remote (W : Type) := {
  http : W -> Request.t -> W * exchange;
  smtp : W -> SmtpCall.t -> W * option exn }.

(** ** Tool calls (the catalog of agents/orchestrator_agent.py)

    A call of one of the five tool functions of [_build_agent], with the
    arguments the function is called with. *)

Inductive ToolCall :=
| call_create_contact (email : string) (firstName lastName phone : option string)
| call_update_contact (email : string) (firstName lastName phone : option string)
| call_create_deal (dealName : option string) (amount : option spec_float)
    (stage pipeline associated_contact_email : option string)
| call_update_deal (deal_id : string) (dealName : option string)
    (amount : option spec_float) (stage pipeline : option string)
| call_send_confirmation_email (to subject : option string) (html : string).

(** ** utils/logger.py: the records handed to the logger *)

Inductive level := INFO | WARNING | ERROR.

Definition LogRecord : Type := level * string.

(** ** The state of a run and the monad of the coroutines *)

Record State (W : Type) := mkState {
  world : W;
  wire : list Request.t;        (* every request attempt, oldest first *)
  logs : list LogRecord;
  invoked : list ToolCall }.    (* tools entered, oldest first *)
Arguments mkState {W}.
Arguments world {W}.
Arguments wire {W}.
Arguments logs {W}.
Arguments invoked {W}.

Definition M (W A : Type) : Type := State W -> outcome A * State W.

Definition ret {W A} (a : A) : M W A := fun s => (Returned a, s).

Definition raise {W A} (e : exn) : M W A := fun s => (Raised e, s).

Definition bind {W A B} (m : M W A) (k : A -> M W B) : M W B :=
  fun s =>
    match m s with
    | (Returned a, s') => k a s'
    | (Raised e, s') => (Raised e, s')
    end.

(** [try: body  except: handler], the handler choosing by the exception
    (an exception it does not catch is raised again by it). *)
Definition try_except {W A} (body : M W A) (handler : exn -> M W A) : M W A :=
  fun s =>
    match body s with
    | (Returned a, s') => (Returned a, s')
    | (Raised e, s') => handler e s'
    end.

(** [try: body  except: handler] followed by the code after the statement,
    which runs when the body raised nothing and is not covered by the
    handler. *)
Definition try_except_then {W A B} (body : M W A) (handler : exn -> M W B)
    (after : A -> M W B) : M W B :=
  fun s =>
    match body s with
    | (Returned a, s') => after a s'
    | (Raised e, s') => handler e s'
    end.

Definition lift {W A} (o : outcome A) : M W A := fun s => (o, s).

Notation "x <- m ;; k" := (bind m (fun x => k))
  (at level 100, m at next level, right associativity).
Notation "m ;;; k" := (bind m (fun _ => k))
  (at level 100, right associativity).

Definition log {W} (lv : level) (msg : string) : M W unit :=
  fun s => (Returned tt, mkState (world s) (wire s) (logs s ++ [(lv, msg)]) (invoked s)).

Definition enter_tool {W} (c : ToolCall) : M W unit :=
  fun s => (Returned tt, mkState (world s) (wire s) (logs s) (invoked s ++ [c])).

(** [require(condition, message)] *)
Definition require {W} (condition : bool) (message : string) : M W unit :=
  if condition then ret tt else raise (ValidationError message).

(** ** Attribute and item access on values *)

(** [v.get(key, dflt)]: only a dict has [get]. *)
Definition py_get (v : value) (key : string) (dflt : value) : outcome value :=
  match v with
  | VDict d => Returned (dict_get d key dflt)
  | _ => Raised (AttributeError "object has no attribute 'get'")
  end.

(** [v[0]] *)
Definition py_item0 (v : value) : outcome value :=
  match v with
  | VList (x :: _) => Returned x
  | VList [] => Raised (IndexError "list index out of range")
  | VStr (String c _) => Returned (VStr (String c EmptyString))
  | VStr EmptyString => Raised (IndexError "string index out of range")
  | VDict _ => Raised (KeyError "0")
  | _ => Raised (TypeError "object is not subscriptable")
  end.

(** [needle in hay] on strings. *)
Definition contains (needle hay : string) : bool :=
  match String.index 0 needle hay with
  | Some _ => true
  | None => false
  end.

(** ** Letter case and the headers of httpx *)

(** [s.lower()] on the letters A to Z.  The names compared below are ASCII
    and no letter outside ASCII lowers to one of theirs, so every test on a
    lowered string comes out as in Python. *)
Definition lower_ascii (c : ascii) : ascii :=
  let n := nat_of_ascii c in
  if (65 <=? n)%nat && (n <=? 90)%nat then ascii_of_nat (n + 32) else c.

Fixpoint lower (s : string) : string :=
  match s with
  | EmptyString => EmptyString
  | String c rest => String (lower_ascii c) (lower rest)
  end.

(** [headers.get(key, dflt)] of [httpx.Headers]: the names of headers are
    compared without regard to letter case; the values of a header that
    comes several times are joined with [", "]. *)
Definition Headers_get (headers : list (string * string)) (key dflt : string) : string :=
  match List.filter (fun h => String.eqb (lower (fst h)) (lower key)) headers with
  | [] => dflt
  | items => String.concat ", " (List.map snd items)
  end.

(** ** utils/api_client.py *)

Record AsyncApiClient := mkClient {
  base_url : string;
  default_headers : gmap string string }.

(** [s.rstrip("/")] *)
Fixpoint rstrip_slash (s : string) : string :=
  match s with
  | EmptyString => EmptyString
  | String c rest =>
      match rstrip_slash rest with
      | EmptyString => if Ascii.eqb c "/" then EmptyString else String c EmptyString
      | rest' => String c rest'
      end
  end.

(** [AsyncApiClient.__init__]; the httpx session is opened on first use and
    carries nothing the requests below depend on beyond the base URL. *)
Definition AsyncApiClient_init (base_url : string)
    (default_headers : option (gmap string string)) : AsyncApiClient :=
  mkClient (rstrip_slash base_url) (default ∅ default_headers).

Definition _merge_headers (self : AsyncApiClient)
    (headers : option (gmap string string)) : gmap string string :=
  let merged := default_headers self in
  match headers with
  | Some h => if bool_decide (size h = 0) then merged else h ∪ merged
  | None => merged
  end.

(** [retry_if_exception_type((httpx.HTTPError, asyncio.TimeoutError))] *)
Definition retry_if_exception_type (e : exn) : bool :=
  match e with
  | HTTPError _ | TimeoutError => true
  | _ => false
  end.

(** [stop_after_attempt(3)] *)
Definition stop_after_attempt : nat := 3.

(** The body of a response as [request] decodes it. *)
Definition decode_body (response : Response.t) : value :=
  let content_type := Headers_get (Response.headers response) "Content-Type" "" in
  if contains "application/json" content_type
  then match Response.json response with
       | Some body => body
       | None => VStr (Response.text response)
       end
  else VStr (Response.text response).

(** The request that one attempt hands to [client.request]. *)
Definition outgoing (self : AsyncApiClient) (method : http_method)
    (path : fstring) (headers : option (gmap string string))
    (params json : option value) : Request.t :=
  let merged_headers := _merge_headers self headers in
  let url := if startswith_slash path then path else Lit "/" :: path in
  Request.make (base_url self) method url merged_headers params json.

Section Program.
Context {W : Type} `{!Remote W}.

(** The function that [@retry] decorates: one attempt. *)
Definition request_attempt (self : AsyncApiClient) (method : http_method)
    (path : fstring) (headers : option (gmap string string))
    (params json : option value) : M W value :=
  fun s =>
    let req := outgoing self method path headers params json in
    let '(w, x) := http (world s) req in
    let s1 := mkState w (wire s ++ [req]) (logs s) (invoked s) in
    match x with
    | Responds response =>
        let body := decode_body response in
        if (200 <=? Response.status_code response)%Z
           && (Response.status_code response <? 300)%Z
        then (Returned body, s1)
        else (log ERROR "HTTP error" ;;;
              raise (ApiError (Response.status_code response) "HTTP request failed" body)) s1
    | Raises exc =>
        if retry_if_exception_type exc
        then (log WARNING "Transient HTTP exception, will retry if attempts remain" ;;;
              raise exc) s1
        else (Raised exc, s1)
    end.

(** tenacity's loop with [reraise=True]: after a failed attempt the retry
    predicate is asked first, then the stop condition on the number of the
    attempt just made.  [fuel] bounds the [while True] of the library; the
    stop condition always fires first (see [retry_call_fuel]). *)
Fixpoint retry_call {A} (fuel attempt_number : nat) (fn : M W A) : M W A :=
  fun s =>
    match fn s with
    | (Returned a, s') => (Returned a, s')
    | (Raised e, s') =>
        if negb (retry_if_exception_type e) then (Raised e, s')
        else if (stop_after_attempt <=? attempt_number)%nat then (Raised e, s')
        else match fuel with
             | O => (Raised e, s')
             | S fuel' => retry_call fuel' (S attempt_number) fn s'
             end
    end.

Definition request (self : AsyncApiClient) (method : http_method)
    (path : fstring) (headers : option (gmap string string))
    (params json : option value) : M W value :=
  retry_call stop_after_attempt 1 (request_attempt self method path headers params json).

(** The callers of this program pass [json=] or nothing. *)
Definition get (self : AsyncApiClient) (path : fstring) (json : option value) : M W value :=
  request self GET path None None json.

Definition post (self : AsyncApiClient) (path : fstring) (json : option value) : M W value :=
  request self POST path None None json.

Definition patch (self : AsyncApiClient) (path : fstring) (json : option value) : M W value :=
  request self PATCH path None None json.

Definition put (self : AsyncApiClient) (path : fstring) (json : option value) : M W value :=
  request self PUT path None None json.

Definition delete (self : AsyncApiClient) (path : fstring) (json : option value) : M W value :=
  request self DELETE path None None json.

End Program.

(** ** agents/hubspot_agent.py *)

Record HubSpotAgent := mkHubSpot { client : AsyncApiClient }.

(** [x or y] on optional strings *)
Definition or_else (x y : option string) : option string :=
  if truthy_str x then x else y.

(** The string of a field when it is true ([None] otherwise). *)
Definition nonempty (o : option string) : option string :=
  if truthy_str o then o else None.

(** [HubSpotAgent.__init__]; [env_token] is [os.getenv("HUBSPOT_ACCESS_TOKEN")]. *)
Definition HubSpotAgent_init (api_key env_token : option string)
    (base_url : string) : outcome HubSpotAgent :=
  match nonempty (or_else api_key env_token) with
  | Some token =>
      Returned (mkHubSpot
        (AsyncApiClient_init base_url (Some {[ "Authorization" := "Bearer " +:+ token ]})))
  | None =>
      Raised (ValidationError
        "HubSpot access token is required. Set HUBSPOT_ACCESS_TOKEN or provide api_key.")
  end.

(** [if field: properties[key] = field] *)
Definition set_if_true (key : string) (field : option string)
    (properties : gmap string value) : gmap string value :=
  match nonempty field with
  | Some v => <[ key := VStr v ]> properties
  | None => properties
  end.

(** [if field is not None: properties[key] = field] *)
Definition set_if_not_None (key : string) (field : option value)
    (properties : gmap string value) : gmap string value :=
  match field with
  | Some v => <[ key := v ]> properties
  | None => properties
  end.

Definition search_query (email : string) : value :=
  VDict {[
    "filterGroups" := VList [
      VDict {[ "filters" := VList [
        VDict {[ "propertyName" := VStr "email";
                 "operator" := VStr "EQ";
                 "value" := VStr email ]} ] ]} ];
    "properties" := VList [VStr "email"; VStr "firstname"; VStr "lastname"; VStr "phone"];
    "limit" := VInt 1 ]}.

Definition contacts_path : fstring := [Lit "/crm/v3/objects/contacts"].
Definition contacts_search_path : fstring := [Lit "/crm/v3/objects/contacts/search"].
Definition contact_path (contact_id : value) : fstring :=
  [Lit "/crm/v3/objects/contacts/"; Interp contact_id].
Definition deals_path : fstring := [Lit "/crm/v3/objects/deals"].
Definition deal_path (deal_id : string) : fstring :=
  [Lit "/crm/v3/objects/deals/"; Interp (VStr deal_id)].
Definition association_path (deal_id contact_id : value) : fstring :=
  [Lit "/crm/v3/objects/deals/"; Interp deal_id; Lit "/associations/contacts/";
   Interp contact_id; Lit "/deal_to_contact"].

(** The [properties] dict of [create_contact]. *)
Definition create_contact_properties (payload : CreateContactInput.t) : gmap string value :=
  let properties := {[ "email" := VStr (CreateContactInput.email payload) ]} in
  let properties := set_if_true "firstname" (CreateContactInput.first_name payload) properties in
  let properties := set_if_true "lastname" (CreateContactInput.last_name payload) properties in
  set_if_true "phone" (CreateContactInput.phone payload) properties.

(** The [properties] dict of [update_contact]. *)
Definition update_contact_properties (payload : UpdateContactInput.t) : gmap string value :=
  let properties := ∅ in
  let properties :=
    set_if_not_None "firstname" (VStr <$> UpdateContactInput.first_name payload) properties in
  let properties :=
    set_if_not_None "lastname" (VStr <$> UpdateContactInput.last_name payload) properties in
  set_if_not_None "phone" (VStr <$> UpdateContactInput.phone payload) properties.

(** The first lines of [create_deal]: the name of the deal. *)
Definition deal_name (payload : CreateDealInput.t) : string :=
  match nonempty (CreateDealInput.name payload) with
  | Some deal_name => deal_name
  | None =>
      match nonempty (CreateDealInput.associated_contact_email payload) with
      | Some email => "Deal for " +:+ email
      | None =>
          match CreateDealInput.amount payload with
          | Some amount => "Deal " +:+ format_g amount
          | None => "Untitled Deal"
          end
      end
  end.

(** The [properties] dict of [create_deal]. *)
Definition create_deal_properties (payload : CreateDealInput.t) : gmap string value :=
  let properties := {[ "dealname" := VStr (deal_name payload) ]} in
  let properties :=
    set_if_not_None "amount" (VFloat <$> CreateDealInput.amount payload) properties in
  let properties := set_if_true "dealstage" (CreateDealInput.stage payload) properties in
  set_if_true "pipeline" (CreateDealInput.pipeline payload) properties.

(** The [properties] dict of [update_deal]. *)
Definition update_deal_properties (payload : UpdateDealInput.t) : gmap string value :=
  let properties := ∅ in
  let properties :=
    set_if_not_None "dealname" (VStr <$> UpdateDealInput.name payload) properties in
  let properties :=
    set_if_not_None "amount" (VFloat <$> UpdateDealInput.amount payload) properties in
  let properties :=
    set_if_not_None "dealstage" (VStr <$> UpdateDealInput.stage payload) properties in
  set_if_not_None "pipeline" (VStr <$> UpdateDealInput.pipeline payload) properties.

(** The body [{"properties": properties}]. *)
Definition properties_body (properties : gmap string value) : option value :=
  Some (VDict {[ "properties" := VDict properties ]}).

Section HubSpot.
Context {W : Type} `{!Remote W}.

Definition _get_contact_by_email (self : HubSpotAgent) (email : string) : M W value :=
  res <- post (client self) contacts_search_path (Some (search_query email)) ;;
  match res with
  | VDict d =>
      let results := dict_get d "results" (VList []) in
      if negb (truthy results) then ret VNone
      else lift (py_item0 results)
  | _ => ret VNone
  end.

Definition _find_contact_id_by_email (self : HubSpotAgent) (email : string) : M W value :=
  contact <- _get_contact_by_email self email ;;
  if negb (truthy contact) then ret VNone
  else lift (py_get contact "id" VNone).

Definition create_contact (self : HubSpotAgent) (payload : CreateContactInput.t) : M W value :=
  let email := CreateContactInput.email payload in
  let properties := create_contact_properties payload in
  try_except_then
    (post (client self) contacts_path (properties_body properties))
    (fun err =>
       match err with
       | ApiError status _ _ =>
           if (status =? 409)%Z
           then
             existing <- _get_contact_by_email self email ;;
             if truthy existing
             then
               contact_id <- lift (py_get existing "id" VNone) ;;
               log INFO "Contact already existed" ;;;
               props <- lift (py_get existing "properties" (VDict ∅)) ;;
               ret (VDict {[ "id" := contact_id;
                             "properties" := props;
                             "status" := VStr "existing" ]})
             else
               log WARNING "Contact conflict reported but existing record not found" ;;;
               raise err
           else raise err
       | _ => raise err
       end)
    (fun res =>
       log INFO "New contact created" ;;;
       ret res).

Definition update_contact (self : HubSpotAgent) (payload : UpdateContactInput.t) : M W value :=
  let email := UpdateContactInput.email payload in
  contact_id <- _find_contact_id_by_email self email ;;
  require (is_not_None contact_id) ("Contact not found for email " +:+ email) ;;;
  patch (client self) (contact_path contact_id)
    (properties_body (update_contact_properties payload)).

Definition create_deal (self : HubSpotAgent) (payload : CreateDealInput.t) : M W value :=
  let properties := create_deal_properties payload in
  create_resp <- post (client self) deals_path (properties_body properties) ;;
  deal_id <- lift (py_get create_resp "id" VNone) ;;
  match nonempty (CreateDealInput.associated_contact_email payload) with
  | Some email =>
      contact_id <- _find_contact_id_by_email self email ;;
      require (is_not_None contact_id) ("Contact not found for email " +:+ email) ;;;
      put (client self) (association_path deal_id contact_id) None ;;;
      ret create_resp
  | None => ret create_resp
  end.

Definition update_deal (self : HubSpotAgent) (payload : UpdateDealInput.t) : M W value :=
  patch (client self) (deal_path (UpdateDealInput.deal_id payload))
    (properties_body (update_deal_properties payload)).

End HubSpot.

(** ** agents/email_agent.py *)

Record SmtpConfig := mkSmtp {
  host : option string;
  port : Z;
  username : option string;
  password : option string;
  use_tls : bool }.

(** The agent as [__init__] leaves it. *)
Record EmailAgent := mkEmail {
  provider : string;
  from_email : string;
  default_confirmation_recipient : option string;
  _http_client : option AsyncApiClient;
  _smtp : SmtpConfig }.

Definition CRLF : string := String "013" (String "010" EmptyString).

Definition sendgrid_body (self : EmailAgent) (payload : EmailPayload.t) : value :=
  VDict {[
    "personalizations" := VList [
      VDict {[ "to" := VList [VDict {[ "email" := VStr (EmailPayload.to payload) ]}] ]} ];
    "from" := VDict {[ "email" := VStr (from_email self) ]};
    "subject" := VStr (EmailPayload.subject payload);
    "content" := VList [
      VDict {[ "type" := VStr "text/plain";
               "value" := VStr (default "" (nonempty (EmailPayload.text payload))) ]};
      VDict {[ "type" := VStr "text/html";
               "value" := VStr (EmailPayload.html payload) ]} ] ]}.

Definition resend_body (self : EmailAgent) (payload : EmailPayload.t) : value :=
  let body : gmap string value := {[
    "from" := VStr (from_email self);
    "to" := VList [VStr (EmailPayload.to payload)];
    "subject" := VStr (EmailPayload.subject payload);
    "html" := VStr (EmailPayload.html payload) ]} in
  VDict (set_if_true "text" (EmailPayload.text payload) body).

Definition smtp_call (self : EmailAgent) (payload : EmailPayload.t) : SmtpCall.t :=
  let message :=
    "From: " +:+ from_email self +:+ CRLF +:+
    "To: " +:+ EmailPayload.to payload +:+ CRLF +:+
    "Subject: " +:+ EmailPayload.subject payload +:+ CRLF +:+
    "MIME-Version: 1.0" +:+ CRLF +:+
    "Content-Type: text/html; charset=utf-8" +:+ CRLF +:+ CRLF +:+
    EmailPayload.html payload in
  SmtpCall.make message (host (_smtp self)) (port (_smtp self)) (use_tls (_smtp self))
    (username (_smtp self)) (password (_smtp self)) (from_email self)
    [EmailPayload.to payload].

Section Email.
Context {W : Type} `{!Remote W} `{!Pydantic}.

Definition with_http_client (self : EmailAgent) (k : AsyncApiClient -> M W value) : M W value :=
  match _http_client self with
  | Some c => k c
  | None => raise (AttributeError "'NoneType' object has no attribute 'post'")
  end.

Definition send (self : EmailAgent) (payload : EmailPayload.t) : M W value :=
  if String.eqb (provider self) "sendgrid" then
    res <- with_http_client self (fun c => post c [Lit "/mail/send"] (Some (sendgrid_body self payload))) ;;
    ret (VDict {[ "status" := VStr "queued"; "provider" := VStr "sendgrid"; "response" := res ]})
  else if String.eqb (provider self) "resend" then
    res <- with_http_client self (fun c => post c [Lit "/emails"] (Some (resend_body self payload))) ;;
    ret (VDict {[ "status" := VStr "queued"; "provider" := VStr "resend"; "response" := res ]})
  else
    fun s =>
      let '(w, failure) := smtp (world s) (smtp_call self payload) in
      let s1 := mkState w (wire s) (logs s) (invoked s) in
      match failure with
      | Some e => (Raised e, s1)
      | None => (Returned (VDict {[ "status" := VStr "sent"; "provider" := VStr "smtp" ]}), s1)
      end.

Definition send_confirmation (self : EmailAgent) (to_email : option string)
    (summary_html : string) (subject : option string) : M W value :=
  match or_else to_email (default_confirmation_recipient self) with
  | None => raise (ValidationError "No recipient email provided or configured for confirmation")
  | Some recipient =>
      let subject_final := default "CRM Action Confirmation" (nonempty subject) in
      payload <- lift (EmailPayload_init {[ "to" := Some recipient;
                                            "subject" := Some subject_final;
                                            "html" := Some summary_html ]}) ;;
      send self payload
  end.

End Email.

(** ** agents/orchestrator_agent.py *)

(** What the tool-calling agent decides at one step, given the request of
    the user and the observations (what the tools returned) so far: to
    finish, or the tool calls to make now.  [create_tool_calling_agent]
    builds an agent that may ask for several calls in one step. *)
Inductive AgentStep :=
| AgentActions (calls : list ToolCall)
| AgentFinish (return_values : gmap string value).

Definition Engine : Type := string -> list value -> AgentStep.

Record OrchestratorAgent := mkOrchestrator {
  hubspot : HubSpotAgent;
  email : EmailAgent;
  llm : Engine }.

(** What [run] returns: the output of the agent, or one of its two messages. *)
Inductive RunResult :=
| Output (v : value)
| Message (text : fstring).

(** The dict a tool serialises with [json.dumps]. *)
Definition tool_result (action : string) (res : value) : value :=
  VDict {[ "action" := VStr action; "result" := res ]}.

(** [AgentExecutor] of langchain, default [max_iterations]. *)
Definition max_iterations : nat := 15.

(** What the executor answers when it stops by itself (a multi-action
    agent, [early_stopping_method="force"]). *)
Definition stopped_response : gmap string value :=
  {[ "output" := VStr "Agent stopped due to max iterations." ]}.

(** [asyncio.gather] over the tool runs of one step.  The runs are tasks of
    one event loop: they are started in the order given and take turns at
    their awaits, in an order that the timing of the answers decides.  What
    several runs do together is therefore not a function of what each does
    alone, and it is left to this interface.  Nothing to run gives the empty
    list, and one run alone is that run. *)
Class Asyncio (W : Type) := {
  gather : list (M W value) -> M W (list value);
  gather_nil : forall s, gather [] s = (Returned [], s);
  gather_one : forall m s, gather [m] s = (x <- m ;; ret [x]) s }.

Section Orchestrator.
Context {W : Type} `{!Remote W} `{!Pydantic} `{!Asyncio W}.

(** The five tools of [_build_agent].  Each of the four record tools makes
    its payload anew from its arguments and passes the names by the names of
    the fields ([first_name=], [last_name=], [name=]), not by their
    aliases. *)
Definition run_tool (self : OrchestratorAgent) (c : ToolCall) : M W value :=
  enter_tool c ;;;
  match c with
  | call_create_contact email firstName lastName phone =>
      payload <- lift (CreateContactInput_init
                         {[ "email" := Some email; "first_name" := firstName;
                            "last_name" := lastName; "phone" := phone ]}) ;;
      res <- create_contact (hubspot self) payload ;;
      ret (tool_result "create_contact" res)
  | call_update_contact email firstName lastName phone =>
      payload <- lift (UpdateContactInput_init
                         {[ "email" := Some email; "first_name" := firstName;
                            "last_name" := lastName; "phone" := phone ]}) ;;
      res <- update_contact (hubspot self) payload ;;
      ret (tool_result "update_contact" res)
  | call_create_deal dealName amount stage pipeline associated_contact_email =>
      payload <- lift (CreateDealInput_init
                         {[ "name" := dealName; "stage" := stage; "pipeline" := pipeline;
                            "associated_contact_email" := associated_contact_email ]}
                         amount) ;;
      res <- create_deal (hubspot self) payload ;;
      ret (tool_result "create_deal" res)
  | call_update_deal deal_id dealName amount stage pipeline =>
      payload <- lift (UpdateDealInput_init
                         {[ "deal_id" := Some deal_id; "name" := dealName;
                            "stage" := stage; "pipeline" := pipeline ]}
                         amount) ;;
      res <- update_deal (hubspot self) payload ;;
      ret (tool_result "update_deal" res)
  | call_send_confirmation_email to subject html =>
      res <- send_confirmation (email self) to html subject ;;
      ret (tool_result "send_email" res)
  end.

(** The loop of [AgentExecutor._acall]: the executor asks the agent for a
    step, runs the tool calls of the step together and feeds the
    observations back, until the agent finishes or the iteration limit is
    hit.  It has no handler for what a tool raises. *)
Fixpoint agent_loop (iterations : nat) (self : OrchestratorAgent)
    (user_input : string) (observations : list value) : M W (gmap string value) :=
  match iterations with
  | O => ret stopped_response
  | S n =>
      match llm self user_input observations with
      | AgentFinish return_values => ret return_values
      | AgentActions calls =>
          new <- gather (List.map (run_tool self) calls) ;;
          agent_loop n self user_input (observations ++ new)
      end
  end.

(** [agent_executor.ainvoke({"input": user_input})].  [_acall] runs its
    loop under [except (TimeoutError, asyncio.TimeoutError)], the handler
    of its own time limit, which answers as when the executor stops by
    itself; every other exception leaves [ainvoke].  The dict returned is
    the outputs over the inputs. *)
Definition ainvoke (self : OrchestratorAgent) (user_input : string) : M W (gmap string value) :=
  outputs <- try_except (agent_loop max_iterations self user_input [])
               (fun e => match e with
                         | TimeoutError => ret stopped_response
                         | _ => raise e
                         end) ;;
  ret (outputs ∪ {[ "input" := VStr user_input ]}).

Definition run (self : OrchestratorAgent) (user_input : string) : M W RunResult :=
  try_except
    (result <- ainvoke self user_input ;;
     ret (Output (dict_get result "output" (VStr "Done"))))
    (fun e =>
       match e with
       | ApiError status message detail =>
           let detail_str :=
             match detail with
             | VDict _ | VList _ => Dumps detail
             | VNone => Lit message
             | _ => Interp detail
             end in
           log ERROR "Orchestrator run failed due to upstream API error" ;;;
           ret (Message [Lit "API error "; Interp (VInt status); Lit ": "; detail_str;
                         Lit ". Please verify your credentials and permissions."])
       | _ =>
           log ERROR "Orchestrator run failed" ;;;
           ret (Message [Lit "Sorry, something went wrong: "; StrExn e])
       end).

End Orchestrator.

(** ** Two remotes to run the program against *)

(** A scripted remote: the exchanges happen in the order of the script,
    whatever is asked; past the end of the script the connection fails. *)
Module Scripted.

Definition play (script : list exchange) (req : Request.t) : list exchange * exchange :=
  match script with
  | [] => ([], Raises (HTTPError "All connection attempts failed"))
  | x :: rest => (rest, x)
  end.

#[global] Instance remote : Remote (list exchange) :=
  {| http := play; smtp := fun script _ => (script, None) |}.

Definition json_response (status : Z) (body : value) : exchange :=
  Responds (Response.make status [("Content-Type", "application/json")] "" (Some body)).

Definition start (script : list exchange) : State (list exchange) :=
  mkState script [] [] [].

End Scripted.

(** An in-memory CRM that keeps the invariant of the data model: at most one
    contact per email.  Creating a contact whose email is taken answers 409;
    the search answers the contact stored under exactly that email. *)
Module MemCrm.

Record store := mkStore {
  contacts : gmap string (string * gmap string value);   (* email to (id, properties) *)
  next_id : Z }.

Definition record (c : string * gmap string value) : value :=
  VDict {[ "id" := VStr (fst c); "properties" := VDict (snd c) ]}.

Definition json_response (status : Z) (body : value) : exchange :=
  Responds (Response.make status [("Content-Type", "application/json")] "" (Some body)).

Definition created_email (json : option value) : option (string * gmap string value) :=
  match json with
  | Some (VDict body) =>
      match body !! "properties" with
      | Some (VDict properties) =>
          match properties !! "email" with
          | Some (VStr e) => Some (e, properties)
          | _ => None
          end
      | _ => None
      end
  | _ => None
  end.

Definition searched_email (json : option value) : option string :=
  match json with
  | Some (VDict query) =>
      match query !! "filterGroups" with
      | Some (VList (VDict group :: _)) =>
          match group !! "filters" with
          | Some (VList (VDict filter :: _)) =>
              match filter !! "value" with
              | Some (VStr e) => Some e
              | _ => None
              end
          | _ => None
          end
      | _ => None
      end
  | _ => None
  end.

Definition error_body (category message : string) : value :=
  VDict {[ "status" := VStr "error"; "category" := VStr category; "message" := VStr message ]}.

Definition create (st : store) (json : option value) : store * exchange :=
  match created_email json with
  | Some (e, properties) =>
      match contacts st !! e with
      | Some _ => (st, json_response 409 (error_body "CONFLICT" "Contact already exists"))
      | None =>
          let c := (decimal_of_Z (next_id st), properties) in
          (mkStore (<[ e := c ]> (contacts st)) (next_id st + 1), json_response 201 (record c))
      end
  | None => (st, json_response 400 (error_body "VALIDATION_ERROR" "Property values were not valid"))
  end.

Definition search (st : store) (json : option value) : store * exchange :=
  match searched_email json with
  | Some e =>
      match contacts st !! e with
      | Some c => (st, json_response 200 (VDict {[ "total" := VInt 1; "results" := VList [record c] ]}))
      | None => (st, json_response 200 (VDict {[ "total" := VInt 0; "results" := VList [] ]}))
      end
  | None => (st, json_response 400 (error_body "VALIDATION_ERROR" "Invalid search"))
  end.

Definition handle (st : store) (req : Request.t) : store * exchange :=
  match Request.method req, Request.url req with
  | POST, [Lit p] =>
      if String.eqb p "/crm/v3/objects/contacts" then create st (Request.json req)
      else if String.eqb p "/crm/v3/objects/contacts/search" then search st (Request.json req)
      else (st, json_response 404 (error_body "NOT_FOUND" "Not found"))
  | _, _ => (st, json_response 404 (error_body "NOT_FOUND" "Not found"))
  end.

#[global] Instance remote : Remote store :=
  {| http := handle; smtp := fun st _ => (st, None) |}.

End MemCrm.

(** ** The libraries, for the runs of the examples *)

Module Plain.

(** A validator that accepts the strings of the shape [local@domain.tld]
    without blanks and leaves them as they are. *)
Definition plain_address (s : string) : option string :=
  match String.index 0 "@" s with
  | Some (S n) =>
      if contains "." (string_drop (S (S n)) s) && negb (contains " " s)
      then Some s else None
  | _ => None
  end.

Definition pydantic : Pydantic := mkPydantic plain_address.

Section In_order.
Context {W : Type}.

(** An event loop on which no run has to wait: every run of a step goes to
    its end, in the order given, and [gather] raises the first exception
    that was raised, if any. *)
Fixpoint run_all (ms : list (M W value)) (s : State W) : list (outcome value) * State W :=
  match ms with
  | [] => ([], s)
  | m :: rest =>
      let '(o, s1) := m s in
      let '(os, s2) := run_all rest s1 in
      (o :: os, s2)
  end.

Fixpoint results (os : list (outcome value)) : outcome (list value) :=
  match os with
  | [] => Returned []
  | Raised e :: _ => Raised e
  | Returned x :: rest => and_then (results rest) (fun xs => Returned (x :: xs))
  end.

Definition gather_in_order (ms : list (M W value)) : M W (list value) :=
  fun s => let '(os, s') := run_all ms s in (results os, s').

Definition asyncio : Asyncio W.
Proof.
  refine {| gather := gather_in_order |}.
  - reflexivity.
  - intros m s. unfold gather_in_order, bind, ret. cbn [run_all].
    destruct (m s) as [[x | e] s1]; reflexivity.
Defined.

End In_order.

End Plain.

(** ** Vocabulary of the statements *)

(** The state after one more request went out and the remote moved to [w]. *)
Definition sent {W} (req : Request.t) (w : W) (s : State W) : State W :=
  mkState w (wire s ++ [req]) (logs s) (invoked s).

(** The state after one more log record. *)
Definition logged {W} (lv : level) (msg : string) (s : State W) : State W :=
  mkState (world s) (wire s) (logs s ++ [(lv, msg)]) (invoked s).

(** The state after one more tool was entered. *)
Definition entered {W} (c : ToolCall) (s : State W) : State W :=
  mkState (world s) (wire s) (logs s) (invoked s ++ [c]).

(** The lookup request of [_get_contact_by_email]. *)
Definition search_request (self : HubSpotAgent) (email : string) : Request.t :=
  outgoing (client self) POST contacts_search_path None None (Some (search_query email)).

(** The creation request of [create_contact]. *)
Definition create_request (self : HubSpotAgent) (payload : CreateContactInput.t) : Request.t :=
  outgoing (client self) POST contacts_path None None
    (properties_body (create_contact_properties payload)).

(** Coroutines that enter no tool. *)
Definition quiet {W A} (m : M W A) : Prop :=
  forall s, invoked (snd (m s)) = invoked s.

(** An agent that works through a fixed plan, one tool per step, and then
    finishes with [final]. *)
Definition follow_plan (plan : list ToolCall) (final : gmap string value) : Engine :=
  fun _ observations =>
    match plan !! List.length observations with
    | Some c => AgentActions [c]
    | None => AgentFinish final
    end.

(** The message [run] makes of an exception. *)
Definition failure_message (e : exn) : fstring :=
  match e with
  | ApiError status message detail =>
      [Lit "API error "; Interp (VInt status); Lit ": ";
       match detail with
       | VDict _ | VList _ => Dumps detail
       | VNone => Lit message
       | _ => Interp detail
       end;
       Lit ". Please verify your credentials and permissions."]
  | _ => [Lit "Sorry, something went wrong: "; StrExn e]
  end.

Definition failure_log (e : exn) : string :=
  match e with
  | ApiError _ _ _ => "Orchestrator run failed due to upstream API error"
  | _ => "Orchestrator run failed"
  end.

Section Sequences.
Context {W : Type} `{!Remote W} `{!Pydantic}.

(** The tools of a list run one after the other, each observation kept. *)
Fixpoint run_tools (self : OrchestratorAgent) (calls : list ToolCall) : M W (list value) :=
  match calls with
  | [] => ret []
  | c :: rest =>
      observation <- run_tool self c ;;
      observations <- run_tools self rest ;;
      ret (observation :: observations)
  end.

End Sequences.

(** ** Concrete runs *)

Module Examples.
Import Scripted.

Definition agent : HubSpotAgent :=
  mkHubSpot (AsyncApiClient_init "https://api.hubapi.com/"
               (Some {[ "Authorization" := "Bearer pat-na1-0000" ]})).

Definition mailer : EmailAgent :=
  mkEmail "smtp" "crm@example.com" (Some "ops@example.com") None
    (mkSmtp (Some "smtp.example.com") 587 None None true).

Definition ada : gmap string value :=
  {[ "id" := VStr "51"; "properties" := VDict {[ "email" := VStr "ada@example.com" ]} ]}.

Definition found (contact : gmap string value) : exchange :=
  json_response 200 (VDict {[ "total" := VInt 1; "results" := VList [VDict contact] ]}).

Definition not_found : exchange :=
  json_response 200 (VDict {[ "total" := VInt 0; "results" := VList [] ]}).

Definition conflict : exchange :=
  json_response 409 (VDict {[ "status" := VStr "error"; "category" := VStr "CONFLICT" ]}).

Definition server_error : exchange :=
  json_response 500 (VDict {[ "status" := VStr "error"; "message" := VStr "internal error" ]}).

Definition new_ada : CreateContactInput.t :=
  CreateContactInput.make "ada@example.com" (Some "Ada") None None.

Definition rename_bob : UpdateContactInput.t :=
  UpdateContactInput.make "bob@example.com" (Some "Bob") None (Some "").

Definition deal_for_bob : CreateDealInput.t :=
  CreateDealInput.make None (Some float_42_5) None None (Some "bob@example.com").

Definition deal_42_5 : CreateDealInput.t :=
  CreateDealInput.make None (Some float_42_5) None None None.

Definition created_deal : gmap string value :=
  {[ "id" := VStr "9001"; "properties" := VDict {[ "dealname" := VStr "Deal for bob@example.com" ]} ]}.

(** A plan of three operations and the confirmation mail; the second
    operation updates a contact the remote does not have. *)
Definition three_operations : list ToolCall :=
  [ call_create_contact "ada@example.com" (Some "Ada") None None;
    call_update_contact "bob@example.com" (Some "Bob") None (Some "");
    call_create_deal None (Some float_42_5) None None None;
    call_send_confirmation_email None None "<p>done</p>" ].

Definition orchestrator : OrchestratorAgent :=
  mkOrchestrator agent mailer
    (follow_plan three_operations {[ "output" := VStr "All done." ]}).

(** The remote creates the contact, then finds nobody for the update; it
    would go on to create the deal. *)
Definition three_operations_script : list exchange :=
  [ json_response 201 (VDict ada);
    not_found;
    json_response 201 (VDict created_deal) ].

End Examples.

(** ** Further vocabulary: the transport *)

(** [s.endswith("/")] *)
Fixpoint ends_with_slash (s : string) : bool :=
  match s with
  | EmptyString => false
  | String c rest =>
      match rest with
      | EmptyString => Ascii.eqb c "/"
      | String _ _ => ends_with_slash rest
      end
  end.

(** ["/" * n] *)
Fixpoint slashes (n : nat) : string :=
  match n with
  | O => EmptyString
  | S k => String "/" (slashes k)
  end.

(** The session of a client (utils/api_client.py, [ensure_session], [close],
    [__aenter__], [__aexit__]): [_client] is [None] or an httpx client that
    is open or closed.  [created] and [aclosed] count the clients
    constructed and the calls of [aclose]. *)
Module Session.

Record t := make {
  _client : option bool;      (* [Some is_closed] *)
  created : nat;
  aclosed : nat }.

Definition init : t := make None 0 0.

Definition is_open (self : t) : bool :=
  match _client self with
  | Some is_closed => negb is_closed
  | None => false
  end.

Definition ensure_session (self : t) : t :=
  match _client self with
  | Some false => self
  | _ => make (Some false) (S (created self)) (aclosed self)
  end.

Definition close (self : t) : t :=
  match _client self with
  | Some false => make (Some true) (created self) (S (aclosed self))
  | _ => self
  end.

Inductive call := Ensure_session | Close.

Definition step (self : t) (c : call) : t :=
  match c with
  | Ensure_session => ensure_session self
  | Close => close self
  end.

Definition run (calls : list call) (self : t) : t := fold_left step calls self.

End Session.

(** ** Further vocabulary: the record service *)

(** Coroutines whose requests all satisfy [P]. *)
Definition emits {W A} (P : Request.t -> Prop) (m : M W A) : Prop :=
  forall s, exists new, wire (snd (m s)) = wire s ++ new /\ Forall P new.

(** A request of the client [c] as the record service makes them: to its
    base URL, with its default headers, without query parameters, by one of
    the methods listed. *)
Definition from_client (c : AsyncApiClient) (methods : list http_method)
    (r : Request.t) : Prop :=
  Request.base_url r = base_url c
  /\ Request.headers r = default_headers c
  /\ Request.params r = None
  /\ In (Request.method r) methods.

(** The creation request of [create_deal]. *)
Definition create_deal_request (self : HubSpotAgent) (payload : CreateDealInput.t) : Request.t :=
  outgoing (client self) POST deals_path None None
    (properties_body (create_deal_properties payload)).

(** ** Construction: [EmailAgent.__init__] and main.py *)

(** The [config] dict of [EmailAgent.__init__], by the keys it reads; [None]
    is a missing key.  [smtp] is [config.get("smtp", {})] with the defaults
    that [send] reads it with. *)
Module EmailConfig.
Record t := make {
  provider : option string;
  from_email : option string;
  default_confirmation_recipient : option string;
  sendgrid_api_key : option string;         (* config["sendgrid"]["api_key"] *)
  resend_api_key : option string;           (* config["resend"]["api_key"] *)
  smtp : SmtpConfig }.
End EmailConfig.

Definition bearer_json_headers (key : string) : gmap string string :=
  {[ "Authorization" := "Bearer " +:+ key; "Content-Type" := "application/json" ]}.

Definition EmailAgent_init (config : EmailConfig.t) : outcome EmailAgent :=
  let provider := lower (default "sendgrid" (EmailConfig.provider config)) in
  match EmailConfig.from_email config with
  | None => Raised (KeyError "from_email")
  | Some from_email =>
      let self (_http_client : option AsyncApiClient) :=
        mkEmail provider from_email (EmailConfig.default_confirmation_recipient config)
          _http_client (EmailConfig.smtp config) in
      if String.eqb provider "sendgrid" then
        match nonempty (EmailConfig.sendgrid_api_key config) with
        | Some key =>
            Returned (self (Some (AsyncApiClient_init "https://api.sendgrid.com/v3"
                                    (Some (bearer_json_headers key)))))
        | None => Raised (ValidationError "SendGrid API key required for sendgrid provider")
        end
      else if String.eqb provider "resend" then
        match nonempty (EmailConfig.resend_api_key config) with
        | Some key =>
            Returned (self (Some (AsyncApiClient_init "https://api.resend.com"
                                    (Some (bearer_json_headers key)))))
        | None => Raised (ValidationError "Resend API key required for resend provider")
        end
      else if String.eqb provider "smtp" then
        if truthy_str (host (EmailConfig.smtp config))
        then Returned (self None)
        else Raised (ValidationError "SMTP host required for smtp provider")
      else Raised (ValidationError ("Unsupported email provider " +:+ provider))
  end.

(** The dict that [_config_from_env] builds. *)
Module Config.
Record t := make {
  openai_api_key : string;
  openai_model : string;
  hubspot_api_key : string;
  hubspot_base_url : string;
  email : EmailConfig.t }.
End Config.

Section Environment.
(** [int(s)] of Python on a string, [None] where it raises [ValueError]. *)
Variable int : string -> option Z.

(** main.py, [_config_from_env]; [env] is the environment of the process. *)
Definition _config_from_env (env : gmap string string) : outcome (option Config.t) :=
  let openai_key := env !! "OPENAI_API_KEY" in
  let hubspot_key := env !! "HUBSPOT_API_KEY" in
  let email_provider := lower (default "sendgrid" (env !! "EMAIL_PROVIDER")) in
  let from_email := env !! "EMAIL_FROM_EMAIL" in
  match nonempty openai_key, nonempty hubspot_key, nonempty from_email with
  | Some openai_key, Some hubspot_key, Some from_email =>
      match int (default "587" (env !! "SMTP_PORT")) with
      | None => Raised (OtherException "ValueError: invalid literal for int()")
      | Some port =>
          let use_tls :=
            let flag := lower (default "true" (env !! "SMTP_USE_TLS")) in
            String.eqb flag "1" || String.eqb flag "true" || String.eqb flag "yes" in
          let smtp := mkSmtp (env !! "SMTP_HOST") port (env !! "SMTP_USERNAME")
                        (env !! "SMTP_PASSWORD") use_tls in
          let config sendgrid resend :=
            Config.make openai_key (default "gpt-4o-mini" (env !! "OPENAI_MODEL"))
              hubspot_key (default "https://api.hubapi.com" (env !! "HUBSPOT_BASE_URL"))
              (EmailConfig.make (Some email_provider) (Some from_email)
                 (env !! "EMAIL_DEFAULT_CONFIRMATION_RECIPIENT") sendgrid resend smtp) in
          if String.eqb email_provider "sendgrid" then
            match nonempty (env !! "SENDGRID_API_KEY") with
            | Some sendgrid_key => Returned (Some (config (Some sendgrid_key) None))
            | None => Returned None
            end
          else if String.eqb email_provider "resend" then
            match nonempty (env !! "RESEND_API_KEY") with
            | Some resend_key => Returned (Some (config None (Some resend_key)))
            | None => Returned None
            end
          else if String.eqb email_provider "smtp" then
            if truthy_str (env !! "SMTP_HOST") then Returned (Some (config None None))
            else Returned None
          else Returned None
      end
  | _, _, _ => Returned None
  end.

End Environment.

(** main.py, [async_main]: the two agents built from the configuration. *)
Definition build_agents (env : gmap string string) (config : Config.t)
    : outcome (HubSpotAgent * EmailAgent) :=
  let hs_key := or_else (Some (Config.hubspot_api_key config)) (env !! "HUBSPOT_ACCESS_TOKEN") in
  match HubSpotAgent_init hs_key (env !! "HUBSPOT_ACCESS_TOKEN")
          (Config.hubspot_base_url config) with
  | Raised e => Raised e
  | Returned hubspot_agent =>
      match EmailAgent_init (Config.email config) with
      | Raised e => Raised e
      | Returned email_agent => Returned (hubspot_agent, email_agent)
      end
  end.

(** An [int] for the examples: plain decimal digits. *)
Definition int_of_digits (s : string) : option Z :=
  match NilEmpty.uint_of_string s with
  | Some (Decimal.Nil) => None
  | Some d => Some (Z.of_uint d)
  | None => None
  end.

(** ** api_server.py *)

(** [key in v] for a string [key] *)
Definition py_contains (key : string) (v : value) : outcome bool :=
  match v with
  | VDict d => Returned (bool_decide (is_Some (d !! key)))
  | VStr s => Returned (contains key s)
  | VList l =>
      Returned (existsb (fun x => match x with
                                  | VStr t => String.eqb t key
                                  | _ => false
                                  end) l)
  | _ => Raised (TypeError "argument is not iterable")
  end.

(** [v[key]] for a string [key] *)
Definition py_getitem (v : value) (key : string) : outcome value :=
  match v with
  | VDict d =>
      match d !! key with
      | Some x => Returned x
      | None => Raised (KeyError key)
      end
  | VStr _ | VList _ => Raised (TypeError "indices must be integers")
  | _ => Raised (TypeError "object is not subscriptable")
  end.

Module ApiServer.

(** [jsonify(body), status] *)
Definition Reply : Type := gmap string fstring * Z.

(** What a handler works on: whatever is behind [async_main], and the
    records given to the logger of the module. *)
Record Server (B : Type) := mkServer {
  backend : B;
  journal : list (level * fstring) }.
Arguments mkServer {B}.
Arguments backend {B}.
Arguments journal {B}.

Definition H (B A : Type) : Type := Server B -> outcome A * Server B.

Definition hret {B A} (a : A) : H B A := fun s => (Returned a, s).

Definition hlift {B A} (o : outcome A) : H B A := fun s => (o, s).

Definition hbind {B A C} (m : H B A) (k : A -> H B C) : H B C :=
  fun s =>
    match m s with
    | (Returned a, s') => k a s'
    | (Raised e, s') => (Raised e, s')
    end.

Definition hlog {B} (lv : level) (msg : fstring) : H B unit :=
  fun s => (Returned tt, mkServer (backend s) (journal s ++ [(lv, msg)])).

Section Handlers.
(** [s.strip()] *)
Variable strip : string -> string.
Context {B : Type}.
(** [loop.run_until_complete(async_main(query))] under [redirect_stdout]:
    what is behind it moves on, and it gives the text printed or raises. *)
Variable async_main : B -> fstring -> B * outcome string.

Local Notation "x <~ m ;; k" := (hbind m (fun x => k))
  (at level 100, m at next level, right associativity).

Definition run_main (query : fstring) : H B string :=
  fun s =>
    let '(b, out) := async_main (backend s) query in
    (out, mkServer b (journal s)).

(** [v.strip()]: only a string has it. *)
Definition py_strip (v : value) : outcome string :=
  match v with
  | VStr s => Returned (strip s)
  | _ => Raised (AttributeError "object has no attribute 'strip'")
  end.

(** [not data or key not in data] *)
Definition lacks (key : string) (data : value) : outcome bool :=
  if negb (truthy data) then Returned true
  else match py_contains key data with
       | Returned found => Returned (negb found)
       | Raised e => Raised e
       end.

(** [if data.get(key): query += part(data[key])] *)
Definition add_part (data : value) (key : string) (part : value -> fstring)
    (query : fstring) : outcome fstring :=
  match py_get data key VNone with
  | Raised e => Raised e
  | Returned v =>
      if truthy v
      then match py_getitem data key with
           | Returned x => Returned (query ++ part x)
           | Raised e => Raised e
           end
      else Returned query
  end.

(** [try: body  except Exception as e: log, answer 500] *)
Definition guarded (log_prefix error_prefix : string) (body : H B Reply)
    : Server B -> Reply * Server B :=
  fun s =>
    match body s with
    | (Returned reply, s') => (reply, s')
    | (Raised e, s') =>
        (({[ "error" := [Lit error_prefix; StrExn e]; "status" := [Lit "error"] ]}, 500%Z),
         mkServer (backend s') (journal s' ++ [(ERROR, [Lit log_prefix; StrExn e])]))
    end.

Definition chat (get_json : outcome value) : Server B -> Reply * Server B :=
  guarded "Error processing request: " "Internal server error: "
    (data <~ hlift get_json ;;
     missing <~ hlift (lacks "query" data) ;;
     if missing : bool
     then hret ({[ "error" := [Lit "Missing 'query' in request body"] ]}, 400%Z)
     else
       query <~ hlift (py_getitem data "query") ;;
       user_query <~ hlift (py_strip query) ;;
       if String.eqb user_query ""
       then hret ({[ "error" := [Lit "Query cannot be empty"] ]}, 400%Z)
       else
         _ <~ hlog INFO [Lit "Processing query: "; Lit user_query] ;;
         output <~ run_main [Lit user_query] ;;
         let response_text := strip output in
         let response_text :=
           if String.eqb response_text "" then "Request processed successfully"
           else response_text in
         _ <~ hlog INFO [Lit "Response: "; Lit response_text] ;;
         hret ({[ "response" := [Lit response_text]; "status" := [Lit "success"] ]}, 200%Z)).

Definition create_contact (get_json : outcome value) : Server B -> Reply * Server B :=
  guarded "Error creating contact: " "Failed to create contact: "
    (data <~ hlift get_json ;;
     missing <~ hlift (lacks "email" data) ;;
     if missing : bool
     then hret ({[ "error" := [Lit "Missing required fields"] ]}, 400%Z)
     else
       email <~ hlift (py_getitem data "email") ;;
       query <~ hret [Lit "Create a contact for "; Interp email] ;;
       query <~ hlift (add_part data "firstName" (fun x => [Lit " named "; Interp x]) query) ;;
       query <~ hlift (add_part data "lastName" (fun x => [Lit " "; Interp x]) query) ;;
       query <~ hlift (add_part data "phone" (fun x => [Lit " with phone "; Interp x]) query) ;;
       output <~ run_main query ;;
       let response_text := strip output in
       hret ({[ "message" := [Lit (if String.eqb response_text ""
                                   then "Contact created successfully"
                                   else response_text)];
                "status" := [Lit "success"] ]}, 200%Z)).

Definition create_deal (get_json : outcome value) : Server B -> Reply * Server B :=
  guarded "Error creating deal: " "Failed to create deal: "
    (data <~ hlift get_json ;;
     query <~ hret [Lit "Create a deal"] ;;
     query <~ hlift (add_part data "dealName"
                       (fun x => [Lit " named '"; Interp x; Lit "'"]) query) ;;
     query <~ hlift (add_part data "amount" (fun x => [Lit " worth $"; Interp x]) query) ;;
     query <~ hlift (add_part data "stage"
                       (fun x => [Lit " in "; Interp x; Lit " stage"]) query) ;;
     query <~ hlift (add_part data "associated_contact_email"
                       (fun x => [Lit " for contact "; Interp x]) query) ;;
     output <~ run_main query ;;
     let response_text := strip output in
     hret ({[ "message" := [Lit (if String.eqb response_text ""
                                 then "Deal created successfully"
                                 else response_text)];
              "status" := [Lit "success"] ]}, 200%Z)).

End Handlers.

(** What a handler may answer from the state [s]: 400 with the state
    untouched; 500, tagged as an error, with [async_main] not run or run
    once and failed; 200, tagged as a success, with [async_main] run once
    and returned. *)
Definition answered {B} (async_main : B -> fstring -> B * outcome string)
    (s : Server B) (result : Reply * Server B) : Prop :=
  let '(reply, s') := result in
  (snd reply = 400%Z /\ s' = s)
  \/ (snd reply = 500%Z /\ fst reply !! "status" = Some [Lit "error"]
      /\ (backend s' = backend s
          \/ exists query e, async_main (backend s) query = (backend s', Raised e)))
  \/ (snd reply = 200%Z /\ fst reply !! "status" = Some [Lit "success"]
      /\ exists query output, async_main (backend s) query = (backend s', Returned output)).

(** A [strip] for the examples: it cuts blanks only. *)
Fixpoint lstrip_blank (s : string) : string :=
  match s with
  | String c rest => if Ascii.eqb c " " then lstrip_blank rest else s
  | EmptyString => EmptyString
  end.

Fixpoint rstrip_blank (s : string) : string :=
  match s with
  | EmptyString => EmptyString
  | String c rest =>
      match rstrip_blank rest with
      | EmptyString => if Ascii.eqb c " " then EmptyString else String c EmptyString
      | rest' => String c rest'
      end
  end.

Definition strip_blank (s : string) : string := rstrip_blank (lstrip_blank s).

(** A backend for the examples: it counts its runs and prints a line. *)
Definition echo (runs : nat) (query : fstring) : nat * outcome string :=
  (S runs, Returned "Done. "%string).

End ApiServer.

(** ** The agent of the examples is the one the constructor builds *)

Example agent_of_token :
  HubSpotAgent_init (Some "pat-na1-0000") None "https://api.hubapi.com/"
  = Returned Examples.agent.
Proof. reflexivity. Qed.

Example agent_needs_token :
  HubSpotAgent_init None (Some "") "https://api.hubapi.com"
  = Raised (ValidationError
      "HubSpot access token is required. Set HUBSPOT_ACCESS_TOKEN or provide api_key.").
Proof. reflexivity. Qed.

(** ** The [g] format on some doubles *)

Example format_g_42_5 : format_g float_42_5 = "42.5".
Proof. vm_compute. reflexivity. Qed.

Example float_42_5_is_binary64 : valid_binary 53 1024 float_42_5 = true.
Proof. vm_compute. reflexivity. Qed.

(** 100.0, 1234567.0, 0.0001, 0.00001, 999999.5 and -2.5 *)
Example format_g_samples :
  List.map format_g
    [ S754_finite false 7036874417766400 (-46);
      S754_finite false 5302424889720832 (-32);
      S754_finite false 7378697629483821 (-66);
      S754_finite false 5902958103587057 (-69);
      S754_finite false 8589930297032704 (-33);
      S754_finite true 5629499534213120 (-51) ]
  = [ "100"; "1.23457e+06"; "0.0001"; "1e-05"; "1e+06"; "-2.5" ].
Proof. vm_compute. reflexivity. Qed.

(** ** The transport *)

Section Transport_facts.
Context {W : Type} `{!Remote W}.
Implicit Types (s : State W) (self : AsyncApiClient).

Lemma attempt_http_error self method path headers params json s w response :
  http (world s) (outgoing self method path headers params json) = (w, Responds response) ->
  ~ (200 <= Response.status_code response < 300)%Z ->
  request_attempt self method path headers params json s =
    (Raised (ApiError (Response.status_code response) "HTTP request failed" (decode_body response)),
     logged ERROR "HTTP error" (sent (outgoing self method path headers params json) w s)).
Proof.
  intros Hx Hstatus. unfold request_attempt. rewrite Hx.
  destruct (200 <=? Response.status_code response)%Z eqn:Hlo;
    destruct (Response.status_code response <? 300)%Z eqn:Hhi; simpl; try reflexivity.
  exfalso. apply Hstatus. split; [apply Z.leb_le | apply Z.ltb_lt]; assumption.
Qed.

Lemma attempt_success self method path headers params json s w response :
  http (world s) (outgoing self method path headers params json) = (w, Responds response) ->
  (200 <= Response.status_code response < 300)%Z ->
  request_attempt self method path headers params json s =
    (Returned (decode_body response), sent (outgoing self method path headers params json) w s).
Proof.
  intros Hx [Hlo Hhi]. unfold request_attempt. rewrite Hx.
  apply Z.leb_le in Hlo. apply Z.ltb_lt in Hhi. rewrite Hlo, Hhi. reflexivity.
Qed.

Lemma attempt_transient self method path headers params json s w e :
  http (world s) (outgoing self method path headers params json) = (w, Raises e) ->
  retry_if_exception_type e = true ->
  request_attempt self method path headers params json s =
    (Raised e,
     logged WARNING "Transient HTTP exception, will retry if attempts remain"
       (sent (outgoing self method path headers params json) w s)).
Proof.
  intros Hx He. unfold request_attempt. rewrite Hx, He. reflexivity.
Qed.

Lemma attempt_other_exception self method path headers params json s w e :
  http (world s) (outgoing self method path headers params json) = (w, Raises e) ->
  retry_if_exception_type e = false ->
  request_attempt self method path headers params json s =
    (Raised e, sent (outgoing self method path headers params json) w s).
Proof.
  intros Hx He. unfold request_attempt. rewrite Hx, He. reflexivity.
Qed.

(** One attempt puts exactly one request on the wire and enters no tool. *)
Lemma attempt_wire self method path headers params json s :
  let s' := snd (request_attempt self method path headers params json s) in
  wire s' = wire s ++ [outgoing self method path headers params json]
  /\ invoked s' = invoked s.
Proof.
  unfold request_attempt.
  destruct (http (world s) _) as [w [e | response]].
  - destruct (retry_if_exception_type e); simpl; auto.
  - destruct (_ && _); simpl; auto.
Qed.

(** An attempt raises [ApiError] only for a response outside [200, 300). *)
Lemma retry_call_wire {A} (fn : M W A) (req : Request.t) :
  (forall s, wire (snd (fn s)) = wire s ++ [req] /\ invoked (snd (fn s)) = invoked s) ->
  forall fuel attempt_number s,
    exists k, (1 <= k <= S (stop_after_attempt - attempt_number))%nat
      /\ wire (snd (retry_call fuel attempt_number fn s)) = wire s ++ replicate k req
      /\ invoked (snd (retry_call fuel attempt_number fn s)) = invoked s.
Proof.
  intros Hfn.
  induction fuel as [| fuel IH]; intros n s; cbn [retry_call];
    destruct (Hfn s) as [Hw Hi]; destruct (fn s) as [[a | e] s1]; cbn [snd] in Hw, Hi |- *;
    try (exists 1%nat; cbn [replicate snd]; split; [lia | auto]; fail);
    destruct (retry_if_exception_type e); cbn [negb snd];
    try (exists 1%nat; cbn [replicate snd]; split; [lia | auto]; fail);
    destruct (stop_after_attempt <=? n)%nat eqn:Hstop; cbn [snd];
    try (exists 1%nat; cbn [replicate snd]; split; [lia | auto]; fail).
  apply Nat.leb_gt in Hstop.
  destruct (IH (S n) s1) as (k & Hk & Hw' & Hi').
  exists (S k). split; [lia |]. rewrite Hw', Hi', Hw, Hi. cbn [replicate].
  rewrite <- app_assoc. auto.
Qed.

(** The bound of the library loop is never what stops the retries. *)
Lemma retry_call_fuel {A} (fn : M W A) fuel attempt_number s :
  (stop_after_attempt - attempt_number <= fuel)%nat ->
  retry_call fuel attempt_number fn s =
  retry_call (stop_after_attempt - attempt_number) attempt_number fn s.
Proof.
  revert attempt_number s. induction fuel as [| fuel IH]; intros n s Hfuel.
  - replace (stop_after_attempt - n)%nat with 0%nat by lia. reflexivity.
  - destruct (stop_after_attempt - n)%nat as [| m] eqn:Hm; cbn [retry_call];
      destruct (fn s) as [[a | e] s1]; try reflexivity;
      destruct (retry_if_exception_type e); cbn [negb]; try reflexivity;
      destruct (stop_after_attempt <=? n)%nat eqn:Hstop; try reflexivity.
    + apply Nat.leb_gt in Hstop. lia.
    + rewrite IH by lia. replace (stop_after_attempt - S n)%nat with m by lia. reflexivity.
Qed.

Lemma request_wire self method path headers params json s :
  exists k, (1 <= k <= 3)%nat
    /\ wire (snd (request self method path headers params json s))
       = wire s ++ replicate k (outgoing self method path headers params json)
    /\ invoked (snd (request self method path headers params json s)) = invoked s.
Proof.
  unfold request.
  destruct (retry_call_wire (request_attempt self method path headers params json)
              (outgoing self method path headers params json)
              (fun s => attempt_wire self method path headers params json s)
              stop_after_attempt 1%nat s) as (k & Hk & Hw).
  exists k. split; [unfold stop_after_attempt in Hk; lia | exact Hw].
Qed.

End Transport_facts.

(** C4. A response whose status is outside [200, 300) makes [request] raise
    [ApiError] with that status and the decoded body as details, after that
    one exchange: the retry predicate rejects [ApiError], so the attempt is
    the last, whatever its number. *)
Theorem http_error_status_is_terminal {W} `{!Remote W}
    (self : AsyncApiClient) method path headers params json
    (s : State W) w response :
  http (world s) (outgoing self method path headers params json) = (w, Responds response) ->
  ~ (200 <= Response.status_code response < 300)%Z ->
  let err := ApiError (Response.status_code response) "HTTP request failed"
               (decode_body response) in
  let s' := logged ERROR "HTTP error"
              (sent (outgoing self method path headers params json) w s) in
  request self method path headers params json s = (Raised err, s')
  /\ (forall fuel attempt_number,
        retry_call fuel attempt_number
          (request_attempt self method path headers params json) s = (Raised err, s'))
  /\ retry_if_exception_type err = false.
Proof.
  intros Hx Hstatus err s'.
  assert (Hany : forall fuel attempt_number,
             retry_call fuel attempt_number
               (request_attempt self method path headers params json) s = (Raised err, s')).
  { intros fuel n.
    destruct fuel; cbn [retry_call];
      rewrite (attempt_http_error _ _ _ _ _ _ _ _ _ Hx Hstatus); reflexivity. }
  split; [apply Hany | split; [exact Hany | reflexivity]].
Qed.

Lemma http_error_status_is_terminal_witness :
  let s := Scripted.start [Examples.server_error] in
  request (client Examples.agent) POST deals_path None None None s =
    (Raised (ApiError 500 "HTTP request failed"
               (VDict {[ "status" := VStr "error"; "message" := VStr "internal error" ]})),
     logged ERROR "HTTP error"
       (sent (outgoing (client Examples.agent) POST deals_path None None None) [] s)).
Proof.
  intros s.
  refine (proj1 (http_error_status_is_terminal (client Examples.agent) POST deals_path
                   None None None s []
                   (Response.make 500 [("Content-Type", "application/json")] ""
                      (Some (VDict {[ "status" := VStr "error";
                                      "message" := VStr "internal error" ]})))
                   _ _)).
  - reflexivity.
  - simpl. lia.
Defined.

(** C5. A call of [request] makes at least one and at most three attempts,
    all with the same request.  An exchange that answers, or that raises
    anything but a transport failure, is the last one.  Two transport
    failures followed by a 2xx answer give the decoded body of that answer;
    three transport failures raise the third. *)
Theorem request_makes_at_most_three_attempts {W} `{!Remote W}
    (self : AsyncApiClient) method path headers params json :
  let req := outgoing self method path headers params json in
  let call := request (W := W) self method path headers params json in
  let warned := logged (W := W) WARNING
                  "Transient HTTP exception, will retry if attempts remain" in
  (forall s, exists k, (1 <= k <= 3)%nat /\ wire (snd (call s)) = wire s ++ replicate k req)
  /\ (forall s w response,
        http (world s) req = (w, Responds response) ->
        wire (snd (call s)) = wire s ++ [req])
  /\ (forall s w e,
        http (world s) req = (w, Raises e) ->
        retry_if_exception_type e = false ->
        call s = (Raised e, sent req w s))
  /\ (forall s w1 e1 w2 e2 w3 response,
        http (world s) req = (w1, Raises e1) -> retry_if_exception_type e1 = true ->
        http w1 req = (w2, Raises e2) -> retry_if_exception_type e2 = true ->
        http w2 req = (w3, Responds response) ->
        (200 <= Response.status_code response < 300)%Z ->
        call s = (Returned (decode_body response),
                  sent req w3 (warned (sent req w2 (warned (sent req w1 s))))))
  /\ (forall s w1 e1 w2 e2 w3 e3,
        http (world s) req = (w1, Raises e1) -> retry_if_exception_type e1 = true ->
        http w1 req = (w2, Raises e2) -> retry_if_exception_type e2 = true ->
        http w2 req = (w3, Raises e3) -> retry_if_exception_type e3 = true ->
        call s = (Raised e3,
                  warned (sent req w3 (warned (sent req w2 (warned (sent req w1 s))))))).
Proof.
  intros req call warned. subst req call warned. repeat split.
  - intros s. destruct (request_wire self method path headers params json s) as (k & Hk & Hw & _).
    exists k. split; [lia | exact Hw].
  - intros s w response Hx. unfold request. unfold stop_after_attempt at 1. cbn [retry_call].
    destruct (decide (200 <= Response.status_code response < 300)%Z) as [Hok | Hbad].
    + rewrite (attempt_success _ _ _ _ _ _ _ _ _ Hx Hok). reflexivity.
    + rewrite (attempt_http_error _ _ _ _ _ _ _ _ _ Hx Hbad). reflexivity.
  - intros s w e Hx He. unfold request. unfold stop_after_attempt at 1. cbn [retry_call].
    rewrite (attempt_other_exception _ _ _ _ _ _ _ _ _ Hx He). rewrite He. reflexivity.
  - intros s w1 e1 w2 e2 w3 response H1 He1 H2 He2 H3 Hok.
    unfold request. unfold stop_after_attempt at 1. cbn [retry_call].
    rewrite (attempt_transient _ _ _ _ _ _ _ _ _ H1 He1). rewrite He1. cbn [negb].
    change (stop_after_attempt <=? 1)%nat with false. cbn iota.
    cbn [retry_call].
    rewrite (attempt_transient self method path headers params json
               (logged WARNING "Transient HTTP exception, will retry if attempts remain" (sent (outgoing self method path headers params json) w1 s)) w2 e2 H2 He2).
    rewrite He2. cbn [negb].
    change (stop_after_attempt <=? 2)%nat with false. cbn iota.
    cbn [retry_call].
    rewrite (attempt_success self method path headers params json
               (logged WARNING "Transient HTTP exception, will retry if attempts remain" (sent (outgoing self method path headers params json) w2 (logged WARNING "Transient HTTP exception, will retry if attempts remain" (sent (outgoing self method path headers params json) w1 s)))) w3 response H3 Hok).
    reflexivity.
  - intros s w1 e1 w2 e2 w3 e3 H1 He1 H2 He2 H3 He3.
    unfold request. unfold stop_after_attempt at 1. cbn [retry_call].
    rewrite (attempt_transient _ _ _ _ _ _ _ _ _ H1 He1). rewrite He1. cbn [negb].
    change (stop_after_attempt <=? 1)%nat with false. cbn iota.
    cbn [retry_call].
    rewrite (attempt_transient self method path headers params json
               (logged WARNING "Transient HTTP exception, will retry if attempts remain" (sent (outgoing self method path headers params json) w1 s)) w2 e2 H2 He2).
    rewrite He2. cbn [negb].
    change (stop_after_attempt <=? 2)%nat with false. cbn iota.
    cbn [retry_call].
    rewrite (attempt_transient self method path headers params json
               (logged WARNING "Transient HTTP exception, will retry if attempts remain" (sent (outgoing self method path headers params json) w2 (logged WARNING "Transient HTTP exception, will retry if attempts remain" (sent (outgoing self method path headers params json) w1 s)))) w3 e3 H3 He3).
    rewrite He3. reflexivity.
Qed.

Lemma request_makes_at_most_three_attempts_witness :
  let ok := Response.make 200 [("Content-Type", "application/json")] ""
              (Some (VDict Examples.created_deal)) in
  let s := Scripted.start [Raises TimeoutError; Raises (HTTPError "ReadTimeout"); Responds ok] in
  fst (request (client Examples.agent) POST deals_path None None None s)
    = Returned (VDict Examples.created_deal)
  /\ List.length (wire (snd (request (client Examples.agent) POST deals_path None None None s))) = 3%nat.
Proof.
  intros ok s.
  pose proof (proj1 (proj2 (proj2 (proj2
                (request_makes_at_most_three_attempts (W := list exchange)
                   (client Examples.agent) POST deals_path None None None))))
                s [Raises (HTTPError "ReadTimeout"); Responds ok] TimeoutError
                [Responds ok] (HTTPError "ReadTimeout") [] ok
                eq_refl eq_refl eq_refl eq_refl eq_refl) as H.
  rewrite H.
  - split; reflexivity.
  - simpl. lia.
Defined.

(** ** The record service *)

Section HubSpot_facts.
Context {W : Type} `{!Remote W}.
Implicit Types (s : State W) (self : HubSpotAgent).

(** A lookup sends the search request, one to three times, and nothing else. *)
Lemma get_contact_wire self email s :
  exists k, (1 <= k <= 3)%nat
    /\ wire (snd (_get_contact_by_email self email s))
       = wire s ++ replicate k (search_request self email)
    /\ invoked (snd (_get_contact_by_email self email s)) = invoked s.
Proof.
  unfold _get_contact_by_email, bind, post.
  destruct (request_wire (client self) POST contacts_search_path None None
              (Some (search_query email)) s) as (k & Hk & Hw & Hi).
  exists k. split; [exact Hk |].
  destruct (request _ _ _ _ _ _ s) as [[res | e] s1]; cbn [snd] in *; [| auto].
  destruct res; try (unfold ret; cbn [snd]; auto; fail).
  destruct (negb _); unfold ret, lift; cbn [snd]; auto.
Qed.

Lemma find_contact_wire self email s :
  exists k, (1 <= k <= 3)%nat
    /\ wire (snd (_find_contact_id_by_email self email s))
       = wire s ++ replicate k (search_request self email)
    /\ invoked (snd (_find_contact_id_by_email self email s)) = invoked s.
Proof.
  unfold _find_contact_id_by_email, bind.
  destruct (get_contact_wire self email s) as (k & Hk & Hw & Hi).
  exists k. split; [exact Hk |].
  destruct (_get_contact_by_email self email s) as [[contact | e] s1]; cbn [snd] in *; [| auto].
  destruct (negb _); unfold ret, lift; cbn [snd]; auto.
Qed.

End HubSpot_facts.

(** C7. When the lookup finds no contact for the email, [update_contact]
    raises [ValidationError] and the state is the one the lookup left: the
    only requests sent are the search requests of the lookup, so no PATCH and
    no create went out. *)
Theorem update_contact_fails_on_miss {W} `{!Remote W}
    (self : HubSpotAgent) (payload : UpdateContactInput.t) (s s1 : State W) :
  _find_contact_id_by_email self (UpdateContactInput.email payload) s = (Returned VNone, s1) ->
  update_contact self payload s =
    (Raised (ValidationError
               ("Contact not found for email " +:+ UpdateContactInput.email payload)), s1)
  /\ exists k, (1 <= k <= 3)%nat
       /\ wire s1 = wire s ++ replicate k (search_request self (UpdateContactInput.email payload)).
Proof.
  intros Hfind. split.
  - unfold update_contact, bind. rewrite Hfind. reflexivity.
  - destruct (find_contact_wire self (UpdateContactInput.email payload) s) as (k & Hk & Hw & _).
    rewrite Hfind in Hw. exists k. auto.
Qed.

Lemma update_contact_fails_on_miss_witness :
  let s := Scripted.start [Examples.not_found] in
  fst (update_contact Examples.agent Examples.rename_bob s)
    = Raised (ValidationError "Contact not found for email bob@example.com")
  /\ wire (snd (update_contact Examples.agent Examples.rename_bob s))
     = [search_request Examples.agent "bob@example.com"].
Proof.
  intros s.
  assert (Hmiss : _find_contact_id_by_email Examples.agent
                    (UpdateContactInput.email Examples.rename_bob) s
                  = (Returned VNone,
                     sent (search_request Examples.agent "bob@example.com") [] s))
    by reflexivity.
  destruct (update_contact_fails_on_miss Examples.agent Examples.rename_bob s _ Hmiss)
    as [Hrun _].
  rewrite Hrun. split; reflexivity.
Defined.

Section Request_answers.
Context {W : Type} `{!Remote W}.
Implicit Types (s : State W) (self : AsyncApiClient).

Lemma request_answered_ok self method path headers params json s w response :
  http (world s) (outgoing self method path headers params json) = (w, Responds response) ->
  (200 <= Response.status_code response < 300)%Z ->
  request self method path headers params json s =
    (Returned (decode_body response), sent (outgoing self method path headers params json) w s).
Proof.
  intros Hx Hok. unfold request. unfold stop_after_attempt at 1. cbn [retry_call].
  rewrite (attempt_success _ _ _ _ _ _ _ _ _ Hx Hok). reflexivity.
Qed.

Lemma request_answered_error self method path headers params json s w response :
  http (world s) (outgoing self method path headers params json) = (w, Responds response) ->
  ~ (200 <= Response.status_code response < 300)%Z ->
  request self method path headers params json s =
    (Raised (ApiError (Response.status_code response) "HTTP request failed" (decode_body response)),
     logged ERROR "HTTP error" (sent (outgoing self method path headers params json) w s)).
Proof.
  intros Hx Hbad. unfold request. unfold stop_after_attempt at 1. cbn [retry_call].
  rewrite (attempt_http_error _ _ _ _ _ _ _ _ _ Hx Hbad). reflexivity.
Qed.

End Request_answers.

Section Contact_conflict.
Context {W : Type} `{!Remote W}.
Implicit Types (s : State W) (self : HubSpotAgent).

(** The conflict branch of [create_contact] when the lookup finds a record. *)
Lemma create_contact_conflict_existing self payload s s1 s2 message details existing :
  post (client self) contacts_path (properties_body (create_contact_properties payload)) s
    = (Raised (ApiError 409 message details), s1) ->
  _get_contact_by_email self (CreateContactInput.email payload) s1
    = (Returned (VDict existing), s2) ->
  truthy (VDict existing) = true ->
  create_contact self payload s =
    (Returned (VDict {[ "id" := dict_get existing "id" VNone;
                        "properties" := dict_get existing "properties" (VDict ∅);
                        "status" := VStr "existing" ]}),
     logged INFO "Contact already existed" s2).
Proof.
  intros Hpost Hget Htrue. unfold create_contact, try_except_then, bind.
  rewrite Hpost. cbn [Z.eqb Pos.eqb]. rewrite Hget, Htrue. reflexivity.
Qed.

End Contact_conflict.

(** C8. When the create call is answered 409 and the lookup by email comes
    back with nothing (nothing true), [create_contact] logs the warning and
    raises the [ApiError] of the conflict itself; it returns no record. *)
Theorem create_contact_conflict_without_match_reraises {W} `{!Remote W}
    (self : HubSpotAgent) (payload : CreateContactInput.t) (s s1 s2 : State W)
    message details existing :
  post (client self) contacts_path (properties_body (create_contact_properties payload)) s
    = (Raised (ApiError 409 message details), s1) ->
  _get_contact_by_email self (CreateContactInput.email payload) s1 = (Returned existing, s2) ->
  truthy existing = false ->
  create_contact self payload s =
    (Raised (ApiError 409 message details),
     logged WARNING "Contact conflict reported but existing record not found" s2).
Proof.
  intros Hpost Hget Hfalse. unfold create_contact, try_except_then, bind.
  rewrite Hpost. cbn [Z.eqb Pos.eqb]. rewrite Hget, Hfalse. reflexivity.
Qed.

Lemma create_contact_conflict_without_match_reraises_witness :
  let s := Scripted.start [Examples.conflict; Examples.not_found] in
  fst (create_contact Examples.agent Examples.new_ada s)
    = Raised (ApiError 409 "HTTP request failed"
                (VDict {[ "status" := VStr "error"; "category" := VStr "CONFLICT" ]}))
  /\ logs (snd (create_contact Examples.agent Examples.new_ada s))
     = [(ERROR, "HTTP error");
        (WARNING, "Contact conflict reported but existing record not found")].
Proof.
  intros s.
  assert (Hpost : post (client Examples.agent) contacts_path
                    (properties_body (create_contact_properties Examples.new_ada)) s
                  = (Raised (ApiError 409 "HTTP request failed"
                               (VDict {[ "status" := VStr "error";
                                         "category" := VStr "CONFLICT" ]})),
                     logged ERROR "HTTP error"
                       (sent (outgoing (client Examples.agent) POST contacts_path None None
                                (properties_body (create_contact_properties Examples.new_ada)))
                          [Examples.not_found] s)))
    by reflexivity.
  assert (Hget : _get_contact_by_email Examples.agent
                   (CreateContactInput.email Examples.new_ada)
                   (logged ERROR "HTTP error"
                      (sent (outgoing (client Examples.agent) POST contacts_path None None
                               (properties_body (create_contact_properties Examples.new_ada)))
                         [Examples.not_found] s))
                 = (Returned VNone,
                    sent (search_request Examples.agent "ada@example.com") []
                      (logged ERROR "HTTP error"
                         (sent (outgoing (client Examples.agent) POST contacts_path None None
                                  (properties_body (create_contact_properties Examples.new_ada)))
                            [Examples.not_found] s))))
    by reflexivity.
  rewrite (create_contact_conflict_without_match_reraises Examples.agent Examples.new_ada
             s _ _ _ _ VNone Hpost Hget eq_refl).
  split; reflexivity.
Defined.

(** C1, as the code has it. When the deal is created and the lookup of the
    associated email finds no contact, [create_deal] raises [ValidationError]
    and returns nothing: the created record does not reach the caller.  The
    state is the one the lookup left; after the creation only the search
    requests of the lookup went out, so nothing undoes the deal. *)
Theorem create_deal_lookup_miss_raises {W} `{!Remote W}
    (self : HubSpotAgent) (payload : CreateDealInput.t) (email : string)
    (s s1 s2 : State W) (created : gmap string value) :
  nonempty (CreateDealInput.associated_contact_email payload) = Some email ->
  post (client self) deals_path (properties_body (create_deal_properties payload)) s
    = (Returned (VDict created), s1) ->
  _find_contact_id_by_email self email s1 = (Returned VNone, s2) ->
  create_deal self payload s =
    (Raised (ValidationError ("Contact not found for email " +:+ email)), s2)
  /\ exists k, (1 <= k <= 3)%nat
       /\ wire s2 = wire s1 ++ replicate k (search_request self email).
Proof.
  intros Hemail Hpost Hfind. split.
  - unfold create_deal, bind. rewrite Hpost. cbn [lift py_get]. rewrite Hemail, Hfind.
    reflexivity.
  - destruct (find_contact_wire self email s1) as (k & Hk & Hw & _).
    rewrite Hfind in Hw. exists k. auto.
Qed.

Lemma create_deal_lookup_miss_raises_witness :
  let s := Scripted.start
             [Scripted.json_response 201 (VDict Examples.created_deal); Examples.not_found] in
  fst (create_deal Examples.agent Examples.deal_for_bob s)
    = Raised (ValidationError "Contact not found for email bob@example.com")
  /\ List.map Request.method (wire (snd (create_deal Examples.agent Examples.deal_for_bob s)))
     = [POST; POST].
Proof.
  intros s.
  assert (Hpost : post (client Examples.agent) deals_path
                    (properties_body (create_deal_properties Examples.deal_for_bob)) s
                  = (Returned (VDict Examples.created_deal),
                     sent (outgoing (client Examples.agent) POST deals_path None None
                             (properties_body (create_deal_properties Examples.deal_for_bob)))
                       [Examples.not_found] s))
    by reflexivity.
  assert (Hfind : _find_contact_id_by_email Examples.agent "bob@example.com"
                    (sent (outgoing (client Examples.agent) POST deals_path None None
                             (properties_body (create_deal_properties Examples.deal_for_bob)))
                       [Examples.not_found] s)
                  = (Returned VNone,
                     sent (search_request Examples.agent "bob@example.com") []
                       (sent (outgoing (client Examples.agent) POST deals_path None None
                                (properties_body (create_deal_properties Examples.deal_for_bob)))
                          [Examples.not_found] s)))
    by reflexivity.
  destruct (create_deal_lookup_miss_raises Examples.agent Examples.deal_for_bob
              "bob@example.com" s _ _ Examples.created_deal eq_refl Hpost Hfind) as [Hrun _].
  rewrite Hrun. split; reflexivity.
Defined.

(** C1 as stated fails: the remote creates the deal (id 9001) and knows no
    contact for the email, and [create_deal] returns no record at all. *)
Lemma create_deal_lookup_miss_counterexample :
  let s := Scripted.start
             [Scripted.json_response 201 (VDict Examples.created_deal); Examples.not_found] in
  (exists s1 s2,
     post (client Examples.agent) deals_path
       (properties_body (create_deal_properties Examples.deal_for_bob)) s
       = (Returned (VDict Examples.created_deal), s1)
     /\ dict_get Examples.created_deal "id" VNone = VStr "9001"
     /\ _find_contact_id_by_email Examples.agent "bob@example.com" s1 = (Returned VNone, s2))
  /\ ~ (exists record s', create_deal Examples.agent Examples.deal_for_bob s
                          = (Returned record, s')).
Proof.
  intros s. split.
  - eexists. eexists. split; [reflexivity | split; reflexivity].
  - intros (record & s' & Hrun). vm_compute in Hrun. discriminate Hrun.
Qed.

(** ** The record service against the in-memory CRM *)

Lemma set_if_true_other key field (properties : gmap string value) k :
  key <> k -> set_if_true key field properties !! k = properties !! k.
Proof.
  intros Hne. unfold set_if_true. destruct (nonempty field); [| reflexivity].
  apply lookup_insert_ne. exact Hne.
Qed.

Lemma set_if_not_None_other key field (properties : gmap string value) k :
  key <> k -> set_if_not_None key field properties !! k = properties !! k.
Proof.
  intros Hne. unfold set_if_not_None. destruct field; [| reflexivity].
  apply lookup_insert_ne. exact Hne.
Qed.

Lemma set_if_not_None_same key field (properties : gmap string value) :
  properties !! key = None -> set_if_not_None key field properties !! key = field.
Proof.
  intros Hnone. unfold set_if_not_None. destruct field; [apply lookup_insert_eq | exact Hnone].
Qed.

Lemma create_contact_properties_email payload :
  create_contact_properties payload !! "email" = Some (VStr (CreateContactInput.email payload)).
Proof.
  unfold create_contact_properties.
  rewrite !set_if_true_other by discriminate. apply lookup_singleton_eq.
Qed.

Module MemCrmFacts.
Import MemCrm.

Lemma created_email_of_payload payload :
  created_email (properties_body (create_contact_properties payload))
  = Some (CreateContactInput.email payload, create_contact_properties payload).
Proof.
  unfold created_email, properties_body. rewrite lookup_singleton_eq.
  rewrite create_contact_properties_email. reflexivity.
Qed.

Lemma searched_email_of_query e : searched_email (Some (search_query e)) = Some e.
Proof. reflexivity. Qed.

Lemma handle_create self payload st :
  handle st (create_request self payload)
  = create st (properties_body (create_contact_properties payload)).
Proof. reflexivity. Qed.

Lemma handle_search self e st :
  handle st (search_request self e) = search st (Some (search_query e)).
Proof. reflexivity. Qed.

Lemma decode_json_response status body w :
  json_response status body = Responds w -> decode_body w = body.
Proof. intros Hw. injection Hw as <-. reflexivity. Qed.

Lemma truthy_record c : truthy (record c) = true.
Proof. reflexivity. Qed.

Lemma post_create_taken self payload (s : State store) c :
  contacts (world s) !! CreateContactInput.email payload = Some c ->
  post (client self) contacts_path (properties_body (create_contact_properties payload)) s
  = (Raised (ApiError 409 "HTTP request failed"
               (error_body "CONFLICT" "Contact already exists")),
     logged ERROR "HTTP error" (sent (create_request self payload) (world s) s)).
Proof.
  intros Htaken. unfold post.
  rewrite (request_answered_error (client self) POST contacts_path None None
           (properties_body (create_contact_properties payload)) s (world s)
           (Response.make 409 [("Content-Type", "application/json")] ""
              (Some (error_body "CONFLICT" "Contact already exists")))).
  - reflexivity.
  - change (handle (world s) (create_request self payload) = (world s, json_response 409
              (error_body "CONFLICT" "Contact already exists"))).
    rewrite handle_create. unfold create.
    rewrite created_email_of_payload, Htaken. reflexivity.
  - cbn [Response.status_code]. lia.
Qed.

Lemma post_create_fresh self payload (s : State store) :
  contacts (world s) !! CreateContactInput.email payload = None ->
  let c := (decimal_of_Z (next_id (world s)), create_contact_properties payload) in
  post (client self) contacts_path (properties_body (create_contact_properties payload)) s
  = (Returned (record c),
     sent (create_request self payload)
       (mkStore (<[ CreateContactInput.email payload := c ]> (contacts (world s)))
          (next_id (world s) + 1)) s).
Proof.
  intros Hfresh c. unfold post.
  rewrite (request_answered_ok (client self) POST contacts_path None None
           (properties_body (create_contact_properties payload)) s
           (mkStore (<[ CreateContactInput.email payload := c ]> (contacts (world s)))
              (next_id (world s) + 1))
           (Response.make 201 [("Content-Type", "application/json")] ""
              (Some (record c)))).
  - reflexivity.
  - change (handle (world s) (create_request self payload)
            = (mkStore (<[ CreateContactInput.email payload := c ]> (contacts (world s)))
                 (next_id (world s) + 1), json_response 201 (record c))).
    rewrite handle_create. unfold create.
    rewrite created_email_of_payload, Hfresh. reflexivity.
  - cbn [Response.status_code]. lia.
Qed.

Lemma get_contact_found self e (s : State store) c :
  contacts (world s) !! e = Some c ->
  _get_contact_by_email self e s
  = (Returned (record c), sent (search_request self e) (world s) s).
Proof.
  intros Hfound. unfold _get_contact_by_email, bind, post.
  rewrite (request_answered_ok (client self) POST contacts_search_path None None
             (Some (search_query e)) s (world s)
             (Response.make 200 [("Content-Type", "application/json")] ""
                (Some (VDict {[ "total" := VInt 1; "results" := VList [record c] ]})))).
  - reflexivity.
  - change (handle (world s) (search_request self e)
            = (world s, json_response 200
                 (VDict {[ "total" := VInt 1; "results" := VList [record c] ]}))).
    rewrite handle_search. unfold search. rewrite searched_email_of_query, Hfound.
    reflexivity.
  - cbn [Response.status_code]. lia.
Qed.

(** With the email taken, [create_contact] answers with the stored id,
    tagged, and the store is as it was. *)
Lemma create_contact_taken self payload (s : State store) c :
  contacts (world s) !! CreateContactInput.email payload = Some c ->
  exists r s',
    create_contact self payload s = (Returned r, s')
    /\ world s' = world s
    /\ py_get r "id" VNone = Returned (VStr (fst c))
    /\ py_get r "status" VNone = Returned (VStr "existing").
Proof.
  intros Htaken. destruct c as [id properties].
  eexists. eexists. split.
  - eapply create_contact_conflict_existing.
    + apply (post_create_taken self payload s _ Htaken).
    + apply get_contact_found. exact Htaken.
    + reflexivity.
  - split; [reflexivity | split; reflexivity].
Qed.

End MemCrmFacts.

(** C3. (1) If the create call is answered 409 and the lookup by email finds a
    record, [create_contact] returns the id and the properties of that
    record with [status] set to [existing].  (2) Against a remote that keeps
    one contact per email, two calls of [create_contact] with the same
    payload both return, with the same id, and the second result is tagged
    [existing]. *)
Theorem create_contact_is_idempotent :
  (forall W (R : Remote W) (self : HubSpotAgent) (payload : CreateContactInput.t)
          (s s1 s2 : State W) message details existing,
      post (client self) contacts_path (properties_body (create_contact_properties payload)) s
        = (Raised (ApiError 409 message details), s1) ->
      _get_contact_by_email self (CreateContactInput.email payload) s1
        = (Returned (VDict existing), s2) ->
      truthy (VDict existing) = true ->
      create_contact self payload s =
        (Returned (VDict {[ "id" := dict_get existing "id" VNone;
                            "properties" := dict_get existing "properties" (VDict ∅);
                            "status" := VStr "existing" ]}),
         logged INFO "Contact already existed" s2))
  /\ (forall (self : HubSpotAgent) (payload : CreateContactInput.t) (s : State MemCrm.store),
        exists id r1 s1 r2 s2,
          create_contact self payload s = (Returned r1, s1)
          /\ create_contact self payload s1 = (Returned r2, s2)
          /\ py_get r1 "id" VNone = Returned (VStr id)
          /\ py_get r2 "id" VNone = Returned (VStr id)
          /\ py_get r2 "status" VNone = Returned (VStr "existing")).
Proof.
  split.
  - intros W R. apply create_contact_conflict_existing.
  - intros self payload s.
    destruct (MemCrm.contacts (world s) !! CreateContactInput.email payload) as [c |] eqn:Hstore.
    + destruct (MemCrmFacts.create_contact_taken self payload s c Hstore)
        as (r1 & s1 & Hrun1 & Hworld & Hid1 & _).
      rewrite <- Hworld in Hstore.
      destruct (MemCrmFacts.create_contact_taken self payload s1 c Hstore)
        as (r2 & s2 & Hrun2 & _ & Hid2 & Htag).
      exists (fst c), r1, s1, r2, s2. auto.
    + pose (c := (decimal_of_Z (MemCrm.next_id (world s)), create_contact_properties payload)).
      pose (s1 := logged INFO "New contact created"
                    (sent (create_request self payload)
                       (MemCrm.mkStore
                          (<[ CreateContactInput.email payload := c ]> (MemCrm.contacts (world s)))
                          (MemCrm.next_id (world s) + 1)) s)).
      assert (Hrun1 : create_contact self payload s = (Returned (MemCrm.record c), s1)).
      { unfold create_contact, try_except_then, bind.
        rewrite (MemCrmFacts.post_create_fresh self payload s Hstore). reflexivity. }
      assert (Hstore1 : MemCrm.contacts (world s1) !! CreateContactInput.email payload = Some c)
        by apply lookup_insert_eq.
      destruct (MemCrmFacts.create_contact_taken self payload s1 c Hstore1)
        as (r2 & s2 & Hrun2 & _ & Hid2 & Htag).
      exists (fst c), (MemCrm.record c), s1, r2, s2.
      repeat split; auto.
Qed.

Lemma create_contact_is_idempotent_witness :
  let s := Scripted.start [Examples.conflict; Examples.found Examples.ada] in
  fst (create_contact Examples.agent Examples.new_ada s)
  = Returned (VDict {[ "id" := VStr "51";
                       "properties" := VDict {[ "email" := VStr "ada@example.com" ]};
                       "status" := VStr "existing" ]}).
Proof.
  intros s.
  assert (Hpost : post (client Examples.agent) contacts_path
                    (properties_body (create_contact_properties Examples.new_ada)) s
                  = (Raised (ApiError 409 "HTTP request failed"
                               (VDict {[ "status" := VStr "error";
                                         "category" := VStr "CONFLICT" ]})),
                     logged ERROR "HTTP error"
                       (sent (outgoing (client Examples.agent) POST contacts_path None None
                                (properties_body (create_contact_properties Examples.new_ada)))
                          [Examples.found Examples.ada] s)))
    by reflexivity.
  assert (Hget : _get_contact_by_email Examples.agent
                   (CreateContactInput.email Examples.new_ada)
                   (logged ERROR "HTTP error"
                      (sent (outgoing (client Examples.agent) POST contacts_path None None
                               (properties_body (create_contact_properties Examples.new_ada)))
                         [Examples.found Examples.ada] s))
                 = (Returned (VDict Examples.ada),
                    sent (search_request Examples.agent "ada@example.com") []
                      (logged ERROR "HTTP error"
                         (sent (outgoing (client Examples.agent) POST contacts_path None None
                                  (properties_body (create_contact_properties Examples.new_ada)))
                            [Examples.found Examples.ada] s))))
    by reflexivity.
  rewrite (proj1 create_contact_is_idempotent _ _ Examples.agent Examples.new_ada
             s _ _ _ _ Examples.ada Hpost Hget eq_refl).
  reflexivity.
Defined.

(** ** What the mutations carry *)

Lemma nonempty_Some o v : nonempty o = Some v -> o = Some v /\ v <> "".
Proof.
  unfold nonempty, truthy_str. destruct o as [x |]; [| discriminate].
  destruct (String.eqb_spec x ""); cbn [negb]; [discriminate |].
  intros [= ->]. auto.
Qed.

Lemma nonempty_of_Some v : v <> "" -> nonempty (Some v) = Some v.
Proof.
  intros Hv. unfold nonempty, truthy_str.
  destruct (String.eqb_spec v ""); [contradiction | reflexivity].
Qed.

Lemma nonempty_empty : nonempty (Some "") = None.
Proof. reflexivity. Qed.

Lemma deal_name_nonempty payload : deal_name payload <> "".
Proof.
  unfold deal_name.
  destruct (nonempty (CreateDealInput.name payload)) as [n |] eqn:Hn.
  - apply nonempty_Some in Hn. tauto.
  - destruct (nonempty (CreateDealInput.associated_contact_email payload)); [discriminate |].
    destruct (CreateDealInput.amount payload); discriminate.
Qed.

Lemma create_deal_properties_dealname payload :
  create_deal_properties payload !! "dealname" = Some (VStr (deal_name payload)).
Proof.
  unfold create_deal_properties.
  rewrite !set_if_true_other by discriminate.
  rewrite set_if_not_None_other by discriminate.
  apply lookup_singleton_eq.
Qed.

Section Deal_requests.
Context {W : Type} `{!Remote W}.
Implicit Types (s : State W) (self : HubSpotAgent).

(** Whatever happens next, the first request of [create_deal] is the
    creation with the properties built from the payload. *)
Lemma create_deal_first_request self payload s :
  exists rest,
    wire (snd (create_deal self payload s))
    = wire s ++ outgoing (client self) POST deals_path None None
                  (properties_body (create_deal_properties payload)) :: rest.
Proof.
  unfold create_deal, bind, post.
  destruct (request_wire (client self) POST deals_path None None
              (properties_body (create_deal_properties payload)) s) as (k & Hk & Hw & _).
  destruct k as [| k]; [lia |]. cbn [replicate] in Hw.
  destruct (request _ _ _ _ _ _ s) as [[created | e] s1]; cbn [snd] in Hw |- *;
    [| eexists; exact Hw].
  destruct created; cbn [lift py_get snd]; try (eexists; exact Hw).
  destruct (nonempty _) as [email |]; [| unfold ret; cbn [snd]; eexists; exact Hw].
  destruct (find_contact_wire self email s1) as (k2 & _ & Hw2 & _).
  destruct (_find_contact_id_by_email self email s1) as [[contact_id | e] s2];
    cbn [snd] in Hw2 |- *.
  2:{ rewrite Hw2, Hw, <- app_assoc. cbn [app]. eexists. reflexivity. }
  unfold require.
  destruct (is_not_None contact_id); unfold ret, raise; cbn [snd].
  2:{ rewrite Hw2, Hw, <- app_assoc. cbn [app]. eexists. reflexivity. }
  unfold put.
  destruct (request_wire (client self) PUT
              (association_path (dict_get m "id" VNone) contact_id) None None None s2)
    as (k3 & _ & Hw3 & _).
  destruct (request _ _ _ _ _ _ s2) as [[res | e] s3]; cbn [snd] in Hw3 |- *;
    rewrite Hw3, Hw2, Hw, <- !app_assoc; cbn [app]; eexists; reflexivity.
Qed.

End Deal_requests.

(** C6. With no name, the deal is named after the associated email when
    there is one, else after the amount (in [g] format) when there is one,
    else it is ["Untitled Deal"]; an amount of 42.5 and no email give
    ["Deal 42.5"].  The name is the [dealname] property of the creation
    request, the first request [create_deal] sends. *)
Theorem default_deal_name_priority :
  (forall amount stage pipeline e,
      e <> "" ->
      deal_name (CreateDealInput.make None amount stage pipeline (Some e)) = "Deal for " +:+ e)
  /\ (forall a stage pipeline,
        deal_name (CreateDealInput.make None (Some a) stage pipeline None)
        = "Deal " +:+ format_g a)
  /\ (forall stage pipeline,
        deal_name (CreateDealInput.make None None stage pipeline None) = "Untitled Deal")
  /\ deal_name (CreateDealInput.make None (Some float_42_5) None None None) = "Deal 42.5"
  /\ (forall payload,
        create_deal_properties payload !! "dealname" = Some (VStr (deal_name payload)))
  /\ (forall W (R : Remote W) (self : HubSpotAgent) payload (s : State W),
        exists rest,
          wire (snd (create_deal self payload s))
          = wire s ++ outgoing (client self) POST deals_path None None
                        (properties_body (create_deal_properties payload)) :: rest).
Proof.
  split; [| split; [| split; [| split; [| split]]]].
  - intros amount stage pipeline e He. unfold deal_name.
    cbn [CreateDealInput.name CreateDealInput.associated_contact_email].
    rewrite (nonempty_of_Some e He). reflexivity.
  - intros a stage pipeline. reflexivity.
  - intros stage pipeline. reflexivity.
  - vm_compute. reflexivity.
  - apply create_deal_properties_dealname.
  - intros W R. apply create_deal_first_request.
Qed.

Lemma default_deal_name_priority_witness :
  deal_name (CreateDealInput.make None (Some float_42_5) None None (Some "a@b.com"))
  = "Deal for a@b.com".
Proof.
  apply (proj1 default_deal_name_priority (Some float_42_5) None None "a@b.com").
  discriminate.
Defined.

(** C10. A name that is the empty string is treated as no name: the deal
    gets the same derived name and [create_deal] does exactly what it does
    when the name is absent.  The name sent is never the empty string. *)
Theorem empty_deal_name_is_no_name :
  (forall amount stage pipeline email,
      deal_name (CreateDealInput.make (Some "") amount stage pipeline email)
      = deal_name (CreateDealInput.make None amount stage pipeline email))
  /\ (forall W (R : Remote W) (self : HubSpotAgent) amount stage pipeline email (s : State W),
        create_deal self (CreateDealInput.make (Some "") amount stage pipeline email) s
        = create_deal self (CreateDealInput.make None amount stage pipeline email) s)
  /\ (forall payload,
        create_deal_properties payload !! "dealname" = Some (VStr (deal_name payload))
        /\ deal_name payload <> "").
Proof.
  split; [| split].
  - reflexivity.
  - reflexivity.
  - intros payload. split; [apply create_deal_properties_dealname | apply deal_name_nonempty].
Qed.

Lemma update_contact_properties_lookup payload k :
  update_contact_properties payload !! k =
    if decide (k = "firstname") then VStr <$> UpdateContactInput.first_name payload
    else if decide (k = "lastname") then VStr <$> UpdateContactInput.last_name payload
    else if decide (k = "phone") then VStr <$> UpdateContactInput.phone payload
    else None.
Proof.
  unfold update_contact_properties.
  destruct (decide (k = "firstname")) as [-> | Hfirst].
  { rewrite !set_if_not_None_other by discriminate.
    apply set_if_not_None_same, lookup_empty. }
  destruct (decide (k = "lastname")) as [-> | Hlast].
  { rewrite set_if_not_None_other by discriminate.
    apply set_if_not_None_same.
    rewrite set_if_not_None_other by discriminate. apply lookup_empty. }
  destruct (decide (k = "phone")) as [-> | Hphone].
  { apply set_if_not_None_same.
    rewrite !set_if_not_None_other by discriminate. apply lookup_empty. }
  rewrite !set_if_not_None_other by congruence. apply lookup_empty.
Qed.

Lemma update_deal_properties_lookup payload k :
  update_deal_properties payload !! k =
    if decide (k = "dealname") then VStr <$> UpdateDealInput.name payload
    else if decide (k = "amount") then VFloat <$> UpdateDealInput.amount payload
    else if decide (k = "dealstage") then VStr <$> UpdateDealInput.stage payload
    else if decide (k = "pipeline") then VStr <$> UpdateDealInput.pipeline payload
    else None.
Proof.
  unfold update_deal_properties.
  destruct (decide (k = "dealname")) as [-> | Hname].
  { rewrite !set_if_not_None_other by discriminate.
    apply set_if_not_None_same, lookup_empty. }
  destruct (decide (k = "amount")) as [-> | Hamount].
  { rewrite !set_if_not_None_other by discriminate.
    apply set_if_not_None_same.
    rewrite set_if_not_None_other by discriminate. apply lookup_empty. }
  destruct (decide (k = "dealstage")) as [-> | Hstage].
  { rewrite set_if_not_None_other by discriminate.
    apply set_if_not_None_same.
    rewrite !set_if_not_None_other by discriminate. apply lookup_empty. }
  destruct (decide (k = "pipeline")) as [-> | Hpipeline].
  { apply set_if_not_None_same.
    rewrite !set_if_not_None_other by discriminate. apply lookup_empty. }
  rewrite !set_if_not_None_other by congruence. apply lookup_empty.
Qed.

(** C9. The [properties] of [update_contact] and of [update_deal] hold a key
    exactly for each field of the payload that is not [None], with the value
    given, and no other key.  The PATCH requests are the only mutations
    sent, and the JSON body of each is [{"properties": p}] with exactly
    these properties [p], addressed to the record: [update_deal] sends
    nothing else, and [update_contact] sends them once its lookup has found
    the id. *)
Theorem update_payloads_are_sparse :
  (forall payload k,
      update_contact_properties payload !! k =
        if decide (k = "firstname") then VStr <$> UpdateContactInput.first_name payload
        else if decide (k = "lastname") then VStr <$> UpdateContactInput.last_name payload
        else if decide (k = "phone") then VStr <$> UpdateContactInput.phone payload
        else None)
  /\ (forall payload k,
        update_deal_properties payload !! k =
          if decide (k = "dealname") then VStr <$> UpdateDealInput.name payload
          else if decide (k = "amount") then VFloat <$> UpdateDealInput.amount payload
          else if decide (k = "dealstage") then VStr <$> UpdateDealInput.stage payload
          else if decide (k = "pipeline") then VStr <$> UpdateDealInput.pipeline payload
          else None)
  /\ (forall W (R : Remote W) (self : HubSpotAgent) payload (s : State W),
        exists k request, (1 <= k <= 3)%nat
          /\ wire (snd (update_deal self payload s)) = wire s ++ replicate k request
          /\ request
             = outgoing (client self) PATCH (deal_path (UpdateDealInput.deal_id payload))
                 None None (properties_body (update_deal_properties payload))
          /\ Request.method request = PATCH
          /\ Request.url request
             = [Lit "/crm/v3/objects/deals/"; Interp (VStr (UpdateDealInput.deal_id payload))]
          /\ Request.json request
             = Some (VDict {[ "properties" := VDict (update_deal_properties payload) ]}))
  /\ (forall W (R : Remote W) (self : HubSpotAgent) payload (s s1 : State W) contact_id,
        _find_contact_id_by_email self (UpdateContactInput.email payload) s
          = (Returned contact_id, s1) ->
        is_not_None contact_id = true ->
        exists k request, (1 <= k <= 3)%nat
          /\ wire (snd (update_contact self payload s)) = wire s1 ++ replicate k request
          /\ request
             = outgoing (client self) PATCH (contact_path contact_id)
                 None None (properties_body (update_contact_properties payload))
          /\ Request.method request = PATCH
          /\ Request.url request = [Lit "/crm/v3/objects/contacts/"; Interp contact_id]
          /\ Request.json request
             = Some (VDict {[ "properties" := VDict (update_contact_properties payload) ]})).
Proof.
  split; [| split; [| split]].
  - apply update_contact_properties_lookup.
  - apply update_deal_properties_lookup.
  - intros W R self payload s. unfold update_deal, patch.
    destruct (request_wire (client self) PATCH (deal_path (UpdateDealInput.deal_id payload))
                None None (properties_body (update_deal_properties payload)) s)
      as (k & Hk & Hw & _).
    exists k. eexists. split; [exact Hk |]. split; [exact Hw |]. repeat split.
  - intros W R self payload s s1 contact_id Hfind Hid.
    unfold update_contact, bind, require, patch. rewrite Hfind, Hid. unfold ret.
    destruct (request_wire (client self) PATCH (contact_path contact_id)
                None None (properties_body (update_contact_properties payload)) s1)
      as (k & Hk & Hw & _).
    exists k. eexists. split; [exact Hk |]. split; [exact Hw |]. repeat split.
Qed.

Lemma update_payloads_are_sparse_witness :
  let bob := {[ "id" := VStr "77";
                "properties" := VDict {[ "email" := VStr "bob@example.com" ]} ]} in
  let s := Scripted.start [Examples.found bob; Scripted.json_response 200 (VDict bob)] in
  exists k request,
    wire (snd (update_contact Examples.agent Examples.rename_bob s))
    = [search_request Examples.agent "bob@example.com"] ++ replicate k request
    /\ Request.method request = PATCH
    /\ Request.url request = [Lit "/crm/v3/objects/contacts/"; Interp (VStr "77")]
    /\ Request.json request
       = Some (VDict {[ "properties" :=
                          VDict {[ "firstname" := VStr "Bob"; "phone" := VStr "" ]} ]}).
Proof.
  intros bob s.
  assert (Hfind : _find_contact_id_by_email Examples.agent
                    (UpdateContactInput.email Examples.rename_bob) s
                  = (Returned (VStr "77"),
                     sent (search_request Examples.agent "bob@example.com")
                       [Scripted.json_response 200 (VDict bob)] s))
    by reflexivity.
  destruct (proj2 (proj2 (proj2 update_payloads_are_sparse)) _ _
              Examples.agent Examples.rename_bob s _ (VStr "77") Hfind eq_refl)
    as (k & request & _ & Hw & _ & Hmethod & Hurl & Hjson).
  exists k, request. rewrite Hw. repeat split; assumption.
Defined.

(** ** The orchestrator *)

Section Quiet.
Context {W : Type} `{!Remote W}.

Lemma quiet_ret {A} (a : A) : quiet (ret (W := W) a).
Proof. intros s. reflexivity. Qed.

Lemma quiet_raise {A} e : quiet (raise (W := W) (A := A) e).
Proof. intros s. reflexivity. Qed.

Lemma quiet_lift {A} (o : outcome A) : quiet (lift (W := W) o).
Proof. intros s. reflexivity. Qed.

Lemma quiet_log lv msg : quiet (log (W := W) lv msg).
Proof. intros s. reflexivity. Qed.

Lemma quiet_require c msg : quiet (require (W := W) c msg).
Proof. intros s. unfold require. destruct c; reflexivity. Qed.

Lemma quiet_bind {A B} (m : M W A) (k : A -> M W B) :
  quiet m -> (forall a, quiet (k a)) -> quiet (bind m k).
Proof.
  intros Hm Hk s. unfold bind. specialize (Hm s).
  destruct (m s) as [[a | e] s1]; cbn [snd] in *; [| exact Hm].
  rewrite (Hk a s1). exact Hm.
Qed.

Lemma quiet_try_except {A} (m : M W A) (h : exn -> M W A) :
  quiet m -> (forall e, quiet (h e)) -> quiet (try_except m h).
Proof.
  intros Hm Hh s. unfold try_except. specialize (Hm s).
  destruct (m s) as [[a | e] s1]; cbn [snd] in *; [exact Hm |].
  rewrite (Hh e s1). exact Hm.
Qed.

Lemma quiet_try_except_then {A B} (m : M W A) (h : exn -> M W B) (k : A -> M W B) :
  quiet m -> (forall e, quiet (h e)) -> (forall a, quiet (k a)) -> quiet (try_except_then m h k).
Proof.
  intros Hm Hh Hk s. unfold try_except_then. specialize (Hm s).
  destruct (m s) as [[a | e] s1]; cbn [snd] in *.
  - rewrite (Hk a s1). exact Hm.
  - rewrite (Hh e s1). exact Hm.
Qed.

Lemma quiet_request self method path headers params json :
  quiet (request (W := W) self method path headers params json).
Proof.
  intros s. destruct (request_wire self method path headers params json s) as (k & _ & _ & Hi).
  exact Hi.
Qed.

Lemma quiet_if {A} (b : bool) (m1 m2 : M W A) :
  quiet m1 -> quiet m2 -> quiet (if b then m1 else m2).
Proof. destruct b; auto. Qed.

End Quiet.

Ltac quiet_step :=
  first [ apply quiet_request | apply quiet_ret | apply quiet_raise | apply quiet_lift
        | apply quiet_log | apply quiet_require
        | apply quiet_if
        | apply quiet_bind; [| intro] ].

Section Quiet_agents.
Context {W : Type} `{!Remote W} `{!Pydantic} `{!Asyncio W}.

Lemma quiet_get_contact self email : quiet (_get_contact_by_email (W := W) self email).
Proof.
  unfold _get_contact_by_email, post.
  apply quiet_bind; [apply quiet_request | intros res].
  destruct res; repeat quiet_step.
Qed.

Lemma quiet_find_contact self email : quiet (_find_contact_id_by_email (W := W) self email).
Proof.
  unfold _find_contact_id_by_email. quiet_step; [apply quiet_get_contact |].
  repeat quiet_step.
Qed.

Lemma quiet_create_contact self payload : quiet (create_contact (W := W) self payload).
Proof.
  unfold create_contact, post.
  apply quiet_try_except_then; [apply quiet_request | intros err | intros res; repeat quiet_step].
  destruct err; try apply quiet_raise.
  apply quiet_if; [| apply quiet_raise].
  apply quiet_bind; [apply quiet_get_contact | intros existing].
  repeat quiet_step.
Qed.

Lemma quiet_update_contact self payload : quiet (update_contact (W := W) self payload).
Proof.
  unfold update_contact, patch. quiet_step; [apply quiet_find_contact |].
  repeat quiet_step.
Qed.

Lemma quiet_create_deal self payload : quiet (create_deal (W := W) self payload).
Proof.
  unfold create_deal, post, put. quiet_step; [quiet_step |].
  quiet_step; [quiet_step |].
  destruct (nonempty _); [| quiet_step].
  quiet_step; [apply quiet_find_contact |].
  repeat quiet_step.
Qed.

Lemma quiet_update_deal self payload : quiet (update_deal (W := W) self payload).
Proof. unfold update_deal, patch. quiet_step. Qed.

Lemma quiet_send self payload : quiet (send (W := W) self payload).
Proof.
  unfold send, with_http_client, post.
  destruct (String.eqb _ "sendgrid").
  { quiet_step; [destruct (_http_client self); quiet_step | quiet_step]. }
  destruct (String.eqb _ "resend").
  { quiet_step; [destruct (_http_client self); quiet_step | quiet_step]. }
  intros s. destruct (smtp (world s) _) as [w [e |]]; reflexivity.
Qed.

Lemma quiet_send_confirmation self to_email html subject :
  quiet (send_confirmation (W := W) self to_email html subject).
Proof.
  unfold send_confirmation. destruct (or_else _ _); [| quiet_step].
  apply quiet_bind; [apply quiet_lift | intros payload; apply quiet_send].
Qed.

(** A tool call is entered once, whatever it does. *)
Lemma run_tool_invoked self c (s : State W) :
  invoked (snd (run_tool self c s)) = invoked s ++ [c].
Proof.
  unfold run_tool. unfold bind at 1. unfold enter_tool.
  set (s0 := mkState (world s) (wire s) (logs s) (invoked s ++ [c])).
  change (invoked s ++ [c]) with (invoked s0).
  destruct c.
  - apply (quiet_bind _ _ (quiet_lift _)). intros payload.
    apply (quiet_bind _ _ (quiet_create_contact _ _) (fun a => quiet_ret _)).
  - apply (quiet_bind _ _ (quiet_lift _)). intros payload.
    apply (quiet_bind _ _ (quiet_update_contact _ _) (fun a => quiet_ret _)).
  - apply (quiet_bind _ _ (quiet_lift _)). intros payload.
    apply (quiet_bind _ _ (quiet_create_deal _ _) (fun a => quiet_ret _)).
  - apply (quiet_bind _ _ (quiet_lift _)). intros payload.
    apply (quiet_bind _ _ (quiet_update_deal _ _) (fun a => quiet_ret _)).
  - apply (quiet_bind _ _ (quiet_send_confirmation _ _ _ _) (fun a => quiet_ret _)).
Qed.

(** A step of one call is that call. *)
Lemma gather_run_tool self c (s : State W) :
  gather (List.map (run_tool self) [c]) s
  = match run_tool self c s with
    | (Returned observation, s1) => (Returned [observation], s1)
    | (Raised e, s1) => (Raised e, s1)
    end.
Proof.
  cbn [List.map]. rewrite gather_one. unfold bind, ret.
  destruct (run_tool self c s) as [[o | e] s1]; reflexivity.
Qed.

Lemma run_tools_invoked self calls (s sk : State W) observations :
  run_tools self calls s = (Returned observations, sk) ->
  invoked sk = invoked s ++ calls /\ List.length observations = List.length calls.
Proof.
  revert s observations. induction calls as [| c rest IH]; intros s observations Hrun.
  - injection Hrun as <- <-. rewrite app_nil_r. auto.
  - cbn [run_tools] in Hrun. unfold bind in Hrun.
    pose proof (run_tool_invoked self c s) as Hc.
    destruct (run_tool self c s) as [[o | e] s1]; [| discriminate]. cbn [snd] in Hc.
    destruct (run_tools self rest s1) as [[os | e] s2] eqn:Hrest; [| discriminate].
    injection Hrun as <- <-.
    destruct (IH s1 os Hrest) as [Hi Hl].
    rewrite Hi, Hc, <- app_assoc. cbn [List.length]. auto.
Qed.

(** The loop of the executor on an agent that follows a plan: the calls of
    [pre] succeed, the next call raises, and the exception leaves the loop. *)
Lemma agent_loop_raises self input plan final pre c e :
  llm self = follow_plan plan final ->
  forall n done (s sk s' : State W) observations,
    plan !! (List.length done + List.length pre)%nat = Some c ->
    (forall i x, pre !! i = Some x -> plan !! (List.length done + i)%nat = Some x) ->
    (List.length pre < n)%nat ->
    run_tools self pre s = (Returned observations, sk) ->
    run_tool self c sk = (Raised e, s') ->
    agent_loop n self input done s = (Raised e, s').
Proof.
  intros Hllm. induction pre as [| c0 rest IH]; intros n done s sk s' obs Hc Hpre Hn Hrun Hfail.
  - injection Hrun as <- <-. destruct n as [| n]; [cbn in Hn; lia |].
    cbn [List.length] in Hc. rewrite Nat.add_0_r in Hc.
    assert (Hstep : llm self input done = AgentActions [c])
      by (rewrite Hllm; unfold follow_plan; rewrite Hc; reflexivity).
    cbn [agent_loop]. rewrite Hstep. unfold bind. rewrite gather_run_tool, Hfail.
    reflexivity.
  - destruct n as [| n]; [cbn in Hn; lia |].
    pose proof (Hpre 0%nat c0 eq_refl) as H0. rewrite Nat.add_0_r in H0.
    assert (Hstep : llm self input done = AgentActions [c0])
      by (rewrite Hllm; unfold follow_plan; rewrite H0; reflexivity).
    cbn [agent_loop]. rewrite Hstep.
    cbn [run_tools] in Hrun. unfold bind in Hrun |- *. rewrite gather_run_tool.
    destruct (run_tool self c0 s) as [[o | e0] s1]; [| discriminate].
    destruct (run_tools self rest s1) as [[os | e0] s2] eqn:Hrest; [| discriminate].
    injection Hrun as <- <-.
    apply (IH n (done ++ [o]) s1 s2 s' os).
    + rewrite length_app. cbn [List.length] in Hc |- *.
      replace (List.length done + 1 + List.length rest)%nat
        with (List.length done + S (List.length rest))%nat by lia. exact Hc.
    + intros i x Hi. rewrite length_app. cbn [List.length].
      replace (List.length done + 1 + i)%nat with (List.length done + S i)%nat by lia.
      apply Hpre. exact Hi.
    + cbn [List.length] in Hn. lia.
    + exact Hrest.
    + exact Hfail.
Qed.

End Quiet_agents.

(** C2, as the code has it. When the agent takes its operations one per
    step and one of them raises (an [ApiError], a [ValidationError], any
    exception but the time limit of the executor itself), the exception is
    not recorded: it leaves the executor, and [run] catches it and returns
    the one message made of it, in the state the failing tool left plus one
    log record.  The tools entered are the operations before the failing
    one and the failing one; nothing that comes after it in the plan, the
    confirmation mail included, is entered. *)
Theorem run_stops_at_first_failure {W} `{!Remote W} `{!Pydantic} `{!Asyncio W}
    (self : OrchestratorAgent) (input : string)
    (pre : list ToolCall) (c : ToolCall) (rest : list ToolCall)
    (final : gmap string value) (observations : list value) (e : exn)
    (s sk s' : State W) :
  llm self = follow_plan (pre ++ c :: rest) final ->
  (List.length pre < max_iterations)%nat ->
  run_tools self pre s = (Returned observations, sk) ->
  run_tool self c sk = (Raised e, s') ->
  e <> TimeoutError ->
  run self input s
    = (Returned (Message (failure_message e)), logged ERROR (failure_log e) s')
  /\ invoked s' = invoked s ++ pre ++ [c].
Proof.
  intros Hllm Hlen Hpre Hfail Hnot.
  assert (Hloop : agent_loop max_iterations self input [] s = (Raised e, s')).
  { apply (agent_loop_raises self input (pre ++ c :: rest) final pre c e Hllm
             max_iterations [] s sk s' observations).
    - cbn [List.length Nat.add]. rewrite lookup_app_r by lia.
      rewrite Nat.sub_diag. reflexivity.
    - intros i x Hi. cbn [List.length Nat.add]. apply lookup_app_l_Some. exact Hi.
    - exact Hlen.
    - exact Hpre.
    - exact Hfail. }
  split.
  - unfold run, ainvoke, try_except, bind. rewrite Hloop.
    destruct e; try reflexivity. contradiction.
  - destruct (run_tools_invoked self pre s sk observations Hpre) as [Hi _].
    pose proof (run_tool_invoked self c sk) as Hc. rewrite Hfail in Hc. cbn [snd] in Hc.
    rewrite Hc, Hi, <- app_assoc. reflexivity.
Qed.

Section Three_operations.
#[local] Existing Instance Plain.pydantic.
#[local] Existing Instance Plain.asyncio.

Lemma run_stops_at_first_failure_witness :
  let s := Scripted.start Examples.three_operations_script in
  let ada := CreateContactInput.make "ada@example.com" None None None in
  let op1 := call_create_contact "ada@example.com" (Some "Ada") None None in
  let op2 := call_update_contact "bob@example.com" (Some "Bob") None (Some "") in
  run Examples.orchestrator "Add Ada, rename Bob, open a 42.5 deal" s
  = (Returned (Message
       [Lit "Sorry, something went wrong: ";
        StrExn (ValidationError "Contact not found for email bob@example.com")]),
     mkState [Scripted.json_response 201 (VDict Examples.created_deal)]
       [create_request Examples.agent ada;
        search_request Examples.agent "bob@example.com"]
       [(INFO, "New contact created"); (ERROR, "Orchestrator run failed")]
       [op1; op2]).
Proof.
  intros s ada op1 op2.
  assert (Hpre : run_tools Examples.orchestrator [op1] s
                 = (Returned [tool_result "create_contact" (VDict Examples.ada)],
                    mkState [Examples.not_found;
                             Scripted.json_response 201 (VDict Examples.created_deal)]
                      [create_request Examples.agent ada]
                      [(INFO, "New contact created")]
                      [op1]))
    by reflexivity.
  assert (Hfail : run_tool Examples.orchestrator op2
                    (mkState [Examples.not_found;
                              Scripted.json_response 201 (VDict Examples.created_deal)]
                       [create_request Examples.agent ada]
                       [(INFO, "New contact created")]
                       [op1])
                  = (Raised (ValidationError "Contact not found for email bob@example.com"),
                     mkState [Scripted.json_response 201 (VDict Examples.created_deal)]
                       [create_request Examples.agent ada;
                        search_request Examples.agent "bob@example.com"]
                       [(INFO, "New contact created")]
                       [op1; op2]))
    by reflexivity.
  assert (Hlen : (List.length [op1] < max_iterations)%nat)
    by (unfold max_iterations; simpl; lia).
  assert (Hnot : ValidationError "Contact not found for email bob@example.com" <> TimeoutError)
    by discriminate.
  destruct (run_stops_at_first_failure Examples.orchestrator
              "Add Ada, rename Bob, open a 42.5 deal"
              [op1] op2
              [call_create_deal None (Some float_42_5) None None None;
               call_send_confirmation_email None None "<p>done</p>"]
              {[ "output" := VStr "All done." ]} _ _ s _ _
              eq_refl Hlen Hpre Hfail Hnot) as [Hrun _].
  rewrite Hrun. reflexivity.
Defined.

(** C2 as stated fails on a plan of three operations and the confirmation
    mail: the second operation raises [ValidationError], and neither the
    third operation nor the mail is ever entered; the remote still holds the
    answer it had ready for the third. *)
Lemma run_isolates_failures_counterexample :
  let s := Scripted.start Examples.three_operations_script in
  let final := snd (run Examples.orchestrator "Add Ada, rename Bob, open a 42.5 deal" s) in
  let op1 := call_create_contact "ada@example.com" (Some "Ada") None None in
  let op2 := call_update_contact "bob@example.com" (Some "Bob") None (Some "") in
  let op3 := call_create_deal None (Some float_42_5) None None None in
  Examples.three_operations
    = [op1; op2; op3; call_send_confirmation_email None None "<p>done</p>"]
  /\ (exists o s1 s2,
       run_tool Examples.orchestrator op1 s = (Returned o, s1)
       /\ run_tool Examples.orchestrator op2 s1
          = (Raised (ValidationError "Contact not found for email bob@example.com"), s2))
  /\ ~ In op3 (invoked final)
  /\ ~ In (call_send_confirmation_email None None "<p>done</p>") (invoked final)
  /\ world final = [Scripted.json_response 201 (VDict Examples.created_deal)]
  /\ fst (run Examples.orchestrator "Add Ada, rename Bob, open a 42.5 deal" s)
     = Returned (Message
         [Lit "Sorry, something went wrong: ";
          StrExn (ValidationError "Contact not found for email bob@example.com")]).
Proof.
  intros s final op1 op2 op3.
  assert (Hinvoked : invoked final = [op1; op2]) by reflexivity.
  split; [reflexivity |]. split; [| split; [| split; [| split]]].
  - eexists. eexists. eexists. split; reflexivity.
  - rewrite Hinvoked. intros [H | [H | []]]; discriminate H.
  - rewrite Hinvoked. intros [H | [H | []]]; discriminate H.
  - reflexivity.
  - reflexivity.
Qed.

End Three_operations.

(** ** More on the transport *)

Section Transport_more.
Context {W : Type} `{!Remote W}.
Implicit Types (s : State W) (self : AsyncApiClient).

(** What a retried call returns, one of its attempts returned. *)
Lemma retry_call_returned {A} (fn : M W A) fuel attempt_number s s' (a : A) :
  retry_call fuel attempt_number fn s = (Returned a, s') ->
  exists s0, fn s0 = (Returned a, s').
Proof.
  revert attempt_number s. induction fuel as [| fuel IH]; intros n s; cbn [retry_call];
    destruct (fn s) as [[a0 | e] s1] eqn:Hrun.
  - intros [= <- <-]. eauto.
  - destruct (negb _); [discriminate |]. destruct (_ <=? _)%nat; discriminate.
  - intros [= <- <-]. eauto.
  - destruct (negb _); [discriminate |]. destruct (_ <=? _)%nat; [discriminate |].
    apply IH.
Qed.

Lemma attempt_returned self method path headers params json s s' v :
  request_attempt self method path headers params json s = (Returned v, s') ->
  exists w response,
    http (world s) (outgoing self method path headers params json) = (w, Responds response)
    /\ (200 <= Response.status_code response < 300)%Z
    /\ v = decode_body response
    /\ s' = sent (outgoing self method path headers params json) w s.
Proof.
  unfold request_attempt.
  destruct (http (world s) _) as [w [e | response]] eqn:Hx.
  - destruct (retry_if_exception_type e); discriminate.
  - destruct (200 <=? _)%Z eqn:Hlo; [destruct (_ <? 300)%Z eqn:Hhi |]; cbn [andb];
      try discriminate.
    intros [= <- <-]. exists w, response.
    apply Z.leb_le in Hlo. apply Z.ltb_lt in Hhi. auto.
Qed.

End Transport_more.

(** X1. [request] returns a value only when its last exchange was answered
    with a status in [200, 300); the value is the decoded body of that
    answer.  The body of an error answer is never returned. *)
Theorem request_returns_only_success_bodies {W} `{!Remote W}
    (self : AsyncApiClient) method path headers params json (s s' : State W) v :
  request self method path headers params json s = (Returned v, s') ->
  exists s0 w response,
    http (world s0) (outgoing self method path headers params json) = (w, Responds response)
    /\ (200 <= Response.status_code response < 300)%Z
    /\ v = decode_body response
    /\ s' = sent (outgoing self method path headers params json) w s0.
Proof.
  intros Hrun. unfold request in Hrun.
  destruct (retry_call_returned _ _ _ _ _ _ Hrun) as [s0 Hattempt].
  exists s0. apply attempt_returned. exact Hattempt.
Qed.

Lemma request_returns_only_success_bodies_witness :
  exists (s0 : State (list exchange)) w response,
    http (world s0) (outgoing (client Examples.agent) POST deals_path None None None)
      = (w, Responds response)
    /\ (200 <= Response.status_code response < 300)%Z
    /\ VDict Examples.created_deal = decode_body response.
Proof.
  assert (Hrun : request (client Examples.agent) POST deals_path None None None
                   (Scripted.start [Raises TimeoutError;
                                    Scripted.json_response 201 (VDict Examples.created_deal)])
                 = (Returned (VDict Examples.created_deal),
                    sent (outgoing (client Examples.agent) POST deals_path None None None) []
                      (logged WARNING "Transient HTTP exception, will retry if attempts remain"
                         (sent (outgoing (client Examples.agent) POST deals_path None None None)
                            [Scripted.json_response 201 (VDict Examples.created_deal)]
                            (Scripted.start
                               [Raises TimeoutError;
                                Scripted.json_response 201 (VDict Examples.created_deal)])))))
    by reflexivity.
  destruct (request_returns_only_success_bodies _ _ _ _ _ _ _ _ _ Hrun)
    as (s0 & w & response & Hx & Hok & Hv & _).
  exists s0, w, response. auto.
Defined.

(** X2. The headers of a request are the headers given for it over the
    defaults of the client: a key given for the request wins, the other
    default keys stay, and nothing else appears. *)
Theorem request_headers_override_defaults
    (self : AsyncApiClient) method path (headers : option (gmap string string))
    params json (k : string) :
  Request.headers (outgoing self method path headers params json) !! k =
    match headers ≫= (fun h => h !! k) with
    | Some v => Some v
    | None => default_headers self !! k
    end.
Proof.
  unfold outgoing. cbn [Request.headers]. unfold _merge_headers.
  destruct headers as [h |]; cbn [mbind option_bind]; [| reflexivity].
  case_bool_decide as Hsize.
  - apply map_size_empty_iff in Hsize. subst h. rewrite lookup_empty. reflexivity.
  - rewrite lookup_union. destruct (h !! k), (default_headers self !! k); reflexivity.
Qed.

Lemma rstrip_slash_no_trailing s : ends_with_slash (rstrip_slash s) = false.
Proof.
  induction s as [| c rest IH]; [reflexivity |].
  cbn [rstrip_slash]. destruct (rstrip_slash rest) as [| c' rest'] eqn:Hrest.
  - destruct (Ascii.eqb c "/") eqn:Hc; [reflexivity |]. cbn [ends_with_slash]. exact Hc.
  - cbn [ends_with_slash] in IH |- *. exact IH.
Qed.

Lemma rstrip_slash_only_slashes s : exists n, s = rstrip_slash s +:+ slashes n.
Proof.
  induction s as [| c rest [n IH]]; [exists 0%nat; reflexivity |].
  cbn [rstrip_slash]. destruct (rstrip_slash rest) as [| c' rest'] eqn:Hrest.
  - change (rest = slashes n) in IH. destruct (Ascii.eqb_spec c "/") as [-> | Hc].
    + exists (S n). change (String "/" rest = String "/" (slashes n)).
      rewrite <- IH. reflexivity.
    + exists n. change (String c rest = String c (slashes n)).
      rewrite <- IH. reflexivity.
  - exists n. change (String c rest = String c (String c' rest' +:+ slashes n)).
    rewrite <- IH. reflexivity.
Qed.

(** X3. The slashes where base URL and path meet.  The base URL kept by a
    client never ends with a slash: exactly the trailing slashes of the one
    given are cut off.  The URL of every request starts with a slash: a
    path that starts with one is sent as it is, with all its leading
    slashes, and any other path, the empty one included, gets one slash put
    before it. *)
Theorem base_url_and_url_slashes :
  (forall base default_headers,
      ends_with_slash (base_url (AsyncApiClient_init base default_headers)) = false
      /\ exists n, base = base_url (AsyncApiClient_init base default_headers) +:+ slashes n)
  /\ (forall self method path headers params json,
        startswith_slash (Request.url (outgoing self method path headers params json)) = true
        /\ Request.base_url (outgoing self method path headers params json) = base_url self
        /\ (startswith_slash path = true ->
            Request.url (outgoing self method path headers params json) = path)
        /\ (startswith_slash path = false ->
            Request.url (outgoing self method path headers params json) = Lit "/" :: path)).
Proof.
  split.
  - intros base default_headers. cbn [AsyncApiClient_init base_url]. split.
    + apply rstrip_slash_no_trailing.
    + apply rstrip_slash_only_slashes.
  - intros self method path headers params json. unfold outgoing.
    cbn [Request.url Request.base_url].
    destruct (startswith_slash path) eqn:Hpath.
    + repeat split; [exact Hpath | discriminate].
    + repeat split; discriminate.
Qed.

Lemma base_url_and_url_slashes_witness :
  let c := AsyncApiClient_init "https://api.hubapi.com//" None in
  base_url c = "https://api.hubapi.com"
  /\ Request.url (outgoing c GET [Lit ""; Lit "/x"] None None None) = [Lit ""; Lit "/x"]
  /\ Request.url (outgoing c GET [Lit "//x"] None None None) = [Lit "//x"]
  /\ Request.url (outgoing c GET [Interp (VStr "crm"); Lit "/x"] None None None)
     = [Lit "/"; Interp (VStr "crm"); Lit "/x"]
  /\ Request.url (outgoing c GET [] None None None) = [Lit "/"].
Proof.
  intros c.
  pose proof (proj2 base_url_and_url_slashes c GET) as Hurl.
  split; [reflexivity |]. split; [| split; [| split]].
  - apply (Hurl [Lit ""; Lit "/x"] None None None). reflexivity.
  - apply (Hurl [Lit "//x"] None None None). reflexivity.
  - apply (Hurl [Interp (VStr "crm"); Lit "/x"] None None None). reflexivity.
  - apply (Hurl [] None None None). reflexivity.
Defined.

Lemma session_step_balance (self : Session.t) c :
  Session.created self = (Session.aclosed self + (if Session.is_open self then 1 else 0))%nat ->
  Session.created (Session.step self c)
  = (Session.aclosed (Session.step self c)
     + (if Session.is_open (Session.step self c) then 1 else 0))%nat.
Proof.
  destruct self as [[[|] |] n m], c; unfold Session.is_open; cbn; lia.
Qed.

(** X4. Whatever sequence of [ensure_session] and [close] a client goes
    through from its construction, every httpx client it constructed has
    been closed exactly once, except the current one while it is open: at
    most one is open and none is closed twice.  After [ensure_session] the
    session is open, after [close] it is not, a second [close] does nothing,
    and [ensure_session] after [close] constructs a new client. *)
Theorem session_clients_are_balanced (calls : list Session.call) :
  let self := Session.run calls Session.init in
  Session.created self
    = (Session.aclosed self + (if Session.is_open self then 1 else 0))%nat
  /\ Session.is_open (Session.ensure_session self) = true
  /\ Session.is_open (Session.close self) = false
  /\ Session.close (Session.close self) = Session.close self
  /\ Session.ensure_session (Session.ensure_session self) = Session.ensure_session self
  /\ Session.created (Session.ensure_session (Session.close self))
     = S (Session.created self).
Proof.
  intros self. split.
  - subst self. unfold Session.run.
    assert (Hgen : forall start,
               Session.created start
               = (Session.aclosed start + (if Session.is_open start then 1 else 0))%nat ->
               Session.created (fold_left Session.step calls start)
               = (Session.aclosed (fold_left Session.step calls start)
                  + (if Session.is_open (fold_left Session.step calls start) then 1 else 0))%nat).
    { induction calls as [| c rest IH]; intros start Hstart; [exact Hstart |].
      cbn [fold_left]. apply IH. apply session_step_balance. exact Hstart. }
    apply Hgen. reflexivity.
  - destruct self as [[[|] |] n m]; repeat split; reflexivity.
Qed.

(** ** More on the record service *)

Section Emits.
Context {W : Type} `{!Remote W}.
Variable P : Request.t -> Prop.

Lemma emits_ret {A} (a : A) : emits P (ret (W := W) a).
Proof. intros s. exists []. rewrite app_nil_r. auto. Qed.

Lemma emits_raise {A} e : emits P (raise (W := W) (A := A) e).
Proof. intros s. exists []. rewrite app_nil_r. auto. Qed.

Lemma emits_lift {A} (o : outcome A) : emits P (lift (W := W) o).
Proof. intros s. exists []. rewrite app_nil_r. auto. Qed.

Lemma emits_log lv msg : emits P (log (W := W) lv msg).
Proof. intros s. exists []. cbn. rewrite app_nil_r. auto. Qed.

Lemma emits_require c msg : emits P (require (W := W) c msg).
Proof. unfold require. destruct c; [apply emits_ret | apply emits_raise]. Qed.

Lemma emits_if {A} (b : bool) (m1 m2 : M W A) :
  emits P m1 -> emits P m2 -> emits P (if b then m1 else m2).
Proof. destruct b; auto. Qed.

Lemma emits_bind {A B} (m : M W A) (k : A -> M W B) :
  emits P m -> (forall a, emits P (k a)) -> emits P (bind m k).
Proof.
  intros Hm Hk s. unfold bind. destruct (Hm s) as (new & Hw & Hnew).
  destruct (m s) as [[a | e] s1]; cbn [snd] in *.
  - destruct (Hk a s1) as (new' & Hw' & Hnew').
    exists (new ++ new'). rewrite Hw', Hw, <- app_assoc. split; [reflexivity |].
    apply Forall_app. auto.
  - exists new. auto.
Qed.

Lemma emits_try_except_then {A B} (m : M W A) (h : exn -> M W B) (k : A -> M W B) :
  emits P m -> (forall e, emits P (h e)) -> (forall a, emits P (k a)) ->
  emits P (try_except_then m h k).
Proof.
  intros Hm Hh Hk s. unfold try_except_then. destruct (Hm s) as (new & Hw & Hnew).
  destruct (m s) as [[a | e] s1]; cbn [snd] in *.
  - destruct (Hk a s1) as (new' & Hw' & Hnew').
    exists (new ++ new'). rewrite Hw', Hw, <- app_assoc. split; [reflexivity |].
    apply Forall_app. auto.
  - destruct (Hh e s1) as (new' & Hw' & Hnew').
    exists (new ++ new'). rewrite Hw', Hw, <- app_assoc. split; [reflexivity |].
    apply Forall_app. auto.
Qed.

Lemma emits_request self method path headers params json :
  P (outgoing self method path headers params json) ->
  emits P (request (W := W) self method path headers params json).
Proof.
  intros Hreq s.
  destruct (request_wire self method path headers params json s) as (k & _ & Hw & _).
  exists (replicate k (outgoing self method path headers params json)).
  split; [exact Hw |]. apply Forall_replicate. exact Hreq.
Qed.

End Emits.

Lemma from_client_outgoing c methods method path json :
  In method methods ->
  from_client c methods (outgoing c method path None None json).
Proof. intros Hin. repeat split. exact Hin. Qed.

Lemma from_client_weaken c methods methods' r :
  (forall m, In m methods -> In m methods') ->
  from_client c methods r -> from_client c methods' r.
Proof. intros Hsub (Hb & Hh & Hp & Hm). repeat split; auto. Qed.

Lemma emits_weaken {W A} (P Q : Request.t -> Prop) (m : M W A) :
  (forall r, P r -> Q r) -> emits P m -> emits Q m.
Proof.
  intros HPQ Hm s. destruct (Hm s) as (new & Hw & Hnew).
  exists new. split; [exact Hw |]. eapply Forall_impl; eauto.
Qed.

Ltac emits_leaf :=
  first [ apply emits_ret | apply emits_raise | apply emits_lift | apply emits_log
        | apply emits_require
        | apply emits_request; apply from_client_outgoing; cbn; tauto ].

Section Emits_agents.
Context {W : Type} `{!Remote W}.
Implicit Types (self : HubSpotAgent).

Lemma emits_get_contact self email :
  emits (from_client (client self) [POST]) (_get_contact_by_email (W := W) self email).
Proof.
  unfold _get_contact_by_email, post.
  apply emits_bind; [emits_leaf | intros res].
  destruct res; try emits_leaf.
  apply emits_if; emits_leaf.
Qed.

Lemma emits_find_contact self email :
  emits (from_client (client self) [POST]) (_find_contact_id_by_email (W := W) self email).
Proof.
  unfold _find_contact_id_by_email.
  apply emits_bind; [apply emits_get_contact | intros contact].
  apply emits_if; emits_leaf.
Qed.

Lemma emits_create_contact self payload :
  emits (from_client (client self) [POST]) (create_contact (W := W) self payload).
Proof.
  unfold create_contact, post.
  apply emits_try_except_then; [emits_leaf | intros err | intros res].
  - destruct err; try emits_leaf.
    apply emits_if; [| emits_leaf].
    apply emits_bind; [apply emits_get_contact | intros existing].
    apply emits_if.
    + apply emits_bind; [emits_leaf | intros contact_id].
      apply emits_bind; [emits_leaf | intros _].
      apply emits_bind; [emits_leaf | intros props]. emits_leaf.
    + apply emits_bind; [emits_leaf | intros _]. emits_leaf.
  - apply emits_bind; [emits_leaf | intros _]. emits_leaf.
Qed.

Lemma emits_update_contact self payload :
  emits (from_client (client self) [POST; PATCH]) (update_contact (W := W) self payload).
Proof.
  unfold update_contact, patch.
  apply emits_bind; [| intros contact_id].
  { eapply emits_weaken; [| apply emits_find_contact].
    intros r. apply from_client_weaken. cbn. tauto. }
  apply emits_bind; [emits_leaf | intros _]. emits_leaf.
Qed.

Lemma emits_create_deal self payload :
  emits (from_client (client self) [POST; PUT]) (create_deal (W := W) self payload).
Proof.
  unfold create_deal, post, put.
  apply emits_bind; [emits_leaf | intros create_resp].
  apply emits_bind; [emits_leaf | intros deal_id].
  destruct (nonempty _) as [email |]; [| emits_leaf].
  apply emits_bind; [| intros contact_id].
  { eapply emits_weaken; [| apply emits_find_contact].
    intros r. apply from_client_weaken. cbn. tauto. }
  apply emits_bind; [emits_leaf | intros _].
  apply emits_bind; [emits_leaf | intros _]. emits_leaf.
Qed.

Lemma emits_update_deal self payload :
  emits (from_client (client self) [PATCH]) (update_deal (W := W) self payload).
Proof. unfold update_deal, patch. emits_leaf. Qed.

End Emits_agents.

(** X5. Every request the record service sends goes to the base URL of its
    client with the default headers of the client (the bearer token) and no
    query parameters.  [create_contact] sends only POST, [update_contact]
    only POST and PATCH, [create_deal] only POST and PUT, [update_deal] only
    PATCH: none of them ever sends a GET or a DELETE. *)
Theorem record_service_requests {W} `{!Remote W} (self : HubSpotAgent) :
  (forall payload, emits (from_client (client self) [POST])
                     (create_contact (W := W) self payload))
  /\ (forall payload, emits (from_client (client self) [POST; PATCH])
                        (update_contact (W := W) self payload))
  /\ (forall payload, emits (from_client (client self) [POST; PUT])
                        (create_deal (W := W) self payload))
  /\ (forall payload, emits (from_client (client self) [PATCH])
                        (update_deal (W := W) self payload)).
Proof.
  split; [| split; [| split]].
  - apply emits_create_contact.
  - apply emits_update_contact.
  - apply emits_create_deal.
  - apply emits_update_deal.
Qed.

(** X6. [create_contact] recovers from nothing but a 409: any other
    exception of the create call (an [ApiError] with another status, a
    transport failure that outlived the retries) is raised as it is, in the
    state the create call left, so no lookup is made. *)
Theorem create_contact_propagates_other_errors {W} `{!Remote W}
    (self : HubSpotAgent) (payload : CreateContactInput.t) (s s1 : State W) (e : exn) :
  post (client self) contacts_path (properties_body (create_contact_properties payload)) s
    = (Raised e, s1) ->
  (forall message details, e <> ApiError 409 message details) ->
  create_contact self payload s = (Raised e, s1).
Proof.
  intros Hpost Hnot. unfold create_contact, try_except_then. rewrite Hpost.
  destruct e; try reflexivity.
  destruct (status =? 409)%Z eqn:Hstatus; [| reflexivity].
  apply Z.eqb_eq in Hstatus. subst status. exfalso. eapply Hnot. reflexivity.
Qed.

Lemma create_contact_propagates_other_errors_witness :
  let s := Scripted.start [Examples.server_error; Examples.found Examples.ada] in
  fst (create_contact Examples.agent Examples.new_ada s)
    = Raised (ApiError 500 "HTTP request failed"
                (VDict {[ "status" := VStr "error"; "message" := VStr "internal error" ]}))
  /\ world (snd (create_contact Examples.agent Examples.new_ada s))
     = [Examples.found Examples.ada].
Proof.
  intros s.
  assert (Hpost : post (client Examples.agent) contacts_path
                    (properties_body (create_contact_properties Examples.new_ada)) s
                  = (Raised (ApiError 500 "HTTP request failed"
                               (VDict {[ "status" := VStr "error";
                                         "message" := VStr "internal error" ]})),
                     logged ERROR "HTTP error"
                       (sent (create_request Examples.agent Examples.new_ada)
                          [Examples.found Examples.ada] s)))
    by reflexivity.
  rewrite (create_contact_propagates_other_errors Examples.agent Examples.new_ada s _ _ Hpost).
  - split; reflexivity.
  - intros message details. discriminate.
Defined.

(** X7. When the create call is answered 409 and the lookup itself raises,
    [create_contact] raises the exception of the lookup; the conflict is
    lost and no warning is logged. *)
Theorem create_contact_conflict_lookup_error {W} `{!Remote W}
    (self : HubSpotAgent) (payload : CreateContactInput.t) (s s1 s2 : State W)
    message details (e : exn) :
  post (client self) contacts_path (properties_body (create_contact_properties payload)) s
    = (Raised (ApiError 409 message details), s1) ->
  _get_contact_by_email self (CreateContactInput.email payload) s1 = (Raised e, s2) ->
  create_contact self payload s = (Raised e, s2).
Proof.
  intros Hpost Hget. unfold create_contact, try_except_then, bind.
  rewrite Hpost. cbn [Z.eqb Pos.eqb]. rewrite Hget. reflexivity.
Qed.

Lemma create_contact_conflict_lookup_error_witness :
  let s := Scripted.start [Examples.conflict; Examples.server_error] in
  create_contact Examples.agent Examples.new_ada s
  = (Raised (ApiError 500 "HTTP request failed"
               (VDict {[ "status" := VStr "error"; "message" := VStr "internal error" ]})),
     mkState [] [create_request Examples.agent Examples.new_ada;
                 search_request Examples.agent "ada@example.com"]
       [(ERROR, "HTTP error"); (ERROR, "HTTP error")] []).
Proof.
  intros s.
  assert (Hpost : post (client Examples.agent) contacts_path
                    (properties_body (create_contact_properties Examples.new_ada)) s
                  = (Raised (ApiError 409 "HTTP request failed"
                               (VDict {[ "status" := VStr "error";
                                         "category" := VStr "CONFLICT" ]})),
                     logged ERROR "HTTP error"
                       (sent (create_request Examples.agent Examples.new_ada)
                          [Examples.server_error] s)))
    by reflexivity.
  assert (Hget : _get_contact_by_email Examples.agent
                   (CreateContactInput.email Examples.new_ada)
                   (logged ERROR "HTTP error"
                      (sent (create_request Examples.agent Examples.new_ada)
                         [Examples.server_error] s))
                 = (Raised (ApiError 500 "HTTP request failed"
                              (VDict {[ "status" := VStr "error";
                                        "message" := VStr "internal error" ]})),
                    mkState [] [create_request Examples.agent Examples.new_ada;
                                search_request Examples.agent "ada@example.com"]
                      [(ERROR, "HTTP error"); (ERROR, "HTTP error")] []))
    by reflexivity.
  exact (create_contact_conflict_lookup_error Examples.agent Examples.new_ada s _ _ _ _ _
           Hpost Hget).
Defined.

Lemma set_if_true_same key field (properties : gmap string value) :
  properties !! key = None ->
  set_if_true key field properties !! key = VStr <$> nonempty field.
Proof.
  intros Hnone. unfold set_if_true.
  destruct (nonempty field); [apply lookup_insert_eq | exact Hnone].
Qed.

Lemma create_contact_properties_lookup payload k :
  create_contact_properties payload !! k =
    if decide (k = "email") then Some (VStr (CreateContactInput.email payload))
    else if decide (k = "firstname")
         then VStr <$> nonempty (CreateContactInput.first_name payload)
    else if decide (k = "lastname")
         then VStr <$> nonempty (CreateContactInput.last_name payload)
    else if decide (k = "phone")
         then VStr <$> nonempty (CreateContactInput.phone payload)
    else None.
Proof.
  unfold create_contact_properties.
  destruct (decide (k = "email")) as [-> | Hemail].
  { rewrite !set_if_true_other by discriminate. apply lookup_singleton_eq. }
  destruct (decide (k = "firstname")) as [-> | Hfirst].
  { rewrite !set_if_true_other by discriminate.
    apply set_if_true_same. apply lookup_singleton_ne. discriminate. }
  destruct (decide (k = "lastname")) as [-> | Hlast].
  { rewrite set_if_true_other by discriminate. apply set_if_true_same.
    rewrite set_if_true_other by discriminate. apply lookup_singleton_ne. discriminate. }
  destruct (decide (k = "phone")) as [-> | Hphone].
  { apply set_if_true_same.
    rewrite !set_if_true_other by discriminate. apply lookup_singleton_ne. discriminate. }
  rewrite !set_if_true_other by congruence. apply lookup_singleton_ne. congruence.
Qed.

Lemma create_deal_properties_lookup payload k :
  create_deal_properties payload !! k =
    if decide (k = "dealname") then Some (VStr (deal_name payload))
    else if decide (k = "amount") then VFloat <$> CreateDealInput.amount payload
    else if decide (k = "dealstage")
         then VStr <$> nonempty (CreateDealInput.stage payload)
    else if decide (k = "pipeline")
         then VStr <$> nonempty (CreateDealInput.pipeline payload)
    else None.
Proof.
  unfold create_deal_properties.
  destruct (decide (k = "dealname")) as [-> | Hname].
  { rewrite !set_if_true_other by discriminate.
    rewrite set_if_not_None_other by discriminate. apply lookup_singleton_eq. }
  destruct (decide (k = "amount")) as [-> | Hamount].
  { rewrite !set_if_true_other by discriminate.
    apply set_if_not_None_same. apply lookup_singleton_ne. discriminate. }
  destruct (decide (k = "dealstage")) as [-> | Hstage].
  { rewrite set_if_true_other by discriminate. apply set_if_true_same.
    rewrite set_if_not_None_other by discriminate. apply lookup_singleton_ne. discriminate. }
  destruct (decide (k = "pipeline")) as [-> | Hpipeline].
  { apply set_if_true_same. rewrite set_if_true_other by discriminate.
    rewrite set_if_not_None_other by discriminate. apply lookup_singleton_ne. discriminate. }
  rewrite !set_if_true_other by congruence.
  rewrite set_if_not_None_other by congruence. apply lookup_singleton_ne. congruence.
Qed.

Section Create_requests.
Context {W : Type} `{!Remote W}.
Implicit Types (s : State W) (self : HubSpotAgent).

(** Coroutines that send nothing. *)
Lemma emits_nothing {A} (m : M W A) s :
  emits (fun _ => False) m -> wire (snd (m s)) = wire s.
Proof.
  intros Hm. destruct (Hm s) as (new & Hw & Hnew).
  destruct new as [| r new]; [rewrite Hw; apply app_nil_r |].
  inversion Hnew; contradiction.
Qed.

(** [create_contact] sends the creation, one to three times, and then at
    most the lookup that follows a conflict. *)
Lemma create_contact_wire self payload s :
  exists k j, (1 <= k <= 3)%nat /\ (j <= 3)%nat
    /\ wire (snd (create_contact self payload s))
       = wire s ++ replicate k (create_request self payload)
           ++ replicate j (search_request self (CreateContactInput.email payload)).
Proof.
  unfold create_contact, try_except_then, post.
  destruct (request_wire (client self) POST contacts_path None None
              (properties_body (create_contact_properties payload)) s) as (k & Hk & Hw & _).
  fold (create_request self payload) in Hw.
  assert (Hnone : forall s1 (m : M W value),
             wire s1 = wire s ++ replicate k (create_request self payload) ->
             emits (fun _ => False) m ->
             exists k j, (1 <= k <= 3)%nat /\ (j <= 3)%nat
               /\ wire (snd (m s1))
                  = wire s ++ replicate k (create_request self payload)
                      ++ replicate j (search_request self (CreateContactInput.email payload))).
  { intros s1 m Hs1 Hm. exists k, 0%nat. split; [exact Hk |]. split; [lia |].
    rewrite (emits_nothing m s1 Hm), Hs1. cbn [replicate]. rewrite app_nil_r. reflexivity. }
  destruct (request _ _ _ _ _ _ s) as [[res | err] s1]; cbn [snd] in Hw.
  { apply (Hnone s1 _ Hw). apply emits_bind; [emits_leaf | intros _]. emits_leaf. }
  destruct err; try (apply (Hnone s1 _ Hw); emits_leaf).
  destruct (status =? 409)%Z; [| apply (Hnone s1 _ Hw); emits_leaf].
  unfold bind at 1.
  destruct (get_contact_wire self (CreateContactInput.email payload) s1)
    as (j & Hj & Hw2 & _).
  destruct (_get_contact_by_email self (CreateContactInput.email payload) s1)
    as [[existing | e] s2]; cbn [snd] in Hw2.
  - exists k, j. split; [exact Hk |]. split; [lia |].
    rewrite emits_nothing.
    + rewrite Hw2, Hw, <- app_assoc. reflexivity.
    + apply emits_if.
      * apply emits_bind; [emits_leaf | intros contact_id].
        apply emits_bind; [emits_leaf | intros _].
        apply emits_bind; [emits_leaf | intros props]. emits_leaf.
      * apply emits_bind; [emits_leaf | intros _]. emits_leaf.
  - exists k, j. split; [exact Hk |]. split; [lia |]. cbn [snd].
    rewrite Hw2, Hw, <- app_assoc. reflexivity.
Qed.

(** [create_deal] sends the creation, one to three times, and then only
    lookups and the association, which carry no properties. *)
Lemma create_deal_wire self payload s :
  exists k rest, (1 <= k <= 3)%nat
    /\ wire (snd (create_deal self payload s))
       = wire s ++ replicate k (create_deal_request self payload) ++ rest
    /\ Forall (fun r => Request.json r = None
                        \/ exists email, Request.json r = Some (search_query email)) rest.
Proof.
  unfold create_deal, bind, post.
  destruct (request_wire (client self) POST deals_path None None
              (properties_body (create_deal_properties payload)) s) as (k & Hk & Hw & _).
  fold (create_deal_request self payload) in Hw.
  assert (Hdone : forall s1, wire s1 = wire s ++ replicate k (create_deal_request self payload) ->
            exists k rest, (1 <= k <= 3)%nat
              /\ wire s1 = wire s ++ replicate k (create_deal_request self payload) ++ rest
              /\ Forall (fun r => Request.json r = None
                          \/ exists email, Request.json r = Some (search_query email)) rest).
  { intros s1 Hs1. exists k, []. rewrite app_nil_r. auto. }
  destruct (request _ _ _ _ _ _ s) as [[created | e] s1]; cbn [snd] in Hw |- *;
    [| apply Hdone; exact Hw].
  destruct created; cbn [lift py_get snd]; try (apply Hdone; exact Hw).
  destruct (nonempty _) as [email |]; [| unfold ret; cbn [snd]; apply Hdone; exact Hw].
  destruct (find_contact_wire self email s1) as (k2 & _ & Hw2 & _).
  assert (Hsearch : Forall (fun r => Request.json r = None
                      \/ exists email, Request.json r = Some (search_query email))
                      (replicate k2 (search_request self email))).
  { apply Forall_replicate. right. exists email. reflexivity. }
  destruct (_find_contact_id_by_email self email s1) as [[contact_id | e] s2];
    cbn [snd] in Hw2 |- *.
  2:{ exists k, (replicate k2 (search_request self email)).
      rewrite Hw2, Hw, <- app_assoc. auto. }
  unfold require.
  destruct (is_not_None contact_id); unfold ret, raise; cbn [snd].
  2:{ exists k, (replicate k2 (search_request self email)).
      rewrite Hw2, Hw, <- app_assoc. auto. }
  unfold put.
  destruct (request_wire (client self) PUT
              (association_path (dict_get m "id" VNone) contact_id) None None None s2)
    as (k3 & _ & Hw3 & _).
  exists k, (replicate k2 (search_request self email)
             ++ replicate k3 (outgoing (client self) PUT
                                (association_path (dict_get m "id" VNone) contact_id)
                                None None None)).
  split; [exact Hk |]. split.
  - destruct (request _ _ _ _ _ _ s2) as [[res | e] s3]; cbn [snd] in Hw3 |- *;
      rewrite Hw3, Hw2, Hw, <- !app_assoc; reflexivity.
  - apply Forall_app. split; [exact Hsearch |].
    apply Forall_replicate. left. reflexivity.
Qed.

End Create_requests.

(** X8. What the two create calls send.  The creation request of
    [create_contact] is a POST to [/crm/v3/objects/contacts] whose JSON body
    is [{"properties": p}], where [p] always holds [email] and holds
    [firstname], [lastname], [phone] exactly for the fields that are
    non-empty strings; that of [create_deal] is a POST to
    [/crm/v3/objects/deals] with such a body, where [p] always holds
    [dealname], holds [amount] whenever one is given (zero included) and
    [dealstage], [pipeline] exactly for non-empty strings.  [p] holds no
    other key: unlike the updates, the creates drop a field given as the
    empty string.  The creation is sent one to three times and is the only
    request that carries properties: what may follow are the lookups of
    [create_contact] after a conflict, and the lookups and the association
    (a PUT without body) of [create_deal]. *)
Theorem create_payloads_keys :
  (forall payload k,
      create_contact_properties payload !! k =
        if decide (k = "email") then Some (VStr (CreateContactInput.email payload))
        else if decide (k = "firstname")
             then VStr <$> nonempty (CreateContactInput.first_name payload)
        else if decide (k = "lastname")
             then VStr <$> nonempty (CreateContactInput.last_name payload)
        else if decide (k = "phone")
             then VStr <$> nonempty (CreateContactInput.phone payload)
        else None)
  /\ (forall payload k,
        create_deal_properties payload !! k =
          if decide (k = "dealname") then Some (VStr (deal_name payload))
          else if decide (k = "amount") then VFloat <$> CreateDealInput.amount payload
          else if decide (k = "dealstage")
               then VStr <$> nonempty (CreateDealInput.stage payload)
          else if decide (k = "pipeline")
               then VStr <$> nonempty (CreateDealInput.pipeline payload)
          else None)
  /\ (forall W (R : Remote W) (self : HubSpotAgent) payload (s : State W),
        exists k j creation lookup, (1 <= k <= 3)%nat /\ (j <= 3)%nat
          /\ wire (snd (create_contact self payload s))
             = wire s ++ replicate k creation ++ replicate j lookup
          /\ Request.method creation = POST
          /\ Request.url creation = [Lit "/crm/v3/objects/contacts"]
          /\ Request.json creation
             = Some (VDict {[ "properties" := VDict (create_contact_properties payload) ]})
          /\ Request.url lookup = [Lit "/crm/v3/objects/contacts/search"]
          /\ Request.json lookup = Some (search_query (CreateContactInput.email payload)))
  /\ (forall W (R : Remote W) (self : HubSpotAgent) payload (s : State W),
        exists k creation rest, (1 <= k <= 3)%nat
          /\ wire (snd (create_deal self payload s)) = wire s ++ replicate k creation ++ rest
          /\ Request.method creation = POST
          /\ Request.url creation = [Lit "/crm/v3/objects/deals"]
          /\ Request.json creation
             = Some (VDict {[ "properties" := VDict (create_deal_properties payload) ]})
          /\ Forall (fun r => Request.json r = None
                              \/ exists email, Request.json r = Some (search_query email))
               rest).
Proof.
  split; [| split; [| split]].
  - apply create_contact_properties_lookup.
  - apply create_deal_properties_lookup.
  - intros W R self payload s.
    destruct (create_contact_wire self payload s) as (k & j & Hk & Hj & Hw).
    exists k, j, (create_request self payload),
      (search_request self (CreateContactInput.email payload)).
    repeat split; try assumption; try lia.
  - intros W R self payload s.
    destruct (create_deal_wire self payload s) as (k & rest & Hk & Hw & Hrest).
    exists k, (create_deal_request self payload), rest.
    repeat split; try assumption; try lia.
Qed.

(** X9. [create_deal] returns only when every step went through: what it
    returns is the JSON object that answered the creation request, and when
    an associated email was supplied the lookup gave an id and the
    association request, made for the id of that object and the id found,
    was answered too. *)
Theorem create_deal_returns_after_all_steps {W} `{!Remote W}
    (self : HubSpotAgent) (payload : CreateDealInput.t) (s s' : State W) (r : value) :
  create_deal self payload s = (Returned r, s') ->
  exists created s1,
    r = VDict created
    /\ post (client self) deals_path (properties_body (create_deal_properties payload)) s
       = (Returned (VDict created), s1)
    /\ match nonempty (CreateDealInput.associated_contact_email payload) with
       | None => s' = s1
       | Some email =>
           exists contact_id s2 answer,
             _find_contact_id_by_email self email s1 = (Returned contact_id, s2)
             /\ is_not_None contact_id = true
             /\ put (client self)
                  (association_path (dict_get created "id" VNone) contact_id) None s2
                = (Returned answer, s')
       end.
Proof.
  unfold create_deal, bind.
  destruct (post _ _ _ s) as [[create_resp | e] s1]; [| discriminate].
  destruct create_resp; cbn [lift py_get]; try discriminate.
  intros Hrun. exists m, s1. split; [| split; [reflexivity |]].
  - destruct (nonempty _); [| injection Hrun as <- _; reflexivity].
    destruct (_find_contact_id_by_email _ _ s1) as [[cid | e] s2]; [| discriminate].
    unfold require in Hrun. destruct (is_not_None cid); [| discriminate].
    cbn [ret] in Hrun. destruct (put _ _ _ s2) as [[ans | e] s3]; [| discriminate].
    injection Hrun as <- _. reflexivity.
  - destruct (nonempty _) as [email |]; [| injection Hrun as _ <-; reflexivity].
    destruct (_find_contact_id_by_email _ _ s1) as [[cid | e] s2]; [| discriminate].
    unfold require in Hrun. destruct (is_not_None cid) eqn:Hcid; [| discriminate].
    cbn [ret] in Hrun. destruct (put _ _ _ s2) as [[ans | e] s3] eqn:Hput; [| discriminate].
    injection Hrun as _ <-. exists cid, s2, ans. auto.
Qed.

Lemma create_deal_returns_after_all_steps_witness :
  let bob := {[ "id" := VStr "77" ]} in
  let s := Scripted.start
             [Scripted.json_response 201 (VDict Examples.created_deal);
              Examples.found bob;
              Scripted.json_response 200 (VDict ∅)] in
  exists (s2 s3 : State (list exchange)) answer,
    fst (create_deal Examples.agent Examples.deal_for_bob s) = Returned (VDict Examples.created_deal)
    /\ put (client Examples.agent) (association_path (VStr "9001") (VStr "77")) None s2
       = (Returned answer, s3).
Proof.
  intros bob s.
  destruct (create_deal Examples.agent Examples.deal_for_bob s) as [r s'] eqn:Hrun.
  assert (Hr : r = Returned (VDict Examples.created_deal))
    by (injection Hrun as <- _; reflexivity).
  subst r.
  destruct (create_deal_returns_after_all_steps Examples.agent Examples.deal_for_bob s s' _ Hrun)
    as (created & s1 & Hcreated & Hpost & contact_id & s2 & answer & Hfind & _ & Hput).
  injection Hcreated as <-.
  assert (Hs1 : s1 = sent (create_deal_request Examples.agent Examples.deal_for_bob)
                       [Examples.found bob; Scripted.json_response 200 (VDict ∅)] s)
    by (injection Hpost as <-; reflexivity).
  subst s1.
  assert (Hid : contact_id = VStr "77") by (injection Hfind as <- _; reflexivity).
  subst contact_id.
  exists s2, s', answer. split; [reflexivity | exact Hput].
Defined.

(** X10. With no associated email (none given, or the empty string),
    [create_deal] sends the creation request, one to three times, and
    nothing else: no lookup and no association. *)
Theorem create_deal_without_email_only_creates {W} `{!Remote W}
    (self : HubSpotAgent) (payload : CreateDealInput.t) (s : State W) :
  nonempty (CreateDealInput.associated_contact_email payload) = None ->
  exists k, (1 <= k <= 3)%nat
    /\ wire (snd (create_deal self payload s))
       = wire s ++ replicate k (create_deal_request self payload).
Proof.
  intros Hnone. unfold create_deal, bind, post. rewrite Hnone.
  destruct (request_wire (client self) POST deals_path None None
              (properties_body (create_deal_properties payload)) s) as (k & Hk & Hw & _).
  exists k. split; [exact Hk |].
  destruct (request _ _ _ _ _ _ s) as [[create_resp | e] s1]; cbn [snd] in *; [| exact Hw].
  destruct create_resp; exact Hw.
Qed.

Lemma create_deal_without_email_only_creates_witness :
  exists k,
    wire (snd (create_deal Examples.agent Examples.deal_42_5
                 (Scripted.start [Scripted.json_response 201 (VDict Examples.created_deal)])))
    = replicate k (create_deal_request Examples.agent Examples.deal_42_5).
Proof.
  destruct (create_deal_without_email_only_creates Examples.agent Examples.deal_42_5
              (Scripted.start [Scripted.json_response 201 (VDict Examples.created_deal)])
              eq_refl) as (k & _ & Hw).
  exists k. exact Hw.
Defined.

(** X11. When the deal is created and the contact found but the association
    request fails, [create_deal] raises the exception of that request: the
    deal stays created and unassociated, and the created record is not
    returned. *)
Theorem create_deal_association_failure {W} `{!Remote W}
    (self : HubSpotAgent) (payload : CreateDealInput.t) (email : string)
    (s s1 s2 s3 : State W) (created : gmap string value) (contact_id : value) (e : exn) :
  nonempty (CreateDealInput.associated_contact_email payload) = Some email ->
  post (client self) deals_path (properties_body (create_deal_properties payload)) s
    = (Returned (VDict created), s1) ->
  _find_contact_id_by_email self email s1 = (Returned contact_id, s2) ->
  is_not_None contact_id = true ->
  put (client self) (association_path (dict_get created "id" VNone) contact_id) None s2
    = (Raised e, s3) ->
  create_deal self payload s = (Raised e, s3).
Proof.
  intros Hemail Hpost Hfind Hid Hput. unfold create_deal, bind.
  rewrite Hpost. cbn [lift py_get]. rewrite Hemail, Hfind. unfold require. rewrite Hid.
  cbn [ret]. rewrite Hput. reflexivity.
Qed.

Lemma create_deal_association_failure_witness :
  let bob := {[ "id" := VStr "77" ]} in
  let s := Scripted.start
             [Scripted.json_response 201 (VDict Examples.created_deal);
              Examples.found bob;
              Examples.server_error] in
  fst (create_deal Examples.agent Examples.deal_for_bob s)
  = Raised (ApiError 500 "HTTP request failed"
              (VDict {[ "status" := VStr "error"; "message" := VStr "internal error" ]})).
Proof.
  intros bob s.
  assert (Hpost : post (client Examples.agent) deals_path
                    (properties_body (create_deal_properties Examples.deal_for_bob)) s
                  = (Returned (VDict Examples.created_deal),
                     sent (create_deal_request Examples.agent Examples.deal_for_bob)
                       [Examples.found bob; Examples.server_error] s))
    by reflexivity.
  assert (Hfind : _find_contact_id_by_email Examples.agent "bob@example.com"
                    (sent (create_deal_request Examples.agent Examples.deal_for_bob)
                       [Examples.found bob; Examples.server_error] s)
                  = (Returned (VStr "77"),
                     sent (search_request Examples.agent "bob@example.com")
                       [Examples.server_error]
                       (sent (create_deal_request Examples.agent Examples.deal_for_bob)
                          [Examples.found bob; Examples.server_error] s)))
    by reflexivity.
  assert (Hput : put (client Examples.agent)
                   (association_path (dict_get Examples.created_deal "id" VNone) (VStr "77"))
                   None
                   (sent (search_request Examples.agent "bob@example.com")
                      [Examples.server_error]
                      (sent (create_deal_request Examples.agent Examples.deal_for_bob)
                         [Examples.found bob; Examples.server_error] s))
                 = (Raised (ApiError 500 "HTTP request failed"
                              (VDict {[ "status" := VStr "error";
                                        "message" := VStr "internal error" ]})),
                    logged ERROR "HTTP error"
                      (sent (outgoing (client Examples.agent) PUT
                               (association_path (VStr "9001") (VStr "77")) None None None) []
                         (sent (search_request Examples.agent "bob@example.com")
                            [Examples.server_error]
                            (sent (create_deal_request Examples.agent Examples.deal_for_bob)
                               [Examples.found bob; Examples.server_error] s)))))
    by reflexivity.
  rewrite (create_deal_association_failure Examples.agent Examples.deal_for_bob
             "bob@example.com" s _ _ _ Examples.created_deal (VStr "77") _
             eq_refl Hpost Hfind eq_refl Hput).
  reflexivity.
Defined.

(** X12. The lookup on a well-formed answer.  When the search is answered
    with a JSON object whose [results] (a missing key counts as the empty
    list) is a list of objects, [_find_contact_id_by_email] raises nothing
    and returns the id of the first object only: [None] when the list is
    empty, when the first object is empty, or when it has no [id]. *)
Theorem lookup_reads_first_result {W} `{!Remote W}
    (self : HubSpotAgent) (email : string) (s s1 : State W)
    (answer : gmap string value) (contacts : list (gmap string value)) :
  post (client self) contacts_search_path (Some (search_query email)) s
    = (Returned (VDict answer), s1) ->
  dict_get answer "results" (VList []) = VList (VDict <$> contacts) ->
  _find_contact_id_by_email self email s
  = (Returned match contacts with
              | [] => VNone
              | first :: _ => if bool_decide (size first = 0) then VNone
                              else dict_get first "id" VNone
              end, s1).
Proof.
  intros Hpost Hresults. unfold _find_contact_id_by_email, _get_contact_by_email, bind.
  rewrite Hpost, Hresults.
  destruct contacts as [| first rest]; [reflexivity |].
  cbn [fmap list_fmap truthy negb lift py_item0].
  destruct (bool_decide (size first = 0)); reflexivity.
Qed.

Lemma lookup_reads_first_result_witness :
  let eve := {[ "id" := VStr "52" ]} in
  let s := Scripted.start
             [Scripted.json_response 200
                (VDict {[ "results" := VList [VDict Examples.ada; VDict eve] ]})] in
  fst (_find_contact_id_by_email Examples.agent "ada@example.com" s) = Returned (VStr "51").
Proof.
  intros eve s.
  assert (Hpost : post (client Examples.agent) contacts_search_path
                    (Some (search_query "ada@example.com")) s
                  = (Returned (VDict {[ "results" := VList [VDict Examples.ada; VDict eve] ]}),
                     sent (search_request Examples.agent "ada@example.com") [] s))
    by reflexivity.
  rewrite (lookup_reads_first_result Examples.agent "ada@example.com" s _ _
             [Examples.ada; eve] Hpost eq_refl).
  reflexivity.
Defined.

(** The name of the header is found whatever its letter case. *)
Example decode_body_header_case (body : value) :
  decode_body (Response.make 200 [("content-type", "application/json; charset=utf-8")]
                 "" (Some body)) = body
  /\ decode_body (Response.make 200 [("CONTENT-TYPE", "application/json")] "" (Some body))
     = body.
Proof. split; reflexivity. Qed.

(** X13. A search answered 2xx without a JSON content type (the header
    [Content-Type], found whatever the letter case of its name, does not
    hold [application/json], or is missing) is a miss: the body is kept as
    text, whatever it holds, so the lookup finds nobody and [update_contact]
    raises "Contact not found" after that one request. *)
Theorem lookup_needs_json_content_type {W} `{!Remote W}
    (self : HubSpotAgent) (payload : UpdateContactInput.t) (s : State W) w response :
  http (world s) (search_request self (UpdateContactInput.email payload))
    = (w, Responds response) ->
  (200 <= Response.status_code response < 300)%Z ->
  contains "application/json" (Headers_get (Response.headers response) "Content-Type" "")
    = false ->
  update_contact self payload s
  = (Raised (ValidationError
               ("Contact not found for email " +:+ UpdateContactInput.email payload)),
     sent (search_request self (UpdateContactInput.email payload)) w s).
Proof.
  intros Hx Hok Htype.
  unfold update_contact, _find_contact_id_by_email, _get_contact_by_email, bind, post.
  rewrite (request_answered_ok (client self) POST contacts_search_path None None
             (Some (search_query (UpdateContactInput.email payload))) s w response Hx Hok).
  unfold decode_body. rewrite Htype. reflexivity.
Qed.

Lemma lookup_needs_json_content_type_witness :
  let plain := Response.make 200 [("content-type", "text/plain; charset=utf-8")]
                 "{'results': [{'id': '77'}]}"
                 (Some (VDict {[ "results" := VList [VDict {[ "id" := VStr "77" ]}] ]})) in
  fst (update_contact Examples.agent Examples.rename_bob (Scripted.start [Responds plain]))
  = Raised (ValidationError "Contact not found for email bob@example.com").
Proof.
  intros plain.
  assert (Hx : http (world (Scripted.start [Responds plain]))
                 (search_request Examples.agent (UpdateContactInput.email Examples.rename_bob))
               = ([], Responds plain)) by reflexivity.
  rewrite (lookup_needs_json_content_type Examples.agent Examples.rename_bob
             (Scripted.start [Responds plain]) [] plain Hx).
  - reflexivity.
  - cbn. lia.
  - reflexivity.
Defined.

(** X14. An exception of the search request passes through the lookup and
    through [update_contact] as it is (a 401 stays an [ApiError], it does
    not become "Contact not found"), and no PATCH is sent. *)
Theorem update_contact_propagates_lookup_error {W} `{!Remote W}
    (self : HubSpotAgent) (payload : UpdateContactInput.t) (s s1 : State W) (e : exn) :
  post (client self) contacts_search_path
    (Some (search_query (UpdateContactInput.email payload))) s = (Raised e, s1) ->
  _find_contact_id_by_email self (UpdateContactInput.email payload) s = (Raised e, s1)
  /\ update_contact self payload s = (Raised e, s1)
  /\ exists k, (1 <= k <= 3)%nat
       /\ wire s1 = wire s ++ replicate k (search_request self (UpdateContactInput.email payload)).
Proof.
  intros Hpost.
  assert (Hfind : _find_contact_id_by_email self (UpdateContactInput.email payload) s
                  = (Raised e, s1)).
  { unfold _find_contact_id_by_email, _get_contact_by_email, bind. rewrite Hpost. reflexivity. }
  split; [exact Hfind | split].
  - unfold update_contact, bind. rewrite Hfind. reflexivity.
  - destruct (find_contact_wire self (UpdateContactInput.email payload) s) as (k & Hk & Hw & _).
    rewrite Hfind in Hw. exists k. auto.
Qed.

Lemma update_contact_propagates_lookup_error_witness :
  let unauthorized := Scripted.json_response 401 (VDict {[ "message" := VStr "expired" ]}) in
  fst (update_contact Examples.agent Examples.rename_bob (Scripted.start [unauthorized]))
  = Raised (ApiError 401 "HTTP request failed" (VDict {[ "message" := VStr "expired" ]})).
Proof.
  intros unauthorized.
  assert (Hpost : post (client Examples.agent) contacts_search_path
                    (Some (search_query (UpdateContactInput.email Examples.rename_bob)))
                    (Scripted.start [unauthorized])
                  = (Raised (ApiError 401 "HTTP request failed"
                               (VDict {[ "message" := VStr "expired" ]})),
                     logged ERROR "HTTP error"
                       (sent (search_request Examples.agent "bob@example.com") []
                          (Scripted.start [unauthorized]))))
    by reflexivity.
  destruct (update_contact_propagates_lookup_error Examples.agent Examples.rename_bob
              _ _ _ Hpost) as (_ & Hrun & _).
  rewrite Hrun. reflexivity.
Defined.

(** X15. [HubSpotAgent.__init__] takes the token from [api_key] when that is
    a non-empty string and from the environment otherwise; it raises
    [ValidationError] exactly when neither is a non-empty string.  The
    client it builds sends [Authorization: Bearer <token>] as its only
    default header, to the base URL without its trailing slashes. *)
Theorem HubSpotAgent_init_token (api_key env_token : option string) (base : string) :
  match HubSpotAgent_init api_key env_token base with
  | Returned agent =>
      exists token,
        token <> ""
        /\ (if truthy_str api_key then api_key = Some token else env_token = Some token)
        /\ default_headers (client agent) = {[ "Authorization" := "Bearer " +:+ token ]}
        /\ base_url (client agent) = rstrip_slash base
  | Raised e =>
      e = ValidationError
            "HubSpot access token is required. Set HUBSPOT_ACCESS_TOKEN or provide api_key."
      /\ truthy_str api_key = false /\ truthy_str env_token = false
  end.
Proof.
  unfold HubSpotAgent_init.
  destruct (nonempty (or_else api_key env_token)) as [token |] eqn:Htoken.
  - apply nonempty_Some in Htoken. destruct Htoken as [Hsource Hne].
    exists token. split; [exact Hne |]. unfold or_else in Hsource.
    destruct (truthy_str api_key); auto.
  - split; [reflexivity |]. unfold nonempty, or_else in Htoken.
    destruct (truthy_str api_key) eqn:Hkey.
    + rewrite Hkey in Htoken. subst api_key. discriminate Hkey.
    + destruct (truthy_str env_token) eqn:Henv; [| auto].
      subst env_token. discriminate Henv.
Qed.

(** ** More on the record service against the in-memory CRM *)

Module MemCrmMore.
Import MemCrm MemCrmFacts.

Lemma find_contact_found self e (s : State store) c :
  contacts (world s) !! e = Some c ->
  _find_contact_id_by_email self e s
  = (Returned (VStr (fst c)), sent (search_request self e) (world s) s).
Proof.
  intros Hfound. unfold _find_contact_id_by_email, bind.
  rewrite (get_contact_found self e s c Hfound). reflexivity.
Qed.

(** What [create_contact] leaves in the store. *)
Lemma create_contact_store self payload (s : State store) :
  exists r s1 c,
    create_contact self payload s = (Returned r, s1)
    /\ py_get r "id" VNone = Returned (VStr (fst c))
    /\ contacts (world s1) !! CreateContactInput.email payload = Some c
    /\ match contacts (world s) !! CreateContactInput.email payload with
       | Some c0 => c = c0 /\ world s1 = world s
       | None =>
           snd c = create_contact_properties payload
           /\ contacts (world s1)
              = <[ CreateContactInput.email payload := c ]> (contacts (world s))
       end.
Proof.
  destruct (contacts (world s) !! CreateContactInput.email payload) as [c0 |] eqn:Hstore.
  - destruct (create_contact_taken self payload s c0 Hstore) as (r & s1 & Hrun & Hworld & Hid & _).
    exists r, s1, c0. rewrite Hworld. auto.
  - pose (c := (decimal_of_Z (next_id (world s)), create_contact_properties payload)).
    exists (record c),
      (logged INFO "New contact created"
         (sent (create_request self payload)
            (mkStore (<[ CreateContactInput.email payload := c ]> (contacts (world s)))
               (next_id (world s) + 1)) s)), c.
    split; [| split; [reflexivity | split; [apply lookup_insert_eq | split; reflexivity]]].
    unfold create_contact, try_except_then, bind.
    rewrite (post_create_fresh self payload s Hstore). reflexivity.
Qed.

End MemCrmMore.

(** X16. Against the in-memory CRM, the id [create_contact] returns is the
    id a following lookup by the same email finds, so an [update_contact]
    that follows passes its guard and addresses its PATCH to that id. *)
Theorem created_contact_is_found (self : HubSpotAgent)
    (payload : CreateContactInput.t) (fields : UpdateContactInput.t)
    (s : State MemCrm.store) :
  UpdateContactInput.email fields = CreateContactInput.email payload ->
  exists r s1 id,
    create_contact self payload s = (Returned r, s1)
    /\ py_get r "id" VNone = Returned (VStr id)
    /\ fst (_find_contact_id_by_email self (CreateContactInput.email payload) s1)
       = Returned (VStr id)
    /\ exists k, (1 <= k <= 3)%nat
         /\ wire (snd (update_contact self fields s1))
            = wire s1 ++ search_request self (CreateContactInput.email payload)
                :: replicate k
                     (outgoing (client self) PATCH (contact_path (VStr id)) None None
                        (properties_body (update_contact_properties fields))).
Proof.
  intros Hemail.
  destruct (MemCrmMore.create_contact_store self payload s)
    as (r & s1 & c & Hrun & Hid & Hstored & _).
  exists r, s1, (fst c). split; [exact Hrun | split; [exact Hid |]].
  pose proof (MemCrmMore.find_contact_found self _ s1 c Hstored) as Hfind.
  rewrite Hfind. split; [reflexivity |].
  unfold update_contact, bind, require, patch. rewrite Hemail, Hfind. cbn [is_not_None ret].
  destruct (request_wire (client self) PATCH (contact_path (VStr (fst c))) None None
              (properties_body (update_contact_properties fields))
              (sent (search_request self (CreateContactInput.email payload)) (world s1) s1))
    as (k & Hk & Hw & _).
  exists k. split; [exact Hk |]. rewrite Hw. cbn [sent wire].
  rewrite <- app_assoc. reflexivity.
Qed.

Lemma created_contact_is_found_witness :
  exists r s1,
    create_contact Examples.agent Examples.new_ada
      (mkState (MemCrm.mkStore ∅ 1) [] [] []) = (Returned r, s1)
    /\ py_get r "id" VNone = Returned (VStr "1")
    /\ fst (_find_contact_id_by_email Examples.agent "ada@example.com" s1)
       = Returned (VStr "1").
Proof.
  destruct (created_contact_is_found Examples.agent Examples.new_ada
              (UpdateContactInput.make "ada@example.com" None (Some "Lovelace") None)
              (mkState (MemCrm.mkStore ∅ 1) [] [] []) eq_refl)
    as (r & s1 & id & Hrun & Hid & Hfind & _).
  exists r, s1.
  assert (Hr : r = MemCrm.record ("1", create_contact_properties Examples.new_ada))
    by (injection Hrun as <- _; reflexivity).
  subst r. injection Hid as <-. auto.
Defined.

(** X17. Against the in-memory CRM, [create_contact] never changes a contact
    that exists and never touches the contact of another email: when the
    email is taken the store is left as it was, and when it is free the
    store gains that one contact, holding exactly the properties built from
    the payload. *)
Theorem create_contact_store_effect (self : HubSpotAgent)
    (payload : CreateContactInput.t) (s : State MemCrm.store) :
  let before := MemCrm.contacts (world s) in
  let after := MemCrm.contacts (world (snd (create_contact self payload s))) in
  (forall other, other <> CreateContactInput.email payload -> after !! other = before !! other)
  /\ match before !! CreateContactInput.email payload with
     | Some c => after = before
     | None => exists id,
         after = <[ CreateContactInput.email payload
                    := (id, create_contact_properties payload) ]> before
     end.
Proof.
  intros before after. subst before after.
  destruct (MemCrmMore.create_contact_store self payload s)
    as (r & s1 & c & Hrun & _ & _ & Hcase).
  rewrite Hrun. cbn [snd].
  destruct (MemCrm.contacts (world s) !! CreateContactInput.email payload) as [c0 |].
  - destruct Hcase as [_ Hworld]. rewrite Hworld. auto.
  - destruct Hcase as [Hprops Hstore]. rewrite Hstore. split.
    + intros other Hother. apply lookup_insert_ne. congruence.
    + exists (fst c). rewrite <- Hprops. destruct c; reflexivity.
Qed.

(** ** More on the mail agent *)

(** X18. With no recipient given (none, or the empty string) and none
    configured, [send_confirmation] raises [ValidationError] and nothing is
    sent: the state is untouched. *)
Theorem send_confirmation_needs_recipient {W} `{!Remote W} `{!Pydantic}
    (self : EmailAgent) (to_email : option string) (summary_html : string)
    (subject : option string) (s : State W) :
  truthy_str to_email = false ->
  default_confirmation_recipient self = None ->
  send_confirmation self to_email summary_html subject s
  = (Raised (ValidationError "No recipient email provided or configured for confirmation"), s).
Proof.
  intros Hto Hdefault. unfold send_confirmation, or_else. rewrite Hto, Hdefault. reflexivity.
Qed.

Section Mail_examples.
#[local] Existing Instance Plain.pydantic.

Lemma send_confirmation_needs_recipient_witness :
  let nobody := mkEmail "smtp" "crm@example.com" None None
                  (mkSmtp (Some "smtp.example.com") 587 None None true) in
  send_confirmation nobody (Some "") "<p>done</p>" None (Scripted.start [])
  = (Raised (ValidationError "No recipient email provided or configured for confirmation"),
     Scripted.start []).
Proof.
  intros nobody.
  exact (send_confirmation_needs_recipient nobody (Some "") "<p>done</p>" None
           (Scripted.start []) eq_refl eq_refl).
Defined.

End Mail_examples.

(** X19. The channels of [send] do not mix.  With the provider [sendgrid]
    or [resend], the only requests are POSTs of the provider's body to
    [/mail/send] or [/emails] on the mail client, one to three of them, and
    a result is tagged [queued]; with any other provider no HTTP request is
    made at all and a result is tagged [sent] by [smtp]. *)
Theorem send_channels {W} `{!Remote W}
    (self : EmailAgent) (payload : EmailPayload.t) (s : State W) :
  (forall c, provider self = "sendgrid" -> _http_client self = Some c ->
     (exists k, (1 <= k <= 3)%nat
        /\ wire (snd (send self payload s))
           = wire s ++ replicate k
               (outgoing c POST [Lit "/mail/send"] None None (Some (sendgrid_body self payload))))
     /\ forall r, fst (send self payload s) = Returned r ->
          py_get r "status" VNone = Returned (VStr "queued"))
  /\ (forall c, provider self = "resend" -> _http_client self = Some c ->
        (exists k, (1 <= k <= 3)%nat
           /\ wire (snd (send self payload s))
              = wire s ++ replicate k
                  (outgoing c POST [Lit "/emails"] None None (Some (resend_body self payload))))
        /\ forall r, fst (send self payload s) = Returned r ->
             py_get r "status" VNone = Returned (VStr "queued"))
  /\ (provider self <> "sendgrid" -> provider self <> "resend" ->
        wire (snd (send self payload s)) = wire s
        /\ forall r, fst (send self payload s) = Returned r ->
             r = VDict {[ "status" := VStr "sent"; "provider" := VStr "smtp" ]}).
Proof.
  split; [| split].
  - intros c Hprovider Hclient. unfold send, with_http_client, bind, post.
    rewrite Hprovider, Hclient. cbn [String.eqb Ascii.eqb Bool.eqb].
    destruct (request_wire c POST [Lit "/mail/send"] None None
                (Some (sendgrid_body self payload)) s) as (k & Hk & Hw & _).
    destruct (request _ _ _ _ _ _ s) as [[res | e] s1]; cbn [fst snd] in *.
    + split; [exists k; auto |]. intros r [= <-]. reflexivity.
    + split; [exists k; auto |]. discriminate.
  - intros c Hprovider Hclient. unfold send, with_http_client, bind, post.
    rewrite Hprovider, Hclient. cbn [String.eqb Ascii.eqb Bool.eqb].
    destruct (request_wire c POST [Lit "/emails"] None None
                (Some (resend_body self payload)) s) as (k & Hk & Hw & _).
    destruct (request _ _ _ _ _ _ s) as [[res | e] s1]; cbn [fst snd] in *.
    + split; [exists k; auto |]. intros r [= <-]. reflexivity.
    + split; [exists k; auto |]. discriminate.
  - intros Hsendgrid Hresend. unfold send.
    destruct (String.eqb_spec (provider self) "sendgrid"); [contradiction |].
    destruct (String.eqb_spec (provider self) "resend"); [contradiction |].
    destruct (smtp (world s) _) as [w [e |]]; cbn [fst snd wire].
    + split; [reflexivity | discriminate].
    + split; [reflexivity |]. intros r [= <-]. reflexivity.
Qed.

Lemma send_channels_witness :
  wire (snd (send Examples.mailer
               (EmailPayload.make "ops@example.com" "Hello" "<p>hi</p>" None)
               (Scripted.start [])))
  = [].
Proof.
  apply (proj2 (proj2 (send_channels Examples.mailer
                         (EmailPayload.make "ops@example.com" "Hello" "<p>hi</p>" None)
                         (Scripted.start [])))); discriminate.
Defined.

(** ** More on the orchestrator *)

Section Loop_finishes.
Context {W : Type} `{!Remote W} `{!Pydantic} `{!Asyncio W}.

(** The loop of the executor on an agent that follows a plan whose calls all
    succeed. *)
Lemma agent_loop_finishes self input plan final :
  llm self = follow_plan plan final ->
  forall todo n done (s s' : State W) observations,
    (forall i, plan !! (List.length done + i)%nat = todo !! i) ->
    (List.length todo < n)%nat ->
    run_tools self todo s = (Returned observations, s') ->
    agent_loop n self input done s = (Returned final, s').
Proof.
  intros Hllm. induction todo as [| c rest IH]; intros n done s s' obs Hplan Hn Hrun.
  - injection Hrun as <- <-. destruct n as [| n]; [cbn in Hn; lia |].
    assert (Hstep : llm self input done = AgentFinish final).
    { rewrite Hllm. unfold follow_plan. pose proof (Hplan 0%nat) as H0.
      rewrite Nat.add_0_r in H0. rewrite H0. reflexivity. }
    cbn [agent_loop]. rewrite Hstep. reflexivity.
  - destruct n as [| n]; [cbn in Hn; lia |].
    assert (Hstep : llm self input done = AgentActions [c]).
    { rewrite Hllm. unfold follow_plan. pose proof (Hplan 0%nat) as H0.
      rewrite Nat.add_0_r in H0. rewrite H0. reflexivity. }
    cbn [agent_loop]. rewrite Hstep.
    cbn [run_tools] in Hrun. unfold bind in Hrun |- *. rewrite gather_run_tool.
    destruct (run_tool self c s) as [[o | e0] s1]; [| discriminate].
    destruct (run_tools self rest s1) as [[os | e0] s2] eqn:Hrest; [| discriminate].
    injection Hrun as <- <-.
    apply (IH n (done ++ [o]) s1 s2 os).
    + intros i. rewrite length_app. cbn [List.length].
      replace (List.length done + 1 + i)%nat with (List.length done + S i)%nat by lia.
      apply (Hplan (S i)).
    + cbn [List.length] in Hn. lia.
    + exact Hrest.
Qed.

End Loop_finishes.

(** X20. [run] never raises: whatever the agent decides and whatever the
    tools do, it returns either the output of the agent or one message made
    of the exception that stopped the run, and it logs one error exactly in
    the second case. *)
Theorem run_never_raises {W} `{!Remote W} `{!Pydantic} `{!Asyncio W}
    (self : OrchestratorAgent) (input : string) (s : State W) :
  (exists result s1,
     ainvoke self input s = (Returned result, s1)
     /\ run self input s
        = (Returned (Output (dict_get result "output" (VStr "Done"))), s1))
  \/ (exists e s1,
        ainvoke self input s = (Raised e, s1)
        /\ run self input s
           = (Returned (Message (failure_message e)), logged ERROR (failure_log e) s1)).
Proof.
  unfold run, try_except, bind.
  destruct (ainvoke self input s) as [[result | e] s1].
  - left. exists result, s1. auto.
  - right. exists e, s1. split; [reflexivity |]. destruct e; reflexivity.
Qed.

(** X21. When the agent follows a plan, one operation per step, that is
    shorter than the iteration limit and every operation of it succeeds,
    payload validation included, [run] returns the output the agent
    finishes with (["Done"] when it names none); the tools entered are the
    operations of the plan, each once, in the order of the plan. *)
Theorem run_completes_plan {W} `{!Remote W} `{!Pydantic} `{!Asyncio W}
    (self : OrchestratorAgent) (input : string) (plan : list ToolCall)
    (final : gmap string value) (observations : list value) (s s' : State W) :
  llm self = follow_plan plan final ->
  (List.length plan < max_iterations)%nat ->
  run_tools self plan s = (Returned observations, s') ->
  run self input s = (Returned (Output (dict_get final "output" (VStr "Done"))), s')
  /\ invoked s' = invoked s ++ plan.
Proof.
  intros Hllm Hlen Hrun. split.
  - unfold run, ainvoke, try_except, bind.
    rewrite (agent_loop_finishes self input plan final Hllm plan max_iterations [] s s'
               observations (fun i => eq_refl) Hlen Hrun).
    unfold ret, dict_get. rewrite lookup_union, lookup_singleton_ne by discriminate.
    destruct (final !! "output"); reflexivity.
  - destruct (run_tools_invoked self plan s s' observations Hrun) as [Hi _]. exact Hi.
Qed.

Section Plan_examples.
#[local] Existing Instance Plain.pydantic.
#[local] Existing Instance Plain.asyncio.

Lemma run_completes_plan_witness :
  let plan := [call_create_contact "ada@example.com" (Some "Ada") None None;
               call_create_deal None (Some float_42_5) None None None;
               call_send_confirmation_email None None "<p>done</p>"] in
  let self := mkOrchestrator Examples.agent Examples.mailer (follow_plan plan ∅) in
  let s := Scripted.start [Scripted.json_response 201 (VDict Examples.ada);
                           Scripted.json_response 201 (VDict Examples.created_deal)] in
  fst (run self "Add Ada and open a 42.5 deal" s) = Returned (Output (VStr "Done"))
  /\ invoked (snd (run self "Add Ada and open a 42.5 deal" s)) = plan.
Proof.
  intros plan self s.
  destruct (run_tools self plan s) as [o s'] eqn:Hrun.
  assert (Ho : o = Returned
                 [tool_result "create_contact" (VDict Examples.ada);
                  tool_result "create_deal" (VDict Examples.created_deal);
                  tool_result "send_email"
                    (VDict {[ "status" := VStr "sent"; "provider" := VStr "smtp" ]})])
    by (injection Hrun as <- _; reflexivity).
  subst o.
  assert (Hlen : (List.length plan < max_iterations)%nat)
    by (unfold max_iterations; simpl; lia).
  destruct (run_completes_plan self "Add Ada and open a 42.5 deal" plan ∅ _ s s'
              eq_refl Hlen Hrun) as [Hout Hinvoked].
  rewrite Hout. split; [reflexivity | exact Hinvoked].
Defined.

End Plan_examples.

(** ** Construction *)

Lemma lower_ascii_idempotent c : lower_ascii (lower_ascii c) = lower_ascii c.
Proof.
  unfold lower_ascii.
  destruct ((65 <=? nat_of_ascii c)%nat && (nat_of_ascii c <=? 90)%nat) eqn:Hupper.
  - apply andb_prop in Hupper. destruct Hupper as [Hlo Hhi].
    apply Nat.leb_le in Hlo. apply Nat.leb_le in Hhi.
    rewrite nat_ascii_embedding by lia.
    destruct (65 <=? nat_of_ascii c + 32)%nat eqn:H1;
      destruct (nat_of_ascii c + 32 <=? 90)%nat eqn:H2; cbn [andb]; try reflexivity.
    apply Nat.leb_le in H2. lia.
  - rewrite Hupper. reflexivity.
Qed.

Lemma lower_idempotent s : lower (lower s) = lower s.
Proof.
  induction s as [| c rest IH]; [reflexivity |].
  cbn [lower]. rewrite lower_ascii_idempotent, IH. reflexivity.
Qed.

Lemma nonempty_None o : nonempty o = None -> truthy_str o = false.
Proof.
  unfold nonempty. destruct (truthy_str o) eqn:Ho; [| reflexivity].
  intros ->. discriminate Ho.
Qed.

Lemma nonempty_truthy o v : nonempty o = Some v -> truthy_str o = true.
Proof. unfold nonempty. destruct (truthy_str o); [reflexivity | discriminate]. Qed.

(** X22. [EmailAgent.__init__] succeeds only for the providers [sendgrid],
    [resend] and [smtp] (in any letter case) with a sender configured.  An
    agent it builds for [sendgrid] or [resend] always has its HTTP client,
    set to the base URL of the provider with the configured non-empty key as
    bearer token; one built for [smtp] has a non-empty host and no client. *)
Theorem EmailAgent_init_builds_usable_agent (config : EmailConfig.t) (self : EmailAgent) :
  EmailAgent_init config = Returned self ->
  provider self = lower (default "sendgrid" (EmailConfig.provider config))
  /\ EmailConfig.from_email config = Some (from_email self)
  /\ _smtp self = EmailConfig.smtp config
  /\ ((provider self = "sendgrid"
       /\ exists key, nonempty (EmailConfig.sendgrid_api_key config) = Some key
            /\ _http_client self
               = Some (mkClient "https://api.sendgrid.com/v3" (bearer_json_headers key)))
      \/ (provider self = "resend"
          /\ exists key, nonempty (EmailConfig.resend_api_key config) = Some key
               /\ _http_client self
                  = Some (mkClient "https://api.resend.com" (bearer_json_headers key)))
      \/ (provider self = "smtp"
          /\ truthy_str (host (_smtp self)) = true
          /\ _http_client self = None)).
Proof.
  unfold EmailAgent_init.
  destruct (EmailConfig.from_email config) as [sender |]; [| discriminate].
  set (p := lower (default "sendgrid" (EmailConfig.provider config))).
  destruct (String.eqb_spec p "sendgrid") as [Hp | _].
  { destruct (nonempty (EmailConfig.sendgrid_api_key config)) as [key |] eqn:Hkey;
      [| discriminate].
    intros [= <-]. cbn. repeat split; auto. left. split; [exact Hp |]. exists key. auto. }
  destruct (String.eqb_spec p "resend") as [Hp | _].
  { destruct (nonempty (EmailConfig.resend_api_key config)) as [key |] eqn:Hkey;
      [| discriminate].
    intros [= <-]. cbn. repeat split; auto. right. left. split; [exact Hp |]. exists key. auto. }
  destruct (String.eqb_spec p "smtp") as [Hp | _]; [| discriminate].
  destruct (truthy_str (host (EmailConfig.smtp config))) eqn:Hhost; [| discriminate].
  intros [= <-]. cbn. repeat split; auto.
Qed.

Lemma EmailAgent_init_builds_usable_agent_witness :
  exists self,
    EmailAgent_init (EmailConfig.make (Some "SendGrid") (Some "crm@example.com") None
                       (Some "SG.key") None (mkSmtp None 587 None None true))
    = Returned self
    /\ provider self = "sendgrid"
    /\ _http_client self
       = Some (mkClient "https://api.sendgrid.com/v3" (bearer_json_headers "SG.key")).
Proof.
  eexists. split; [reflexivity |].
  destruct (EmailAgent_init_builds_usable_agent
              (EmailConfig.make (Some "SendGrid") (Some "crm@example.com") None
                 (Some "SG.key") None (mkSmtp None 587 None None true)) _ eq_refl)
    as (Hp & _ & _ & _).
  split; [exact Hp | reflexivity].
Defined.

(** X23. What [_config_from_env] answers.  It raises only when the three
    required variables are set and [SMTP_PORT] is not a number, whatever the
    provider.  Otherwise it returns a configuration exactly when
    [OPENAI_API_KEY], [HUBSPOT_API_KEY] and [EMAIL_FROM_EMAIL] are non-empty
    and the provider (default [sendgrid], any letter case) is [sendgrid]
    with [SENDGRID_API_KEY], [resend] with [RESEND_API_KEY] or [smtp] with
    [SMTP_HOST] non-empty; in every other case it returns [None]. *)
Theorem config_from_env_cases (int : string -> option Z) (env : gmap string string) :
  let required :=
    truthy_str (env !! "OPENAI_API_KEY") && truthy_str (env !! "HUBSPOT_API_KEY")
    && truthy_str (env !! "EMAIL_FROM_EMAIL") in
  let p := lower (default "sendgrid" (env !! "EMAIL_PROVIDER")) in
  let credential :=
    if String.eqb p "sendgrid" then truthy_str (env !! "SENDGRID_API_KEY")
    else if String.eqb p "resend" then truthy_str (env !! "RESEND_API_KEY")
    else if String.eqb p "smtp" then truthy_str (env !! "SMTP_HOST")
    else false in
  match _config_from_env int env with
  | Raised _ => required = true /\ int (default "587" (env !! "SMTP_PORT")) = None
  | Returned None => required = false \/ credential = false
  | Returned (Some config) =>
      required = true /\ credential = true
      /\ env !! "OPENAI_API_KEY" = Some (Config.openai_api_key config)
      /\ env !! "HUBSPOT_API_KEY" = Some (Config.hubspot_api_key config)
      /\ EmailConfig.from_email (Config.email config) = env !! "EMAIL_FROM_EMAIL"
      /\ EmailConfig.provider (Config.email config) = Some p
      /\ Some (port (EmailConfig.smtp (Config.email config)))
         = int (default "587" (env !! "SMTP_PORT"))
  end.
Proof.
  intros required p credential. subst required credential. unfold _config_from_env.
  fold p.
  destruct (nonempty (env !! "OPENAI_API_KEY")) as [ok |] eqn:Hok.
  2:{ left. rewrite (nonempty_None _ Hok). reflexivity. }
  destruct (nonempty (env !! "HUBSPOT_API_KEY")) as [hk |] eqn:Hhk.
  2:{ left. rewrite (nonempty_None _ Hhk). rewrite andb_false_r. reflexivity. }
  destruct (nonempty (env !! "EMAIL_FROM_EMAIL")) as [fe |] eqn:Hfe.
  2:{ left. rewrite (nonempty_None _ Hfe). apply andb_false_r. }
  rewrite (nonempty_truthy _ _ Hok), (nonempty_truthy _ _ Hhk), (nonempty_truthy _ _ Hfe).
  apply nonempty_Some in Hok. apply nonempty_Some in Hhk. apply nonempty_Some in Hfe.
  destruct Hok as [Hok _], Hhk as [Hhk _], Hfe as [Hfe _].
  destruct (int (default "587" (env !! "SMTP_PORT"))) as [n |] eqn:Hint; [| auto].
  destruct (String.eqb p "sendgrid").
  { destruct (nonempty (env !! "SENDGRID_API_KEY")) as [key |] eqn:Hkey.
    - rewrite (nonempty_truthy _ _ Hkey). cbn. auto 10.
    - right. apply (nonempty_None _ Hkey). }
  destruct (String.eqb p "resend").
  { destruct (nonempty (env !! "RESEND_API_KEY")) as [key |] eqn:Hkey.
    - rewrite (nonempty_truthy _ _ Hkey). cbn. auto 10.
    - right. apply (nonempty_None _ Hkey). }
  destruct (String.eqb p "smtp"); [| auto].
  destruct (truthy_str (env !! "SMTP_HOST")) eqn:Hhost; [| auto].
  cbn. auto 10.
Qed.

(** X24. A configuration that [_config_from_env] returns always builds both
    agents in [async_main]: the checks of the two constructors are met.  The
    HubSpot client carries [HUBSPOT_API_KEY] as its bearer token, even when
    [HUBSPOT_ACCESS_TOKEN] is set too, and the mail agent has the provider
    and the sender of the environment. *)
Theorem env_config_builds_agents (int : string -> option Z)
    (env : gmap string string) (config : Config.t) :
  _config_from_env int env = Returned (Some config) ->
  exists hubspot_agent email_agent,
    build_agents env config = Returned (hubspot_agent, email_agent)
    /\ default_headers (client hubspot_agent)
       = {[ "Authorization" := "Bearer " +:+ Config.hubspot_api_key config ]}
    /\ env !! "HUBSPOT_API_KEY" = Some (Config.hubspot_api_key config)
    /\ provider email_agent = lower (default "sendgrid" (env !! "EMAIL_PROVIDER"))
    /\ env !! "EMAIL_FROM_EMAIL" = Some (from_email email_agent).
Proof.
  unfold _config_from_env.
  set (p := lower (default "sendgrid" (env !! "EMAIL_PROVIDER"))).
  destruct (nonempty (env !! "OPENAI_API_KEY")) as [ok |]; [| discriminate].
  destruct (nonempty (env !! "HUBSPOT_API_KEY")) as [hk |] eqn:Hhk; [| discriminate].
  destruct (nonempty (env !! "EMAIL_FROM_EMAIL")) as [fe |] eqn:Hfe; [| discriminate].
  apply nonempty_Some in Hhk. destruct Hhk as [Hhk Hhk_ne].
  apply nonempty_Some in Hfe. destruct Hfe as [Hfe _].
  destruct (int _) as [n |]; [| discriminate].
  assert (Hhub : forall base,
             HubSpotAgent_init (or_else (Some hk) (env !! "HUBSPOT_ACCESS_TOKEN"))
               (env !! "HUBSPOT_ACCESS_TOKEN") base
             = Returned (mkHubSpot (AsyncApiClient_init base
                                      (Some {[ "Authorization" := "Bearer " +:+ hk ]})))).
  { intros base. unfold HubSpotAgent_init.
    assert (Htrue : truthy_str (Some hk) = true).
    { unfold truthy_str. destruct (String.eqb_spec hk ""); [contradiction | reflexivity]. }
    unfold or_else at 2. rewrite Htrue. unfold or_else. rewrite Htrue.
    unfold nonempty. rewrite Htrue. reflexivity. }
  assert (Hlow : lower p = p) by apply lower_idempotent.
  destruct (String.eqb p "sendgrid") eqn:Hsendgrid.
  { destruct (nonempty (env !! "SENDGRID_API_KEY")) as [key |] eqn:Hkey; [| discriminate].
    intros [= <-]. unfold build_agents. cbn [Config.hubspot_api_key Config.hubspot_base_url
      Config.email]. rewrite Hhub. unfold EmailAgent_init.
    cbn [EmailConfig.provider EmailConfig.from_email EmailConfig.sendgrid_api_key].
    change (lower (default "sendgrid" (Some p))) with (lower p).
    rewrite Hlow, Hsendgrid.
    assert (Hkey' : nonempty (Some key) = Some key).
    { apply nonempty_Some in Hkey. apply nonempty_of_Some. tauto. }
    rewrite Hkey'. eexists. eexists. split; [reflexivity |]. cbn. auto. }
  destruct (String.eqb p "resend") eqn:Hresend.
  { destruct (nonempty (env !! "RESEND_API_KEY")) as [key |] eqn:Hkey; [| discriminate].
    intros [= <-]. unfold build_agents. cbn [Config.hubspot_api_key Config.hubspot_base_url
      Config.email]. rewrite Hhub. unfold EmailAgent_init.
    cbn [EmailConfig.provider EmailConfig.from_email EmailConfig.resend_api_key].
    change (lower (default "sendgrid" (Some p))) with (lower p).
    rewrite Hlow, Hsendgrid, Hresend.
    assert (Hkey' : nonempty (Some key) = Some key).
    { apply nonempty_Some in Hkey. apply nonempty_of_Some. tauto. }
    rewrite Hkey'. eexists. eexists. split; [reflexivity |]. cbn. auto. }
  destruct (String.eqb p "smtp") eqn:Hsmtp; [| discriminate].
  destruct (truthy_str (env !! "SMTP_HOST")) eqn:Hhost; [| discriminate].
  intros [= <-]. unfold build_agents. cbn [Config.hubspot_api_key Config.hubspot_base_url
    Config.email]. rewrite Hhub. unfold EmailAgent_init.
  cbn [EmailConfig.provider EmailConfig.from_email EmailConfig.smtp host].
  change (lower (default "sendgrid" (Some p))) with (lower p).
  rewrite Hlow, Hsendgrid, Hresend, Hsmtp, Hhost.
  eexists. eexists. split; [reflexivity |]. cbn. auto.
Qed.

Lemma env_config_builds_agents_witness :
  let env : gmap string string :=
    {[ "OPENAI_API_KEY" := "sk-0"; "HUBSPOT_API_KEY" := "pat-na1-0000";
       "HUBSPOT_ACCESS_TOKEN" := "pat-other";
       "EMAIL_FROM_EMAIL" := "crm@example.com"; "EMAIL_PROVIDER" := "SMTP";
       "SMTP_HOST" := "smtp.example.com"; "SMTP_PORT" := "2525" ]} in
  exists config hubspot_agent email_agent,
    _config_from_env int_of_digits env = Returned (Some config)
    /\ build_agents env config = Returned (hubspot_agent, email_agent)
    /\ default_headers (client hubspot_agent) = {[ "Authorization" := "Bearer pat-na1-0000" ]}
    /\ port (_smtp email_agent) = 2525%Z.
Proof.
  intros env.
  destruct (_config_from_env int_of_digits env) as [[config |] | e] eqn:Hconfig;
    try (exfalso; vm_compute in Hconfig; discriminate Hconfig).
  destruct (env_config_builds_agents int_of_digits env config Hconfig)
    as (hubspot_agent & email_agent & Hbuild & Hheaders & _).
  exists config, hubspot_agent, email_agent.
  split; [reflexivity | split; [exact Hbuild | split]].
  - rewrite Hheaders. vm_compute in Hconfig. injection Hconfig as <-. reflexivity.
  - vm_compute in Hconfig. injection Hconfig as <-.
    vm_compute in Hbuild. injection Hbuild as _ <-. reflexivity.
Defined.

(** ** The HTTP front (api_server.py) *)

Section Api_server_facts.
Import ApiServer.
Variable strip : string -> string.
Context {B : Type}.
Variable async_main : B -> fstring -> B * outcome string.

Lemma guarded_answered log_prefix error_prefix (body : H B Reply) s :
  (forall reply s', body s = (Returned reply, s') ->
     (snd reply = 400%Z /\ s' = s)
     \/ (snd reply = 200%Z /\ fst reply !! "status" = Some [Lit "success"]
         /\ exists query output,
              async_main (backend s) query = (backend s', Returned output))) ->
  (forall e s', body s = (Raised e, s') ->
     backend s' = backend s
     \/ exists query e', async_main (backend s) query = (backend s', Raised e')) ->
  answered async_main s (guarded log_prefix error_prefix body s).
Proof.
  intros Hok Herr. unfold answered, guarded.
  destruct (body s) as [[reply | e] s'] eqn:Hbody.
  - destruct (Hok reply s' eq_refl) as [H400 | H200]; [left | right; right]; assumption.
  - right. left. cbn [fst snd backend]. split; [reflexivity | split; [reflexivity |]].
    apply (Herr e s' eq_refl).
Qed.

Lemma run_main_inv query (s s1 : Server B) o :
  run_main async_main query s = (o, s1) ->
  async_main (backend s) query = (backend s1, o).
Proof.
  unfold run_main. destruct (async_main (backend s) query) as [b out].
  intros [= <- <-]. reflexivity.
Qed.

(** The last steps of a handler: [async_main] is run on the query, and what
    follows it only builds the reply. *)
Lemma finish_answered query (s0 s : Server B) (finish : string -> H B Reply) :
  backend s0 = backend s ->
  (forall output s1, exists reply s2,
      finish output s1 = (Returned reply, s2) /\ backend s2 = backend s1
      /\ snd reply = 200%Z /\ fst reply !! "status" = Some [Lit "success"]) ->
  (forall reply s',
      hbind (run_main async_main query) finish s0 = (Returned reply, s') ->
      (snd reply = 400%Z /\ s' = s)
      \/ (snd reply = 200%Z /\ fst reply !! "status" = Some [Lit "success"]
          /\ exists query output,
               async_main (backend s) query = (backend s', Returned output)))
  /\ (forall e s',
        hbind (run_main async_main query) finish s0 = (Raised e, s') ->
        backend s' = backend s
        \/ exists query e', async_main (backend s) query = (backend s', Raised e')).
Proof.
  intros Hback Hfinish. unfold hbind.
  destruct (run_main async_main query s0) as [[output | e] s1] eqn:Hrun;
    apply run_main_inv in Hrun; rewrite Hback in Hrun.
  - destruct (Hfinish output s1) as (reply & s2 & -> & Hb & Hstatus & Htag). split.
    + intros reply' s' [= <- <-]. right. rewrite Hb. eauto.
    + discriminate.
  - split; [discriminate |]. intros e' s' [= <- <-]. right. eauto.
Qed.

Lemma chat_answered get_json s : answered async_main s (chat strip async_main get_json s).
Proof.
  unfold chat. apply guarded_answered; unfold hbind at 1 2 3 4 5, hlift, hlog.
  - destruct get_json as [data | e]; [| discriminate].
    destruct (lacks "query" data) as [[|] | e]; try discriminate.
    + intros reply s' [= <- <-]. left. auto.
    + destruct (py_getitem data "query") as [query | e]; [| discriminate].
      destruct (py_strip strip query) as [user_query | e]; [| discriminate].
      destruct (String.eqb user_query "").
      * intros reply s' [= <- <-]. left. auto.
      * apply finish_answered; [reflexivity |].
        intros output s1. eexists. eexists. split; [reflexivity |]. auto.
  - destruct get_json as [data | e]; [| intros e' s' [= <- <-]; left; reflexivity].
    destruct (lacks "query" data) as [[|] | e];
      [discriminate | | intros e' s' [= <- <-]; left; reflexivity].
    destruct (py_getitem data "query") as [query | e];
      [| intros e' s' [= <- <-]; left; reflexivity].
    destruct (py_strip strip query) as [user_query | e];
      [| intros e' s' [= <- <-]; left; reflexivity].
    destruct (String.eqb user_query ""); [discriminate |].
    apply finish_answered; [reflexivity |].
    intros output s1. eexists. eexists. split; [reflexivity |]. auto.
Qed.

Lemma create_contact_answered get_json s :
  answered async_main s (ApiServer.create_contact strip async_main get_json s).
Proof.
  unfold ApiServer.create_contact.
  apply guarded_answered; unfold hbind at 1 2 3 4 5 6 7, hlift, hret.
  - destruct get_json as [data | e]; [| discriminate].
    destruct (lacks "email" data) as [[|] | e]; try discriminate.
    + intros reply s' [= <- <-]. left. auto.
    + destruct (py_getitem data "email") as [email | e]; [| discriminate].
      destruct (add_part data "firstName" _ _) as [q1 | e]; [| discriminate].
      destruct (add_part data "lastName" _ _) as [q2 | e]; [| discriminate].
      destruct (add_part data "phone" _ _) as [q3 | e]; [| discriminate].
      apply finish_answered; [reflexivity |].
      intros output s1. eexists. eexists. split; [reflexivity |]. auto.
  - destruct get_json as [data | e]; [| intros e' s' [= <- <-]; left; reflexivity].
    destruct (lacks "email" data) as [[|] | e];
      [discriminate | | intros e' s' [= <- <-]; left; reflexivity].
    destruct (py_getitem data "email") as [email | e];
      [| intros e' s' [= <- <-]; left; reflexivity].
    destruct (add_part data "firstName" _ _) as [q1 | e];
      [| intros e' s' [= <- <-]; left; reflexivity].
    destruct (add_part data "lastName" _ _) as [q2 | e];
      [| intros e' s' [= <- <-]; left; reflexivity].
    destruct (add_part data "phone" _ _) as [q3 | e];
      [| intros e' s' [= <- <-]; left; reflexivity].
    apply finish_answered; [reflexivity |].
    intros output s1. eexists. eexists. split; [reflexivity |]. auto.
Qed.

Lemma create_deal_answered get_json s :
  answered async_main s (ApiServer.create_deal strip async_main get_json s).
Proof.
  unfold ApiServer.create_deal.
  apply guarded_answered; unfold hbind at 1 2 3 4 5 6, hlift, hret.
  - destruct get_json as [data | e]; [| discriminate].
    destruct (add_part data "dealName" _ _) as [q1 | e]; [| discriminate].
    destruct (add_part data "amount" _ _) as [q2 | e]; [| discriminate].
    destruct (add_part data "stage" _ _) as [q3 | e]; [| discriminate].
    destruct (add_part data "associated_contact_email" _ _) as [q4 | e]; [| discriminate].
    apply finish_answered; [reflexivity |].
    intros output s1. eexists. eexists. split; [reflexivity |]. auto.
  - destruct get_json as [data | e]; [| intros e' s' [= <- <-]; left; reflexivity].
    destruct (add_part data "dealName" _ _) as [q1 | e];
      [| intros e' s' [= <- <-]; left; reflexivity].
    destruct (add_part data "amount" _ _) as [q2 | e];
      [| intros e' s' [= <- <-]; left; reflexivity].
    destruct (add_part data "stage" _ _) as [q3 | e];
      [| intros e' s' [= <- <-]; left; reflexivity].
    destruct (add_part data "associated_contact_email" _ _) as [q4 | e];
      [| intros e' s' [= <- <-]; left; reflexivity].
    apply finish_answered; [reflexivity |].
    intros output s1. eexists. eexists. split; [reflexivity |]. auto.
Qed.

End Api_server_facts.

(** X25. The three handlers of the HTTP front always answer, whatever the
    body of the request and whatever [async_main] does: with 400 and nothing
    run or logged; with 500 and an error tag when something raised, at most
    one run of [async_main] behind it; or with 200 and a success tag after
    exactly one run of [async_main] that returned. *)
Theorem handlers_always_answer (strip : string -> string) {B : Type}
    (async_main : B -> fstring -> B * outcome string)
    (get_json : outcome value) (s : ApiServer.Server B) :
  ApiServer.answered async_main s (ApiServer.chat strip async_main get_json s)
  /\ ApiServer.answered async_main s (ApiServer.create_contact strip async_main get_json s)
  /\ ApiServer.answered async_main s (ApiServer.create_deal strip async_main get_json s).
Proof.
  split; [apply chat_answered | split; [apply create_contact_answered | apply create_deal_answered]].
Qed.

(** X26. [/chat] turns a request away before anything runs.  A body that is
    false (missing, null, empty) or an object without [query] is answered
    400 "Missing 'query' in request body"; an object whose [query] is a
    string that strips to nothing is answered 400 "Query cannot be empty".
    In both cases the state is untouched: [async_main] is not run and
    nothing is logged. *)
Theorem chat_rejects_unusable_queries (strip : string -> string) {B : Type}
    (async_main : B -> fstring -> B * outcome string)
    (data : value) (s : ApiServer.Server B) :
  ((truthy data = false \/ exists d, data = VDict d /\ d !! "query" = None) ->
   ApiServer.chat strip async_main (Returned data) s
   = (({[ "error" := [Lit "Missing 'query' in request body"] ]}, 400%Z), s))
  /\ (forall d q, data = VDict d -> d !! "query" = Some (VStr q) -> strip q = "" ->
        ApiServer.chat strip async_main (Returned data) s
        = (({[ "error" := [Lit "Query cannot be empty"] ]}, 400%Z), s)).
Proof.
  split.
  - intros Hbad. unfold ApiServer.chat, ApiServer.guarded, ApiServer.hbind, ApiServer.hlift,
      ApiServer.lacks.
    destruct (truthy data) eqn:Htruthy; cbn [negb]; [| reflexivity].
    destruct Hbad as [Hfalse | (d & -> & Hnone)]; [discriminate |].
    cbn [py_contains]. rewrite Hnone.
    rewrite bool_decide_eq_false_2 by (intros [x Hx]; discriminate). reflexivity.
  - intros d q -> Hquery Hblank.
    assert (Htruthy : truthy (VDict d) = true).
    { cbn [truthy]. rewrite bool_decide_eq_false_2; [reflexivity |].
      intros Hsize. apply map_size_empty_iff in Hsize. subst d.
      rewrite lookup_empty in Hquery. discriminate. }
    unfold ApiServer.chat, ApiServer.guarded, ApiServer.hbind, ApiServer.hlift,
      ApiServer.lacks.
    rewrite Htruthy. cbn [negb py_contains py_getitem]. rewrite Hquery.
    rewrite bool_decide_eq_true_2 by eauto. cbn [negb ApiServer.py_strip].
    rewrite Hblank. reflexivity.
Qed.

Lemma chat_rejects_unusable_queries_witness :
  ApiServer.chat ApiServer.strip_blank ApiServer.echo (Returned (VDict ∅))
    (ApiServer.mkServer 0%nat [])
  = (({[ "error" := [Lit "Missing 'query' in request body"] ]}, 400%Z),
     ApiServer.mkServer 0%nat [])
  /\ ApiServer.chat ApiServer.strip_blank ApiServer.echo
       (Returned (VDict {[ "query" := VStr "   " ]})) (ApiServer.mkServer 0%nat [])
     = (({[ "error" := [Lit "Query cannot be empty"] ]}, 400%Z),
        ApiServer.mkServer 0%nat []).
Proof.
  split.
  - apply (proj1 (chat_rejects_unusable_queries ApiServer.strip_blank ApiServer.echo
                    (VDict ∅) (ApiServer.mkServer 0%nat []))).
    left. reflexivity.
  - apply (proj2 (chat_rejects_unusable_queries ApiServer.strip_blank ApiServer.echo
                    (VDict {[ "query" := VStr "   " ]}) (ApiServer.mkServer 0%nat []))
             {[ "query" := VStr "   " ]} "   "); reflexivity.
Defined.

(** X27. The two direct endpoints check their bodies differently.
    [/api/contacts] answers 400 for a body that is false or an object
    without [email], with nothing run.  [/api/deals] has no such check: a
    body that is not a JSON object, null included, raises inside the handler
    and is answered 500 with [async_main] not run, while an object none of
    whose four fields is true, the empty object included, runs
    [async_main] on the bare query "Create a deal". *)
Theorem direct_endpoints_validation (strip : string -> string) {B : Type}
    (async_main : B -> fstring -> B * outcome string)
    (data : value) (s : ApiServer.Server B) :
  ((truthy data = false \/ exists d, data = VDict d /\ d !! "email" = None) ->
   ApiServer.create_contact strip async_main (Returned data) s
   = (({[ "error" := [Lit "Missing required fields"] ]}, 400%Z), s))
  /\ (isinstance_dict data = false ->
      exists e,
        ApiServer.create_deal strip async_main (Returned data) s
        = (({[ "error" := [Lit "Failed to create deal: "; StrExn e];
               "status" := [Lit "error"] ]}, 500%Z),
           ApiServer.mkServer (ApiServer.backend s)
             (ApiServer.journal s ++ [(ERROR, [Lit "Error creating deal: "; StrExn e])])))
  /\ (forall d, data = VDict d ->
        (forall k, In k ["dealName"; "amount"; "stage"; "associated_contact_email"] ->
                   truthy (dict_get d k VNone) = false) ->
        ApiServer.create_deal strip async_main (Returned data) s
        = ApiServer.guarded "Error creating deal: " "Failed to create deal: "
            (ApiServer.hbind (ApiServer.run_main async_main [Lit "Create a deal"])
               (fun output =>
                  ApiServer.hret
                    ({[ "message" := [Lit (if String.eqb (strip output) ""
                                           then "Deal created successfully"
                                           else strip output)];
                        "status" := [Lit "success"] ]}, 200%Z))) s).
Proof.
  split; [| split].
  - intros Hbad. unfold ApiServer.create_contact, ApiServer.guarded, ApiServer.hbind,
      ApiServer.hlift, ApiServer.lacks.
    destruct (truthy data) eqn:Htruthy; cbn [negb]; [| reflexivity].
    destruct Hbad as [Hfalse | (d & -> & Hnone)]; [discriminate |].
    cbn [py_contains]. rewrite Hnone.
    rewrite bool_decide_eq_false_2 by (intros [x Hx]; discriminate). reflexivity.
  - intros Hdict. exists (AttributeError "object has no attribute 'get'").
    unfold ApiServer.create_deal, ApiServer.guarded, ApiServer.hbind, ApiServer.hlift,
      ApiServer.hret, ApiServer.add_part.
    destruct data; try discriminate Hdict; reflexivity.
  - intros d -> Hfalse.
    unfold ApiServer.create_deal, ApiServer.hbind at 1 2 3 4 5, ApiServer.hlift,
      ApiServer.hret, ApiServer.add_part.
    cbn [py_get].
    rewrite (Hfalse "dealName"), (Hfalse "amount"), (Hfalse "stage"),
      (Hfalse "associated_contact_email") by (cbn; tauto).
    reflexivity.
Qed.

Lemma direct_endpoints_validation_witness :
  ApiServer.create_contact ApiServer.strip_blank ApiServer.echo
    (Returned (VDict {[ "firstName" := VStr "Ada" ]})) (ApiServer.mkServer 0%nat [])
  = (({[ "error" := [Lit "Missing required fields"] ]}, 400%Z), ApiServer.mkServer 0%nat [])
  /\ ApiServer.create_deal ApiServer.strip_blank ApiServer.echo
       (Returned (VDict {[ "amount" := VInt 0 ]})) (ApiServer.mkServer 0%nat [])
     = (({[ "message" := [Lit "Done."]; "status" := [Lit "success"] ]}, 200%Z),
        ApiServer.mkServer 1%nat []).
Proof.
  split.
  - apply (proj1 (direct_endpoints_validation ApiServer.strip_blank ApiServer.echo
                    (VDict {[ "firstName" := VStr "Ada" ]}) (ApiServer.mkServer 0%nat []))).
    right. eexists. split; reflexivity.
  - rewrite (proj2 (proj2 (direct_endpoints_validation ApiServer.strip_blank ApiServer.echo
                              (VDict {[ "amount" := VInt 0 ]}) (ApiServer.mkServer 0%nat [])))
               {[ "amount" := VInt 0 ]} eq_refl).
    + reflexivity.
    + intros k [<- | [<- | [<- | [<- | []]]]]; reflexivity.
Defined.

(** ** The tools, the payloads they make and the executor *)

Ltac keyword_lookup :=
  repeat first [ rewrite lookup_insert_eq
               | rewrite lookup_insert_ne by discriminate
               | rewrite lookup_singleton_eq
               | rewrite lookup_singleton_ne by discriminate ];
  cbn [default from_option id].

Section Tool_payloads.
Context `{!Pydantic}.

(** The payloads of the tools: the keywords [first_name], [last_name] and
    [name] are no keyword the models read. *)
Lemma create_contact_tool_payload email firstName lastName phone :
  CreateContactInput_init {[ "email" := Some email; "first_name" := firstName;
                             "last_name" := lastName; "phone" := phone ]}
  = match EmailStr email with
    | Some address => Returned (CreateContactInput.make address None None phone)
    | None => Raised (PydanticValidationError "CreateContactInput")
    end.
Proof.
  unfold CreateContactInput_init, required_email, required_str, optional_str, and_then.
  keyword_lookup. destruct (EmailStr email); reflexivity.
Qed.

Lemma update_contact_tool_payload email firstName lastName phone :
  UpdateContactInput_init {[ "email" := Some email; "first_name" := firstName;
                             "last_name" := lastName; "phone" := phone ]}
  = match EmailStr email with
    | Some address => Returned (UpdateContactInput.make address None None phone)
    | None => Raised (PydanticValidationError "UpdateContactInput")
    end.
Proof.
  unfold UpdateContactInput_init, required_email, required_str, optional_str, and_then.
  keyword_lookup. destruct (EmailStr email); reflexivity.
Qed.

Lemma create_deal_tool_payload dealName amount stage pipeline associated_contact_email :
  CreateDealInput_init {[ "name" := dealName; "stage" := stage; "pipeline" := pipeline;
                          "associated_contact_email" := associated_contact_email ]} amount
  = match associated_contact_email with
    | None => Returned (CreateDealInput.make None amount stage pipeline None)
    | Some email =>
        match EmailStr email with
        | Some address =>
            Returned (CreateDealInput.make None amount stage pipeline (Some address))
        | None => Raised (PydanticValidationError "CreateDealInput")
        end
    end.
Proof.
  unfold CreateDealInput_init, optional_email, optional_str, and_then.
  keyword_lookup.
  destruct associated_contact_email as [email |]; [| reflexivity].
  destruct (EmailStr email); reflexivity.
Qed.

Lemma update_deal_tool_payload deal_id dealName amount stage pipeline :
  UpdateDealInput_init {[ "deal_id" := Some deal_id; "name" := dealName;
                          "stage" := stage; "pipeline" := pipeline ]} amount
  = Returned (UpdateDealInput.make deal_id None amount stage pipeline).
Proof.
  unfold UpdateDealInput_init, required_str, optional_str, and_then.
  keyword_lookup. reflexivity.
Qed.


End Tool_payloads.

(** X28. The names given to a record tool never reach the record service.
    Each of the four tools makes its payload with the keywords
    [first_name=], [last_name=] or [name=], which the models know under
    their aliases only: the payload handed to [HubSpotAgent] has no first
    name, no last name and no deal name, whatever the tool was called with.
    The other arguments pass (an email as the validator normalises it), so
    a contact is created with its email and phone only and updated with its
    phone only, and a deal is always named by the default rule.  An email
    that the validator rejects stops the tool before any request. *)
Theorem record_tools_drop_names {W} `{!Remote W} `{!Pydantic}
    (self : OrchestratorAgent) (s : State W) :
  (forall email firstName lastName phone address,
      EmailStr email = Some address ->
      run_tool self (call_create_contact email firstName lastName phone) s
      = (res <- create_contact (hubspot self)
                  (CreateContactInput.make address None None phone) ;;
         ret (tool_result "create_contact" res))
          (entered (call_create_contact email firstName lastName phone) s))
  /\ (forall email firstName lastName phone address,
        EmailStr email = Some address ->
        run_tool self (call_update_contact email firstName lastName phone) s
        = (res <- update_contact (hubspot self)
                    (UpdateContactInput.make address None None phone) ;;
           ret (tool_result "update_contact" res))
            (entered (call_update_contact email firstName lastName phone) s))
  /\ (forall dealName amount stage pipeline,
        run_tool self (call_create_deal dealName amount stage pipeline None) s
        = (res <- create_deal (hubspot self)
                    (CreateDealInput.make None amount stage pipeline None) ;;
           ret (tool_result "create_deal" res))
            (entered (call_create_deal dealName amount stage pipeline None) s))
  /\ (forall dealName amount stage pipeline email address,
        EmailStr email = Some address ->
        run_tool self (call_create_deal dealName amount stage pipeline (Some email)) s
        = (res <- create_deal (hubspot self)
                    (CreateDealInput.make None amount stage pipeline (Some address)) ;;
           ret (tool_result "create_deal" res))
            (entered (call_create_deal dealName amount stage pipeline (Some email)) s))
  /\ (forall deal_id dealName amount stage pipeline,
        run_tool self (call_update_deal deal_id dealName amount stage pipeline) s
        = (res <- update_deal (hubspot self)
                    (UpdateDealInput.make deal_id None amount stage pipeline) ;;
           ret (tool_result "update_deal" res))
            (entered (call_update_deal deal_id dealName amount stage pipeline) s))
  /\ (forall address phone key,
        create_contact_properties (CreateContactInput.make address None None phone) !! key
        = if decide (key = "email") then Some (VStr address)
          else if decide (key = "phone") then VStr <$> nonempty phone
          else None)
  /\ (forall address phone key,
        update_contact_properties (UpdateContactInput.make address None None phone) !! key
        = if decide (key = "phone") then VStr <$> phone else None)
  /\ (forall amount stage pipeline associated_contact_email,
        deal_name (CreateDealInput.make None amount stage pipeline associated_contact_email)
        = match nonempty associated_contact_email, amount with
          | Some email, _ => "Deal for " +:+ email
          | None, Some amount => "Deal " +:+ format_g amount
          | None, None => "Untitled Deal"
          end)
  /\ (forall deal_id amount stage pipeline,
        update_deal_properties (UpdateDealInput.make deal_id None amount stage pipeline)
          !! "dealname" = None)
  /\ (forall email firstName lastName phone dealName amount stage pipeline,
        EmailStr email = None ->
        run_tool self (call_create_contact email firstName lastName phone) s
        = (Raised (PydanticValidationError "CreateContactInput"),
           entered (call_create_contact email firstName lastName phone) s)
        /\ run_tool self (call_update_contact email firstName lastName phone) s
           = (Raised (PydanticValidationError "UpdateContactInput"),
              entered (call_update_contact email firstName lastName phone) s)
        /\ run_tool self (call_create_deal dealName amount stage pipeline (Some email)) s
           = (Raised (PydanticValidationError "CreateDealInput"),
              entered (call_create_deal dealName amount stage pipeline (Some email)) s)).
Proof.
  unfold run_tool.
  split; [| split; [| split; [| split; [| split; [| split; [| split; [| split; [| split]]]]]]]].
  - intros email firstName lastName phone address Hemail.
    rewrite create_contact_tool_payload, Hemail. reflexivity.
  - intros email firstName lastName phone address Hemail.
    rewrite update_contact_tool_payload, Hemail. reflexivity.
  - intros dealName amount stage pipeline.
    rewrite create_deal_tool_payload. reflexivity.
  - intros dealName amount stage pipeline email address Hemail.
    rewrite create_deal_tool_payload, Hemail. reflexivity.
  - intros deal_id dealName amount stage pipeline.
    rewrite update_deal_tool_payload. reflexivity.
  - intros address phone key. rewrite create_contact_properties_lookup.
    cbn [CreateContactInput.email CreateContactInput.first_name
         CreateContactInput.last_name CreateContactInput.phone].
    repeat destruct (decide _); subst; try discriminate; try reflexivity.
  - intros address phone key. rewrite update_contact_properties_lookup.
    cbn [UpdateContactInput.first_name UpdateContactInput.last_name
         UpdateContactInput.phone].
    repeat destruct (decide _); subst; try discriminate; try reflexivity.
  - intros amount stage pipeline associated_contact_email. unfold deal_name.
    cbn [CreateDealInput.name CreateDealInput.associated_contact_email
         CreateDealInput.amount].
    destruct (nonempty associated_contact_email), amount; reflexivity.
  - intros deal_id amount stage pipeline. rewrite update_deal_properties_lookup.
    reflexivity.
  - intros email firstName lastName phone dealName amount stage pipeline Hemail.
    rewrite create_contact_tool_payload, update_contact_tool_payload,
      create_deal_tool_payload, Hemail.
    repeat split.
Qed.

Section Tool_examples.
#[local] Existing Instance Plain.pydantic.

Lemma record_tools_drop_names_witness :
  let self := Examples.orchestrator in
  let s := Scripted.start [Scripted.json_response 201 (VDict Examples.ada)] in
  wire (snd (run_tool self (call_create_contact "ada@example.com" (Some "Ada")
                              (Some "Lovelace") None) s))
  = [outgoing (client Examples.agent) POST [Lit "/crm/v3/objects/contacts"] None None
       (Some (VDict {[ "properties" := VDict {[ "email" := VStr "ada@example.com" ]} ]}))].
Proof.
  intros self s.
  assert (Hvalid : EmailStr "ada@example.com" = Some "ada@example.com") by reflexivity.
  rewrite (proj1 (record_tools_drop_names self s) "ada@example.com" (Some "Ada")
             (Some "Lovelace") None "ada@example.com" Hvalid).
  reflexivity.
Defined.

End Tool_examples.


Section Recipient_examples.
#[local] Existing Instance Plain.pydantic.


End Recipient_examples.

(** X30. A time-out of a tool does not surface as an error.  When the
    agent takes its operations one per step and one of them raises
    [asyncio.TimeoutError] (as [request] does after three attempts that
    timed out), the executor takes it for its own time limit: [run] returns
    the stop text of the executor as the output, in the state the tool
    left, and logs no error. *)
Theorem tool_timeout_ends_run_quietly {W} `{!Remote W} `{!Pydantic} `{!Asyncio W}
    (self : OrchestratorAgent) (input : string)
    (pre : list ToolCall) (c : ToolCall) (rest : list ToolCall)
    (final : gmap string value) (observations : list value) (s sk s' : State W) :
  llm self = follow_plan (pre ++ c :: rest) final ->
  (List.length pre < max_iterations)%nat ->
  run_tools self pre s = (Returned observations, sk) ->
  run_tool self c sk = (Raised TimeoutError, s') ->
  run self input s
  = (Returned (Output (VStr "Agent stopped due to max iterations.")), s').
Proof.
  intros Hllm Hlen Hpre Hfail.
  assert (Hloop : agent_loop max_iterations self input [] s = (Raised TimeoutError, s')).
  { apply (agent_loop_raises self input (pre ++ c :: rest) final pre c TimeoutError Hllm
             max_iterations [] s sk s' observations).
    - cbn [List.length Nat.add]. rewrite lookup_app_r by lia.
      rewrite Nat.sub_diag. reflexivity.
    - intros i x Hi. cbn [List.length Nat.add]. apply lookup_app_l_Some. exact Hi.
    - exact Hlen.
    - exact Hpre.
    - exact Hfail. }
  unfold run, ainvoke, try_except, bind. rewrite Hloop. reflexivity.
Qed.

Section Timeout_examples.
#[local] Existing Instance Plain.pydantic.
#[local] Existing Instance Plain.asyncio.

Lemma tool_timeout_ends_run_quietly_witness :
  let s := Scripted.start [Raises TimeoutError; Raises TimeoutError; Raises TimeoutError] in
  fst (run Examples.orchestrator "Add Ada, rename Bob, open a 42.5 deal" s)
  = Returned (Output (VStr "Agent stopped due to max iterations."))
  /\ List.length (wire (snd (run Examples.orchestrator
                               "Add Ada, rename Bob, open a 42.5 deal" s))) = 3%nat.
Proof.
  intros s.
  destruct (run_tool Examples.orchestrator
              (call_create_contact "ada@example.com" (Some "Ada") None None) s)
    as [o s'] eqn:Hfail.
  assert (Ho : o = Raised TimeoutError) by (injection Hfail as <- _; reflexivity).
  assert (Hwire : List.length (wire s') = 3%nat) by (injection Hfail as _ <-; reflexivity).
  subst o.
  assert (Hlen : (List.length (@nil ToolCall) < max_iterations)%nat)
    by (unfold max_iterations; simpl; lia).
  assert (Hllm : llm Examples.orchestrator
                 = follow_plan
                     ([] ++ call_create_contact "ada@example.com" (Some "Ada") None None
                         :: [call_update_contact "bob@example.com" (Some "Bob") None (Some "");
                             call_create_deal None (Some float_42_5) None None None;
                             call_send_confirmation_email None None "<p>done</p>"])
                     {[ "output" := VStr "All done." ]}) by reflexivity.
  assert (Hpre : run_tools Examples.orchestrator [] s = (Returned [], s)) by reflexivity.
  rewrite (tool_timeout_ends_run_quietly Examples.orchestrator
             "Add Ada, rename Bob, open a 42.5 deal" []
             (call_create_contact "ada@example.com" (Some "Ada") None None)
             [call_update_contact "bob@example.com" (Some "Bob") None (Some "");
              call_create_deal None (Some float_42_5) None None None;
              call_send_confirmation_email None None "<p>done</p>"]
             {[ "output" := VStr "All done." ]} [] s s s' Hllm Hlen Hpre Hfail).
  split; [reflexivity | exact Hwire].
Defined.

End Timeout_examples.
